(** * Global connectivity trends 2000-2024: the fetch / clean / visualize pipeline

    A shallow embedding of the three batch stages of the repository

    - [src/fetch_worldbank_data.py]   (module [Fetcher]),
    - [src/data_cleaning.py]          (module [Cleaner]),
    - [analysis/generate_visualizations.py] (module [Visualizer]),

    together with the properties of the pipeline's specification, stated
    and proved (or refuted) over that embedding. *)

From Stdlib Require Import QArith Qcanon Ascii.
From stdpp Require Import gmap strings list numbers sorting.

Local Open Scope string_scope.
Local Open Scope list_scope.
#[local] Set Warnings "-register-all".

(** ** Python values shared by the three stages *)

Module Py.

(** The exceptions the scripts can meet.  [RequestException] is the only
    one the Fetcher catches by name; the others are the built-in errors
    raised by indexing, attribute access and casts.  [DanglingReference]
    is the model's own: a reference to no object, which no program holds. *)
Inductive exn :=
| RequestException
| KeyError (key : string)
| IndexError
| TypeError
| AttributeError
| DanglingReference.

(** The result of running a statement: a value, or a raised exception. *)
Inductive outcome (A : Type) :=
| Return (a : A)
| Raise (e : exn).
Arguments Return {A} a.
Arguments Raise {A} e.

Definition bind {A B} (x : outcome A) (f : A -> outcome B) : outcome B :=
  match x with
  | Return a => f a
  | Raise e => Raise e
  end.

#[global] Instance outcome_ret : MRet outcome := λ A a, Return a.
#[global] Instance outcome_bind : MBind outcome := λ A B f x, bind x f.

(** [try: body except RequestException: handler] *)
Definition except_RequestException {A} (body : outcome A) (handler : outcome A) : outcome A :=
  match body with
  | Raise RequestException => handler
  | _ => body
  end.

(** [str.lower()], on the ASCII letters; bytes outside [A-Z] are kept. *)
Definition lower_ascii (c : ascii) : ascii :=
  let n := nat_of_ascii c in
  if (65 <=? n)%nat && (n <=? 90)%nat then ascii_of_nat (n + 32) else c.

Fixpoint lower (s : string) : string :=
  match s with
  | EmptyString => EmptyString
  | String c s' => String (lower_ascii c) (lower s')
  end.

Fixpoint startswith (p s : string) : bool :=
  match p, s with
  | EmptyString, _ => true
  | String a p', String b s' => if decide (a = b) then startswith p' s' else false
  | String _ _, EmptyString => false
  end.

(** [needle in hay] on strings: substring search. *)
Fixpoint contains (needle hay : string) : bool :=
  startswith needle hay ||
  match hay with
  | EmptyString => false
  | String _ hay' => contains needle hay'
  end.

End Py.

Export Py.

(** ** Data frames *)

Module Frame.

(** A cell of a table read from CSV: an empty field (NaN), a number or a
    text.  Numbers are exact rationals; the rounding of binary floating
    point is left to the parser [parse_float] below. *)
Inductive cell :=
| NA
| Num (x : Qc)
| Str (s : string).

#[global] Instance cell_eq_dec : EqDecision cell.
Proof. solve_decision. Defined.

#[global] Instance cell_inhabited : Inhabited cell := populate NA.

(** A row maps column labels to cells; a frame lists its column labels in
    order and its rows in order. *)
Record DataFrame := mkDataFrame {
  columns : list string;
  rows : list (gmap string cell)
}.

#[global] Instance DataFrame_eq_dec : EqDecision DataFrame.
Proof. solve_decision. Defined.

Definition at_ (r : gmap string cell) (c : string) : cell := default NA (r !! c).

(** [df.empty]: no column or no row. *)
Definition empty (df : DataFrame) : bool :=
  bool_decide (columns df = []) || bool_decide (rows df = []).

(** [df[c]]: the column as a list, [KeyError] when the label is absent. *)
Definition getitem (df : DataFrame) (c : string) : outcome (list cell) :=
  if decide (c ∈ columns df) then Return ((λ r, at_ r c) <$> rows df)
  else Raise (KeyError c).

Definition add_column (c : string) (cols : list string) : list string :=
  if decide (c ∈ cols) then cols else cols ++ [c].

(** [df[c] = series]: overwrite the column, or append it as the last one. *)
Definition setitem (df : DataFrame) (c : string) (col : list cell) : DataFrame :=
  {| columns := add_column c (columns df);
     rows := zip_with (λ r v, <[c := v]> r) (rows df) col |}.

(** [df[c] = scalar]: the same value in every row. *)
Definition setitem_scalar (df : DataFrame) (c : string) (v : cell) : DataFrame :=
  {| columns := add_column c (columns df);
     rows := (λ r, <[c := v]> r) <$> rows df |}.

(** The frame with [f] applied to the cells of column [c]. *)
Definition map_column (c : string) (f : cell -> cell) (df : DataFrame) : DataFrame :=
  {| columns := columns df;
     rows := (λ r, <[c := f (at_ r c)]> r) <$> rows df |}.

(** The values of a row under the frame's columns: what [duplicated]
    hashes.  Missing values compare equal to each other there. *)
Definition row_key (cols : list string) (r : gmap string cell) : list cell :=
  (λ c, at_ r c) <$> cols.

Fixpoint keep_first {A K} `{EqDecision K} (key : A -> K) (seen : list K)
    (l : list A) : list A :=
  match l with
  | [] => []
  | x :: l' =>
      if decide (key x ∈ seen) then keep_first key seen l'
      else x :: keep_first key (key x :: seen) l'
  end.

(** [df.drop_duplicates()]: keep the first of every group of rows that
    are equal in all columns. *)
Definition drop_duplicates (df : DataFrame) : DataFrame :=
  {| columns := columns df;
     rows := keep_first (row_key (columns df)) [] (rows df) |}.

(** [series.fillna(v)] *)
Definition fillna_cell (v : cell) (x : cell) : cell :=
  match x with NA => v | _ => x end.

Definition fillna (v : cell) (col : list cell) : list cell :=
  fillna_cell v <$> col.

Fixpoint assoc (k : string) (m : list (string * string)) : option string :=
  match m with
  | [] => None
  | (k', v) :: m' => if decide (k = k') then Some v else assoc k m'
  end.

(** [series.replace(mapping)] with a dict of texts: a cell equal to a key
    becomes that key's value, every other cell is kept. *)
Definition replace_cell (m : list (string * string)) (x : cell) : cell :=
  match x with
  | Str s => match assoc s m with Some v => Str v | None => x end
  | _ => x
  end.

Definition replace (m : list (string * string)) (col : list cell) : list cell :=
  replace_cell m <$> col.

Section Numeric.
(** The numeric-literal grammar of [pd.to_numeric]: the number a text
    denotes, if it denotes one. *)
Variable parse_float : string -> option Qc.

(** [pd.to_numeric(series, errors='coerce')] *)
Definition to_numeric_cell (x : cell) : cell :=
  match x with
  | NA => NA
  | Num q => Num q
  | Str s => match parse_float s with Some q => Num q | None => NA end
  end.

Definition to_numeric (col : list cell) : list cell := to_numeric_cell <$> col.
End Numeric.

(** [int64] holds the integers of this range. *)
Definition int64_range (z : Z) : bool :=
  ((- 2 ^ 63 <=? z) && (z <? 2 ^ 63))%Z.

(** The integer a number is, if it is one. *)
Definition as_integer (q : Qc) : option Z :=
  if decide (Qden (this q) = 1%positive) then Some (Qnum (this q)) else None.

(** [.astype('Int64')] on a numeric column: a missing value stays missing,
    an integer-valued number in range is kept, anything else is refused
    with ["cannot safely cast non-equivalent float64 to int64"]. *)
Definition astype_Int64_cell (x : cell) : outcome cell :=
  match x with
  | NA => Return NA
  | Num q =>
      match as_integer q with
      | Some z => if int64_range z then Return (Num q) else Raise TypeError
      | None => Raise TypeError
      end
  | Str _ => Raise TypeError
  end.

Fixpoint astype_Int64 (col : list cell) : outcome (list cell) :=
  match col with
  | [] => Return []
  | x :: col' =>
      bind (astype_Int64_cell x) (λ y,
      bind (astype_Int64 col') (λ ys, Return (y :: ys)))
  end.

End Frame.

Export Frame.

(** ** The object store

    Data frames are Python objects: a variable holds a reference, [df.copy()]
    and [df.drop_duplicates()] build new objects and [df[c] = ...] updates the
    object the variable refers to.  Statements are state transformers over
    the store that may raise. *)

Module Store.

Abbreviation loc := positive.
Abbreviation heap := (gmap loc DataFrame).

Definition py (A : Type) : Type := heap -> outcome A * heap.

#[global] Instance py_ret : MRet py := λ A a h, (Return a, h).

#[global] Instance py_bind : MBind py := λ A B f m h,
  match m h with
  | (Return a, h') => f a h'
  | (Raise e, h') => (Raise e, h')
  end.

Definition lift {A} (x : outcome A) : py A := λ h, (x, h).

Definition deref (l : loc) : py DataFrame := λ h,
  match h !! l with
  | Some d => (Return d, h)
  | None => (Raise DanglingReference, h)
  end.

Definition alloc (d : DataFrame) : py loc := λ h,
  let l := fresh (dom h) in (Return l, <[l := d]> h).

Definition store (l : loc) (d : DataFrame) : py unit := λ h,
  (Return tt, <[l := d]> h).

(** [df.copy()]: a new object with the same contents. *)
Definition copy (l : loc) : py loc := d ← deref l; alloc d.

(** [df[c] = e(df)]: the right-hand side is evaluated first; when it
    raises, the object is left as it was. *)
Definition assign (l : loc) (c : string) (e : DataFrame -> outcome (list cell)) : py unit :=
  d ← deref l; col ← lift (e d); store l (setitem d c col).

(** [df[c] = scalar] *)
Definition assign_scalar (l : loc) (c : string) (v : cell) : py unit :=
  d ← deref l; store l (setitem_scalar d c v).

(** [df.drop_duplicates()]: the result is a new object. *)
Definition drop_duplicates (l : loc) : py loc :=
  d ← deref l; alloc (Frame.drop_duplicates d).

(** [h'] still holds every object of [h], unchanged. *)
Definition preserves (h h' : heap) : Prop :=
  ∀ l d, h !! l = Some d → h' !! l = Some d.

(** The statements [m], run on a store where [l] refers to the frame [d],
    act on that object alone: they leave it as the frame [r], or raise
    the exception [r] with the object somewhere on the way. *)
Definition runs_as (l : loc) (d : DataFrame) (m : py unit) (r : outcome DataFrame) : Prop :=
  ∀ h, h !! l = Some d →
    match r with
    | Return d' => m h = (Return tt, <[l := d']> h)
    | Raise e => ∃ d', m h = (Raise e, <[l := d']> h)
    end.

End Store.

(** ** The Cleaner: [src/data_cleaning.py] *)

Module Cleaner.
Import Store.

(** The table of country-name variations, in the order of the source. *)
Definition country_mapping : list (string * string) :=
  [ ("United States", "United States of America");
    ("USA", "United States of America");
    ("US", "United States of America");
    ("UK", "United Kingdom");
    ("Great Britain", "United Kingdom");
    ("Republic of Korea", "South Korea");
    ("Korea, Rep.", "South Korea");
    ("Korea, Dem. Rep.", "North Korea");
    ("Congo, Dem. Rep.", "Democratic Republic of the Congo");
    ("Congo, Rep.", "Republic of Congo");
    ("Viet Nam", "Vietnam");
    ("Russian Federation", "Russia");
    ("Iran, Islamic Rep.", "Iran");
    ("Egypt, Arab Rep.", "Egypt");
    ("Hong Kong SAR, China", "Hong Kong");
    ("Macao SAR, China", "Macao") ].

(** [cleaned_df['Country'].fillna('Unknown')] *)
Definition filled_countries (d : DataFrame) : outcome (list cell) :=
  Py.bind (getitem d "Country") (λ col, Return (fillna (Str "Unknown") col)).

(** [cleaned_df['Country'].replace(country_mapping)] *)
Definition standardized_countries (d : DataFrame) : outcome (list cell) :=
  Py.bind (getitem d "Country") (λ col, Return (replace country_mapping col)).

(** [indicator_name.lower()]: only a text has the method. *)
Definition str_lower (x : cell) : outcome string :=
  match x with
  | Str s => Return (lower s)
  | _ => Raise AttributeError
  end.

(** [series.iloc[0]] *)
Definition iloc0 (col : list cell) : outcome cell :=
  match col with
  | x :: _ => Return x
  | [] => Raise IndexError
  end.

Section Clean.
Variable parse_float : string -> option Qc.

(** [pd.to_numeric(cleaned_df['Value'], errors='coerce')] *)
Definition numeric_values (d : DataFrame) : outcome (list cell) :=
  Py.bind (getitem d "Value") (λ col, Return (to_numeric parse_float col)).

(** [pd.to_numeric(cleaned_df['Year'], errors='coerce').astype('Int64')] *)
Definition integer_years (d : DataFrame) : outcome (list cell) :=
  Py.bind (getitem d "Year") (λ col, astype_Int64 (to_numeric parse_float col)).

(** Step 7 of [clean_data], run when the frame has an [Indicator] column. *)
Definition derive_connection_type (cleaned_df : loc) : py unit :=
  d ← deref cleaned_df;
  indicator_name ←
    (if negb (Frame.empty d)
     then lift (Py.bind (getitem d "Indicator") iloc0)
     else mret (Str "Unknown"));
  assign_scalar cleaned_df "indicator_clean" indicator_name;;
  name ← lift (str_lower indicator_name);
  if contains "fixed" name then
    assign_scalar cleaned_df "connection_type" (Str "fixed-line")
  else
    name ← lift (str_lower indicator_name);
    if contains "mobile" name then
      assign_scalar cleaned_df "connection_type" (Str "mobile")
    else
      assign_scalar cleaned_df "connection_type" (Str "unknown").

(** [clean_data(df)].  [now] is the text [datetime.now().strftime(...)]
    gives at step 5; the log lines are left out. *)
Definition clean_data (now : string) (df : option loc) : py (option loc) :=
  match df with
  | None => mret None
  | Some df =>
      d ← deref df;
      if Frame.empty d then mret None else
      (* Make a copy to avoid modifying the original *)
      cleaned_df ← copy df;
      (* 1. Handle missing values *)
      assign cleaned_df "Country" filled_countries;;
      (* 2. Standardize country names *)
      assign cleaned_df "Country" standardized_countries;;
      (* 3. Convert percentages to numeric *)
      assign cleaned_df "Value" numeric_values;;
      (* 4. Create year as integer *)
      d ← deref cleaned_df;
      (if decide ("Year" ∈ columns d) then assign cleaned_df "Year" integer_years
       else mret tt);;
      (* 5. Add metadata columns *)
      assign_scalar cleaned_df "processed_at" (Str now);;
      (* 6. Drop duplicates *)
      cleaned_df ← drop_duplicates cleaned_df;
      (* 7. Create a clean indicator name *)
      d ← deref cleaned_df;
      (if decide ("Indicator" ∈ columns d) then derive_connection_type cleaned_df
       else mret tt);;
      mret (Some cleaned_df)
  end.

(** *** The frames behind the references

    What [cleaned_df] refers to, statement by statement: the frame after
    [df[c] = e(df)], after steps 1 to 6, and after step 7.  The lemma
    [clean_data_frames] below ties [clean_data] to them. *)

Definition assigned (c : string) (e : DataFrame -> outcome (list cell))
    (d : DataFrame) : outcome DataFrame :=
  col ← e d; Return (setitem d c col).

Definition deduplicated (now : string) (d : DataFrame) : outcome DataFrame :=
  d ← assigned "Country" filled_countries d;
  d ← assigned "Country" standardized_countries d;
  d ← assigned "Value" numeric_values d;
  d ← (if decide ("Year" ∈ columns d) then assigned "Year" integer_years d
       else Return d);
  Return (Frame.drop_duplicates (setitem_scalar d "processed_at" (Str now))).

(** The label step 7 writes for an indicator name in lower case. *)
Definition label_of (name : string) : string :=
  if contains "fixed" name then "fixed-line"
  else if contains "mobile" name then "mobile"
  else "unknown".

Definition labelled (d : DataFrame) : outcome DataFrame :=
  if decide ("Indicator" ∈ columns d) then
    indicator_name ←
      (if negb (Frame.empty d) then Py.bind (getitem d "Indicator") iloc0
       else Return (Str "Unknown"));
    let d := setitem_scalar d "indicator_clean" indicator_name in
    name ← str_lower indicator_name;
    Return (setitem_scalar d "connection_type" (Str (label_of name)))
  else Return d.

Definition cleaned (now : string) (d : DataFrame) : outcome DataFrame :=
  d ← deduplicated now d; labelled d.

(** What steps 1 to 5 make of one row; [with_year] tells whether the
    frame has a Year column. *)
Definition clean_row (now : string) (with_year : bool) (r : gmap string cell)
    : gmap string cell :=
  let r := <["Country" :=
              replace_cell country_mapping (fillna_cell (Str "Unknown") (at_ r "Country"))]> r in
  let r := <["Value" := to_numeric_cell parse_float (at_ r "Value")]> r in
  let r := if with_year then <["Year" := to_numeric_cell parse_float (at_ r "Year")]> r
           else r in
  <["processed_at" := Str now]> r.

(** What step 7 makes of one row, for the indicator name [s]. *)
Definition label_row (s : string) (r : gmap string cell) : gmap string cell :=
  <["connection_type" := Str (label_of (lower s))]> (<["indicator_clean" := Str s]> r).
End Clean.

(** *** Properties of tables *)

(** No two rows at different places carry the same Country and Year. *)
Definition one_row_per_country_year (d : DataFrame) : Prop :=
  ∀ i j r1 r2,
    rows d !! i = Some r1 → rows d !! j = Some r2 →
    at_ r1 "Country" = at_ r2 "Country" → at_ r1 "Year" = at_ r2 "Year" →
    i = j.

(** No two rows at different places are equal in every column. *)
Definition distinct_rows (d : DataFrame) : Prop :=
  ∀ i j r1 r2,
    rows d !! i = Some r1 → rows d !! j = Some r2 →
    (∀ c, c ∈ columns d → at_ r1 c = at_ r2 c) →
    i = j.

(** A Year entry the integer cast accepts once [to_numeric] has run:
    missing, not a number, or a whole number of the [int64] range. *)
Definition castable (parse_float : string -> option Qc) (x : cell) : Prop :=
  match to_numeric_cell parse_float x with
  | NA => True
  | Num q => ∃ z, as_integer q = Some z ∧ int64_range z = true
  | Str _ => False
  end.

(** The tables steps 1 to 6 run through: not empty, with the two columns
    read without a test, and castable years if there is a Year column. *)
Definition coercible (parse_float : string -> option Qc) (d : DataFrame) : Prop :=
  Frame.empty d = false ∧ "Country" ∈ columns d ∧ "Value" ∈ columns d ∧
  ("Year" ∈ columns d → Forall (λ r, castable parse_float (at_ r "Year")) (rows d)).

(** The first row's Indicator is the text [s]. *)
Definition first_indicator (d : DataFrame) (s : string) : Prop :=
  ∃ r, rows d !! 0%nat = Some r ∧ at_ r "Indicator" = Str s.

End Cleaner.

(** ** Decimal literals

    A reader for plain decimal texts, [sign] digits [. digits], one instance
    of the grammar [parse_float] stands for.  It is used to run the model on
    concrete tables. *)

Module Literal.

Definition digit (c : ascii) : option Z :=
  let n := Z.of_N (N_of_ascii c) in
  if ((48 <=? n) && (n <=? 57))%Z then Some (n - 48)%Z else None.

(** Reads digits up to the end of the text or a point; [seen] tells
    whether a digit was read, [scale] counts the powers of ten. *)
Fixpoint digits (s : string) (acc : Z) (scale : positive) (seen : bool)
    : option (Z * positive * string) :=
  match s with
  | EmptyString => if seen then Some (acc, scale, EmptyString) else None
  | String c s' =>
      match digit c with
      | Some d => digits s' (acc * 10 + d)%Z (scale * 10)%positive true
      | None => if seen then Some (acc, scale, s) else None
      end
  end.

Definition unsigned (s : string) : option Qc :=
  match digits s 0%Z 1%positive false with
  | Some (i, _, EmptyString) => Some (Q2Qc (i # 1))
  | Some (i, _, String "." EmptyString) => Some (Q2Qc (i # 1))
  | Some (i, _, String "." f) =>
      match digits f i 1%positive false with
      | Some (n, scale, EmptyString) => Some (Q2Qc (n # scale))
      | _ => None
      end
  | _ => None
  end.

Definition decimal (s : string) : option Qc :=
  match s with
  | String "-" s' => Qcopp <$> unsigned s'
  | String "+" s' => unsigned s'
  | _ => unsigned s
  end.

End Literal.

(** ** JSON payloads *)

Module Json.

(** What [response.json()] returns.  An object lists one binding per key,
    as the decoder leaves it. *)
Inductive json :=
| JNull
| JBool (b : bool)
| JNum (x : Qc)
| JStr (s : string)
| JArr (items : list json)
| JObj (fields : list (string * json)).

Fixpoint lookup_field (k : string) (fields : list (string * json)) : option json :=
  match fields with
  | [] => None
  | (k', v) :: fields' => if decide (k = k') then Some v else lookup_field k fields'
  end.

(** [x.get(k, default)]: only a dict has the method. *)
Definition get (x : json) (k : string) (dflt : json) : outcome json :=
  match x with
  | JObj fields => Return (default dflt (lookup_field k fields))
  | _ => Raise AttributeError
  end.

(** [x[k]] with a text key. *)
Definition getitem_key (x : json) (k : string) : outcome json :=
  match x with
  | JObj fields =>
      match lookup_field k fields with
      | Some v => Return v
      | None => Raise (KeyError k)
      end
  | _ => Raise TypeError
  end.

Fixpoint chars (s : string) : list json :=
  match s with
  | EmptyString => []
  | String c s' => JStr (String c EmptyString) :: chars s'
  end.

(** [len(x)] *)
Definition len (x : json) : outcome nat :=
  match x with
  | JArr items => Return (length items)
  | JObj fields => Return (length fields)
  | JStr s => Return (String.length s)
  | _ => Raise TypeError
  end.

(** [x[1]] *)
Definition getitem_1 (x : json) : outcome json :=
  match x with
  | JArr items =>
      match items !! 1%nat with Some v => Return v | None => Raise IndexError end
  | JStr s =>
      match chars s !! 1%nat with Some v => Return v | None => Raise IndexError end
  | JObj _ => Raise (KeyError "1")
  | _ => Raise TypeError
  end.

(** [x is not None] *)
Definition is_not_None (x : json) : bool :=
  match x with
  | JNull => false
  | _ => true
  end.

(** Truth value of [x], as [not x] tests it. *)
Definition truthy (x : json) : bool :=
  match x with
  | JNull => false
  | JBool b => b
  | JNum q => negb (bool_decide (q = Q2Qc 0))
  | JStr s => negb (bool_decide (s = ""))
  | JArr items => negb (bool_decide (items = []))
  | JObj fields => negb (bool_decide (fields = []))
  end.

(** The elements [for item in x] and [list.extend(x)] run over. *)
Definition iter (x : json) : outcome (list json) :=
  match x with
  | JArr items => Return items
  | JObj fields => Return ((λ kv, JStr kv.1) <$> fields)
  | JStr s => Return (chars s)
  | _ => Raise TypeError
  end.

(** [x.lower()]: only a text has the method. *)
Definition str_lower (x : json) : outcome string :=
  match x with
  | JStr s => Return (lower s)
  | _ => Raise AttributeError
  end.

End Json.

Export Json.

(** ** The Fetcher: [src/fetch_worldbank_data.py] *)

Module Fetcher.

Definition BASE_URL : string := "https://api.worldbank.org/v2".

(** The [params] dict of a request. *)
Inductive param :=
| PStr (s : string)
| PInt (n : nat)
| PDate (start_year end_year : Z).

Record request := mkRequest {
  endpoint : string;
  params : list (string * param)
}.

#[global] Instance param_eq_dec : EqDecision param.
Proof. solve_decision. Defined.

#[global] Instance request_eq_dec : EqDecision request.
Proof. solve_decision. Defined.

(** A frame as [pd.DataFrame(normalized_data)] builds it: the cells are
    the Python values of the records. *)
Record table := mkTable {
  labels : list string;
  records : list (gmap string json)
}.

Definition field (r : gmap string json) (c : string) : json := default JNull (r !! c).

Definition column (t : table) (c : string) : outcome (list json) :=
  if decide (c ∈ labels t) then Return ((λ r, field r c) <$> records t)
  else Raise (KeyError c).

Definition set_column (t : table) (c : string) (col : list json) : table :=
  {| labels := add_column c (labels t);
     records := zip_with (λ r v, <[c := v]> r) (records t) col |}.

Definition set_scalar (t : table) (c : string) (v : json) : table :=
  {| labels := add_column c (labels t);
     records := (λ r, <[c := v]> r) <$> records t |}.

(** [.astype('Int64')] on the numbers [to_numeric] left. *)
Definition json_Int64 (x : json) : outcome json :=
  match x with
  | JNull => Return JNull
  | JNum q =>
      match as_integer q with
      | Some z => if int64_range z then Return (JNum q) else Raise TypeError
      | None => Raise TypeError
      end
  | _ => Raise TypeError
  end.

Fixpoint jsons_Int64 (col : list json) : outcome (list json) :=
  match col with
  | [] => Return []
  | x :: col' => y ← json_Int64 x; ys ← jsons_Int64 col'; Return (y :: ys)
  end.

(** One record of [normalize_data]: the body of its [try]. *)
Definition flatten (item : json) : outcome (list (string * json)) :=
  country ← get item "country" (JObj []);
  country_value ← get country "value" (JStr "Unknown");
  country_code ← get item "countryiso3code" (JStr "Unknown");
  year ← get item "date" (JStr "Unknown");
  value ← get item "value" JNull;
  status_value ← get item "value" JNull;
  indicator ← get item "indicator" (JObj []);
  indicator_value ← get indicator "value" (JStr "Unknown");
  indicator' ← get item "indicator" (JObj []);
  indicator_id ← get indicator' "id" (JStr "Unknown");
  Return [ ("Country", country_value);
           ("Country_Code", country_code);
           ("Year", year);
           ("Value", value);
           ("UNIT_MEASURE", JStr "Percentage");
           ("OBS_STATUS",
             if is_not_None status_value then JStr "Regular" else JStr "Missing");
           ("Indicator", indicator_value);
           ("Indicator_Code", indicator_id) ].

(** The loop over [raw_data]: an item whose record raises is logged and
    skipped. *)
Fixpoint normalized (raw_data : list json) : list (list (string * json)) :=
  match raw_data with
  | [] => []
  | item :: raw_data' =>
      match flatten item with
      | Return record => record :: normalized raw_data'
      | Raise _ => normalized raw_data'
      end
  end.

(** [pd.DataFrame(list_of_dicts)]: the keys of the records, in order of
    first appearance, label the columns. *)
Definition DataFrame_of (dicts : list (list (string * json))) : table :=
  {| labels := foldl (λ cols d, foldl (λ cols kv, add_column kv.1 cols) cols d) [] dicts;
     records := (λ d, list_to_map d) <$> dicts |}.

(** The request of [discover_indicator_id]. *)
Definition catalog_request : request :=
  {| endpoint := BASE_URL +:+ "/indicator";
     params := [("format", PStr "json"); ("per_page", PInt 1000)] |}.

Definition per_page : nat := 1000.

(** The request of [fetch_data] for one page. *)
Definition page_request (indicator_id : string) (start_year end_year : Z) (page : nat)
    : request :=
  {| endpoint := BASE_URL +:+ "/countries/all/indicators/" +:+ indicator_id;
     params := [("format", PStr "json"); ("date", PDate start_year end_year);
                ("per_page", PInt per_page); ("page", PInt page)] |}.

Section Fetch.
(** [requests.get(endpoint, params=params)], [raise_for_status()] and
    [response.json()]: the decoded body, or the exception raised on the
    way. *)
Variable requests_get : request -> outcome json.
Variable parse_float : string -> option Qc.

(** The filter of the catalog loop on one entry. *)
Definition is_relevant (indicator : json) : outcome bool :=
  name ← get indicator "name" (JStr "");
  name ← str_lower name;
  Return (contains "household" name && (contains "fixed" name || contains "mobile" name)).

Fixpoint relevant (indicators : list json) : outcome (list json) :=
  match indicators with
  | [] => Return []
  | indicator :: indicators' =>
      keep ← is_relevant indicator;
      rest ← relevant indicators';
      Return (if keep : bool then indicator :: rest else rest)
  end.

Definition discover_indicator_id : outcome json :=
  except_RequestException
    (data ← requests_get catalog_request;
     indicators ← getitem_1 data;
     indicators ← iter indicators;
     relevant_indicators ← relevant indicators;
     match relevant_indicators with
     | [] => Return (JStr "IT.NET.USER.ZS")
     | first :: _ => getitem_key first "id"
     end)
    (Return (JStr "IT.NET.USER.ZS")).

(** One turn of the [while True] loop of [fetch_data]: the records
    accumulated so far, and whether the loop goes on. *)
Definition fetch_page (indicator_id : string) (start_year end_year : Z)
    (page : nat) (all_data : list json) : outcome (bool * list json) :=
  except_RequestException
    (response_data ← requests_get (page_request indicator_id start_year end_year page);
     n ← len response_data;
     no_data ← (if (n <? 2)%nat then Return true
                else second ← getitem_1 response_data; Return (negb (truthy second)));
     if no_data : bool then Return (false, all_data)
     else
       data_batch ← getitem_1 response_data;
       batch ← iter data_batch;
       let all_data := (all_data ++ batch)%list in
       m ← len data_batch;
       if (m <? per_page)%nat then Return (false, all_data)
       else Return (true, all_data))
    (Return (false, all_data)).

(** The loop, with a bound on the number of turns: [None] when the bound
    is reached before the loop stops. *)
Fixpoint fetch_loop (fuel : nat) (indicator_id : string) (start_year end_year : Z)
    (page : nat) (all_data : list json) : option (outcome (list json)) :=
  match fuel with
  | O => None
  | S fuel' =>
      match fetch_page indicator_id start_year end_year page all_data with
      | Raise e => Some (Raise e)
      | Return (false, all_data') => Some (Return all_data')
      | Return (true, all_data') =>
          fetch_loop fuel' indicator_id start_year end_year (S page) all_data'
      end
  end.

Definition fetch_data (fuel : nat) (indicator_id : string) (start_year end_year : Z)
    : option (outcome (list json)) :=
  fetch_loop fuel indicator_id start_year end_year 1 [].

(** [pd.to_numeric(series, errors='coerce')] on Python values. *)
Definition json_numeric (x : json) : json :=
  match x with
  | JNum q => JNum q
  | JBool b => JNum (Q2Qc (if b then 1 else 0))
  | JStr s => match parse_float s with Some q => JNum q | None => JNull end
  | _ => JNull
  end.

(** The type conversions of [normalize_data], statement by statement;
    the first one that raises ends the block and keeps what was done. *)
Definition convert_types (now : string) (df : table) : table :=
  match (year ← column df "Year"; jsons_Int64 (json_numeric <$> year)) with
  | Raise _ => df
  | Return year =>
      let df := set_column df "Year" year in
      match column df "Value" with
      | Raise _ => df
      | Return value =>
          let df := set_column df "Value" (json_numeric <$> value) in
          set_scalar df "processed_at" (JStr now)
      end
  end.

Definition normalize_data (now : string) (raw_data : list json) : table :=
  convert_types now (DataFrame_of (normalized raw_data)).
End Fetch.

(** *** Properties of payloads *)

(** The item gives a record. *)
Definition flattens (item : json) : bool :=
  match flatten item with
  | Return _ => true
  | Raise _ => false
  end.

(** The value field of an item is present and not null. *)
Definition has_value (fields : list (string * json)) : Prop :=
  ∃ v, lookup_field "value" fields = Some v ∧ v ≠ JNull.

(** A catalog entry as the API lists it: an object whose name, when it
    has one, is a text. *)
Definition catalog_entry (entry : json) : Prop :=
  ∃ fields, entry = JObj fields ∧
    match lookup_field "name" fields with
    | Some name => ∃ s, name = JStr s
    | None => True
    end.

(** The name of an entry, in lower case. *)
Definition entry_name (entry : json) : string :=
  match entry with
  | JObj fields =>
      match lookup_field "name" fields with
      | Some (JStr s) => lower s
      | _ => ""
      end
  | _ => ""
  end.

(** The name mentions households and fixed or mobile lines. *)
Definition matches (entry : json) : bool :=
  contains "household" (entry_name entry) &&
  (contains "fixed" (entry_name entry) || contains "mobile" (entry_name entry)).

(** A page the loop goes on after: the records, no fewer than the page
    size, as the second item of the body. *)
Definition full_page (body : json) (batch : list json) : Prop :=
  ∃ meta rest, body = JArr (meta :: JArr batch :: rest) ∧ (per_page ≤ length batch)%nat.

(** A page the loop stops at, with the records it adds: a failed request,
    a body of fewer than two items, an empty second item, or fewer records
    than the page size. *)
Inductive final_page : outcome json → list json → Prop :=
| final_failed :
    final_page (Raise RequestException) []
| final_short body n :
    len body = Return n → (n < 2)%nat →
    final_page (Return body) []
| final_empty body n second :
    len body = Return n → (2 ≤ n)%nat →
    getitem_1 body = Return second → truthy second = false →
    final_page (Return body) []
| final_partial meta batch rest :
    batch ≠ [] → (length batch < per_page)%nat →
    final_page (Return (JArr (meta :: JArr batch :: rest))) batch.

(** The field [k] of an item is absent or an object: what
    [item.get(k, {}).get(...)] needs. *)
Definition nested (fields : list (string * json)) (k : string) : bool :=
  match lookup_field k fields with
  | None | Some (JObj _) => true
  | Some _ => false
  end.

(** The labels of a record of [normalize_data], in the order of the dict. *)
Definition record_labels : list string :=
  ["Country"; "Country_Code"; "Year"; "Value"; "UNIT_MEASURE"; "OBS_STATUS";
   "Indicator"; "Indicator_Code"].

(** The date of an item, as the record holds it. *)
Definition date_of (fields : list (string * json)) : json :=
  default (JStr "Unknown") (lookup_field "date" fields).

(** The value of an item, as the record holds it. *)
Definition value_of (fields : list (string * json)) : json :=
  default JNull (lookup_field "value" fields).

(** A date the integer cast accepts once [to_numeric] has run: not a
    number, or a whole number of the [int64] range. *)
Definition whole_year (parse_float : string → option Qc) (x : json) : bool :=
  match json_Int64 (json_numeric parse_float x) with
  | Return _ => true
  | Raise _ => false
  end.

End Fetcher.

(** ** The Visualizer: [analysis/generate_visualizations.py] *)

Module Visualizer.

(** [a == b] on cells: a missing value (NaN) equals nothing, itself
    included. *)
Definition eq_cell (a b : cell) : bool :=
  match a, b with
  | Num x, Num y => bool_decide (x = y)
  | Str s, Str t => bool_decide (s = t)
  | _, _ => false
  end.

(** [a < b] where it is defined: every comparison with NaN is false. *)
Definition lt_cell (a b : cell) : bool :=
  match a, b with
  | Num x, Num y => bool_decide (x < y)%Qc
  | Str s, Str t => String.ltb s t
  | _, _ => false
  end.

Definition is_text (x : cell) : bool :=
  match x with Str _ => true | _ => false end.

Definition is_number (x : cell) : bool :=
  match x with Num _ => true | _ => false end.

Definition is_na (x : cell) : bool :=
  match x with NA => true | _ => false end.

(** [series.unique()]: the distinct values in order of first appearance,
    the missing value at most once. *)
Definition unique (col : list cell) : list cell := keep_first id [] col.

(** *** [sorted], as the interpreter sorts a list shorter than 64 items:
    the leading run is found (and reversed when strictly descending), then
    every later item is put in place by binary insertion. *)

Fixpoint run_ascending (prev : cell) (l : list cell) : nat :=
  match l with
  | [] => 0
  | x :: l' => if lt_cell x prev then 0 else S (run_ascending x l')
  end.

Fixpoint run_descending (prev : cell) (l : list cell) : nat :=
  match l with
  | [] => 0
  | x :: l' => if lt_cell x prev then S (run_descending x l') else 0
  end.

Definition count_run (l : list cell) : nat * bool :=
  match l with
  | [] => (0, false)
  | [x] => (1, false)
  | x :: y :: l' =>
      if lt_cell y x then (2 + run_descending y l', true)
      else (2 + run_ascending y l', false)
  end.

Fixpoint bisect (fuel : nat) (pivot : cell) (sorted_part : list cell) (l r : nat) : nat :=
  match fuel with
  | O => l
  | S fuel' =>
      if (l <? r)%nat then
        let p := (l + (r - l) / 2)%nat in
        if lt_cell pivot (sorted_part !!! p) then bisect fuel' pivot sorted_part l p
        else bisect fuel' pivot sorted_part (p + 1) r
      else l
  end.

Definition insert_pivot (sorted_part : list cell) (pivot : cell) : list cell :=
  let k := bisect (length sorted_part) pivot sorted_part 0 (length sorted_part) in
  (take k sorted_part ++ pivot :: drop k sorted_part)%list.

Definition binarysort (run rest : list cell) : list cell :=
  foldl insert_pivot run rest.

(** [<] between a text and a number (NaN is one) raises; a sort of two or
    more items of both kinds meets such a pair. *)
Definition mixed (l : list cell) : bool :=
  existsb is_text l && existsb (λ x, negb (is_text x)) l.

Definition sorted (l : list cell) : outcome (list cell) :=
  if mixed l then Raise TypeError
  else
    let '(n, descending) := count_run l in
    let run := take n l in
    Return (binarysort (if descending : bool then reverse run else run) (drop n l)).

(** [available_years[-1]] *)
Definition last_item (l : list cell) : outcome cell :=
  match last l with
  | Some x => Return x
  | None => Raise IndexError
  end.

(** [df[df['Year'] == year].copy()] *)
Definition rows_of_year (df : DataFrame) (year : cell) : outcome DataFrame :=
  col ← getitem df "Year";
  Return {| columns := columns df;
            rows := List.filter (λ r, eq_cell (at_ r "Year") year) (rows df) |}.

Definition value (r : gmap string cell) : cell := at_ r "Value".

(** The order of [sort_values('Value', ascending=False)] on the rows that
    have a value. *)
Definition ge_value (r1 r2 : gmap string cell) : Prop :=
  lt_cell (value r1) (value r2) = false.

(** The place of a row among rows in descending order of value: behind
    the rows with a higher value, before the first row with the same
    value or a lower one. *)
Fixpoint insert_descending (r : gmap string cell) (ordered : list (gmap string cell))
    : list (gmap string cell) :=
  match ordered with
  | [] => [r]
  | r' :: rest =>
      if lt_cell (value r) (value r') then r' :: insert_descending r rest
      else r :: ordered
  end.

(** [df.sort_values('Value', ascending=False)]: descending values, rows
    without a value last.  The library sorts the values in ascending
    order from the last row to the first and reverses the result.  Its
    default sort is not a stable one, so the order among equal values is
    not fixed on every column; the rows are put in place here one by one,
    from the last to the first, as the insertion sort of a short column
    does, which leaves equal values in the order of the table. *)
Definition sort_values_descending (df : DataFrame) : outcome DataFrame :=
  col ← getitem df "Value";
  if existsb is_text col && existsb is_number col then Raise TypeError
  else
    Return {| columns := columns df;
              rows := (foldr insert_descending []
                         (List.filter (λ r, negb (is_na (value r))) (rows df))
                       ++ List.filter (λ r, is_na (value r)) (rows df))%list |}.

(** [df.head(n)]: the first [n] rows, all but the last [-n] for a
    negative [n]. *)
Definition head (df : DataFrame) (n : Z) : DataFrame :=
  {| columns := columns df;
     rows := if (0 <=? n)%Z then take (Z.to_nat n) (rows df)
             else take (length (rows df) - Z.to_nat (- n)) (rows df) |}.

(** What is drawn and saved: the year in the title and the file name, and
    one bar per row, the [Country] and the [Value] handed to [plt.barh]. *)
Record chart := mkChart {
  chart_year : cell;
  chart_n : Z;
  bars : list (cell * cell)
}.

(** [plt.barh(labels, widths)].  A column that holds a text is placed on
    a category axis, and that axis takes texts only: a number or a
    missing value beside a text raises [TypeError].  A column of texts
    alone, or of numbers and missing values alone, is drawn. *)
Definition barh (labels widths : list cell) : outcome unit :=
  if mixed labels || mixed widths then Raise TypeError else Return tt.

(** [plot_top_countries(df, year, n)]: [None] when it returns before
    drawing.  The statements after [plt.barh] read the bars back as
    numbers and write the file under [OUTPUT_DIR], the directory [main]
    creates before any plot. *)
Definition plot_top_countries (df : DataFrame) (year : cell) (n : Z)
    : outcome (option chart) :=
  year_data ← rows_of_year df year;
  selected ←
    (if Frame.empty year_data then
       years ← getitem df "Year";
       available_years ← sorted (unique years);
       match available_years with
       | [] => Return None
       | _ =>
           year ← last_item available_years;
           year_data ← rows_of_year df year;
           Return (Some (year, year_data))
       end
     else Return (Some (year, year_data)));
  match selected with
  | None => Return None
  | Some (year, year_data) =>
      ordered ← sort_values_descending year_data;
      let top_countries := head ordered n in
      countries ← getitem top_countries "Country";
      values ← getitem top_countries "Value";
      barh countries values;;
      Return (Some {| chart_year := year; chart_n := n; bars := zip countries values |})
  end.

(** *** Properties of years *)

(** Both cells are numbers, the first not above the second. *)
Definition le_number (a b : cell) : Prop :=
  match a, b with
  | Num x, Num y => (x ≤ y)%Qc
  | _, _ => False
  end.

(** [s.endswith(suffix)] *)
Fixpoint endswith (suffix s : string) : bool :=
  bool_decide (s = suffix) ||
  match s with
  | EmptyString => false
  | String _ s' => endswith suffix s'
  end.

Definition INPUT_DIR : string := "data/processed".

(** The files [load_processed_data()] chooses among: the entries of
    [INPUT_DIR] named as cleaned snapshots. *)
Definition processed_files (listing : list string) : list string :=
  List.filter (λ f, startswith "cleaned_data_" f && endswith ".csv" f) listing.

(** [load_processed_data()] up to the read: the path of the file it
    loads, given the entries of [INPUT_DIR] as [os.listdir] lists them;
    [None] when it finds no file. *)
Definition load_processed_data (listing : list string) : outcome (option string) :=
  match processed_files listing with
  | [] => Return None
  | files =>
      ordered ← sorted (Str <$> files);
      latest_file ← last_item ordered;
      match latest_file with
      | Str name => Return (Some (INPUT_DIR +:+ "/" +:+ name))
      | _ => Raise TypeError
      end
  end.

(** The regions of [plot_regional_comparison], in the order of the dict. *)
Definition regions : list (string * list string) :=
  [ ("North America", ["United States"; "Canada"; "Mexico"]);
    ("Europe", ["United Kingdom"; "Germany"; "France"; "Italy"; "Spain"]);
    ("Asia", ["China"; "Japan"; "India"; "South Korea"; "Indonesia"]);
    ("Africa", ["South Africa"; "Nigeria"; "Kenya"; "Egypt"; "Morocco"]);
    ("South America", ["Brazil"; "Argentina"; "Colombia"; "Chile"; "Peru"]);
    ("Oceania", ["Australia"; "New Zealand"]) ].

(** [series.isin(countries)] on one cell. *)
Definition isin (countries : list string) (x : cell) : bool :=
  match x with
  | Str s => bool_decide (s ∈ countries)
  | _ => false
  end.

(** [year_data[year_data['Country'].isin(countries)]] *)
Definition region_rows (year_data : DataFrame) (countries : list string)
    : outcome DataFrame :=
  col ← getitem year_data "Country";
  Return {| columns := columns year_data;
            rows := List.filter (λ r, isin countries (at_ r "Country")) (rows year_data) |}.

(** What is drawn and saved: the year in the title and the file name, and
    one bar per region, as long as its average. *)
Record regional_chart := mkRegionalChart {
  regional_year : cell;
  regional_bars : list (string * cell)
}.

Section Regional.
(** [series.mean()]: floating-point arithmetic, left abstract. *)
Variable mean : list cell → outcome cell.

(** The loop over the regions: a region without a row of the year gets no
    average. *)
Fixpoint regional_averages (year_data : DataFrame) (regions : list (string * list string))
    : outcome (list (string * cell)) :=
  match regions with
  | [] => Return []
  | (region, countries) :: regions' =>
      region_data ← region_rows year_data countries;
      if negb (Frame.empty region_data) then
        values ← getitem region_data "Value";
        avg ← mean values;
        regional_avgs ← regional_averages year_data regions';
        Return ((region, avg) :: regional_avgs)
      else regional_averages year_data regions'
  end.

(** [plot_regional_comparison(df, year)]: [None] when it returns before
    drawing.  [pd.DataFrame([])] has no column, so the bars of an empty
    list of averages raise [KeyError]. *)
Definition plot_regional_comparison (df : DataFrame) (year : cell)
    : outcome (option regional_chart) :=
  year_data ← rows_of_year df year;
  selected ←
    (if Frame.empty year_data then
       years ← getitem df "Year";
       available_years ← sorted (unique years);
       match available_years with
       | [] => Return None
       | _ =>
           year ← last_item available_years;
           year_data ← rows_of_year df year;
           Return (Some (year, year_data))
       end
     else Return (Some (year, year_data)));
  match selected with
  | None => Return None
  | Some (year, year_data) =>
      regional_avgs ← regional_averages year_data regions;
      match regional_avgs with
      | [] => Raise (KeyError "Region")
      | _ => Return (Some {| regional_year := year; regional_bars := regional_avgs |})
      end
  end.
End Regional.

(** The charts [main] has drawn when it returns: [None] stands for a
    plotting function that returned before drawing. *)
Record charts := mkCharts {
  top_countries : option chart;
  regional_comparison : option regional_chart
}.

Section Main.
(** [series.mean()], and [plot_global_trend(df)] as a whole: its
    group-wise means are floating-point arithmetic. *)
Variable mean : list cell → outcome cell.
Variable plot_global_trend : DataFrame → outcome unit.

(** [main()], from the frame [load_processed_data()] returned: [None]
    when it returns before plotting.  No call is guarded: what a plotting
    function raises leaves [main]. *)
Definition main (df : option DataFrame) : outcome (option charts) :=
  match df with
  | None => Return None
  | Some df =>
      if Frame.empty df then Return None
      else
        plot_global_trend df;;
        years ← getitem df "Year";
        available_years ← sorted (unique years);
        match available_years with
        | [] => Return (Some {| top_countries := None; regional_comparison := None |})
        | _ =>
            recent_year ← last_item available_years;
            top ← plot_top_countries df recent_year 10;
            regional ← plot_regional_comparison mean df recent_year;
            Return (Some {| top_countries := top; regional_comparison := regional |})
        end
  end.
End Main.

(** *** Properties of rows *)

(** The year and the rows a chart is drawn from: the statements
    [plot_top_countries] and [plot_regional_comparison] begin with. *)
Definition selected_rows (df : DataFrame) (year : cell)
    : outcome (option (cell * DataFrame)) :=
  year_data ← rows_of_year df year;
  if Frame.empty year_data then
    years ← getitem df "Year";
    available_years ← sorted (unique years);
    match available_years with
    | [] => Return None
    | _ =>
        year ← last_item available_years;
        year_data ← rows_of_year df year;
        Return (Some (year, year_data))
    end
  else Return (Some (year, year_data)).

(** The rows of a year. *)
Definition of_year (df : DataFrame) (year : cell) : list (gmap string cell) :=
  List.filter (λ r, eq_cell (at_ r "Year") year) (rows df).

(** The rows of the countries of a region. *)
Definition in_region (countries : list string) (l : list (gmap string cell))
    : list (gmap string cell) :=
  List.filter (λ r, isin countries (at_ r "Country")) l.

(** Rows in the order of [sort_values('Value', ascending=False)]: the rows
    with a value first, none before one with a higher value, then the
    rows without a value. *)
Definition descending (l : list (gmap string cell)) : Prop :=
  ∃ valued missing,
    l = valued ++ missing ∧ StronglySorted ge_value valued ∧
    Forall (λ r, is_na (value r) = false) valued ∧
    Forall (λ r, is_na (value r) = true) missing.

(** The number of rows [df.head(n)] keeps of [len] rows. *)
Definition head_length (n : Z) (len : nat) : nat :=
  if (0 <=? n)%Z then Nat.min (Z.to_nat n) len else (len - Z.to_nat (- n))%nat.

(** A snapshot named by the time it was written,
    [cleaned_data_%Y%m%d_%H%M%S.csv]: a digit follows the prefix. *)
Definition timestamped (f : string) : Prop :=
  ∃ d rest, f = "cleaned_data_" +:+ String d rest ∧
            (48 ≤ nat_of_ascii d ≤ 57)%nat.

(** Texts in the order of [<]. *)
Definition le_text (a b : cell) : Prop :=
  match a, b with
  | Str s, Str t => String.ltb t s = false
  | _, _ => False
  end.

End Visualizer.

(** ** Sample tables and payloads *)

Module Examples.
Import Store.

Definition now : string := "2024-01-01 00:00:00".

Definition whole (z : Z) : cell := Num (Q2Qc (inject_Z z)).

Definition raw_columns : list string := ["Country"; "Year"; "Value"; "Indicator"].

Definition observation (country year value indicator : cell) : gmap string cell :=
  {[ "Country" := country; "Year" := year; "Value" := value; "Indicator" := indicator ]}.

Definition internet_users : cell := Str "Individuals using the Internet (% of population)".

(** Two observations of one country and year with different values. *)
Definition same_country_year : DataFrame :=
  mkDataFrame raw_columns
    [ observation (Str "USA") (whole 2020) (Num (Q2Qc (111 # 2))) internet_users;
      observation (Str "USA") (whole 2020) (whole 60) internet_users ].

(** A table whose first row has no Indicator. *)
Definition null_indicator : DataFrame :=
  mkDataFrame raw_columns
    [ observation (Str "Namibia") (whole 2020) (whole 41) NA ].

(** A table with a Year that is a number but not a whole one. *)
Definition fractional_year : DataFrame :=
  mkDataFrame raw_columns
    [ observation (Str "Namibia") (Num (Q2Qc (4041 # 2))) (whole 41) internet_users ].

(** A raw table as the Fetcher could leave it: texts throughout, one value
    that is not a number, and an indicator naming both kinds of line. *)
Definition households : DataFrame :=
  mkDataFrame raw_columns
    [ observation (Str "USA") (Str "2020") (Str "55.5")
        (Str "Households with Fixed-line or Mobile telephone");
      observation (Str "UK") (Str "2021") (Str "n/a")
        (Str "Households with Fixed-line or Mobile telephone") ].

(** A table whose indicator names both kinds of line and whose Year, a
    text, reads a number that is not a whole one. *)
Definition households_half_year : DataFrame :=
  mkDataFrame raw_columns
    [ observation (Str "Namibia") (Str "2020.5") (Str "41")
        (Str "Households with Fixed-line or Mobile telephone") ].

Definition store_of (d : DataFrame) : heap := {[ 1%positive := d ]}.

(** The number a decimal text denotes, as a cell. *)
Definition decimal_of (s : string) : cell := to_numeric_cell Literal.decimal (Str s).

Definition cleaned_columns : list string :=
  raw_columns ++ ["processed_at"; "indicator_clean"; "connection_type"].

Definition cleaned_observation (country year value indicator : cell) (label : string)
    : gmap string cell :=
  {[ "Country" := country; "Year" := year; "Value" := value; "Indicator" := indicator;
     "processed_at" := Str now; "indicator_clean" := indicator;
     "connection_type" := Str label ]}.

(** What [clean_data] makes of [same_country_year]: both rows are there. *)
Definition same_country_year_cleaned : DataFrame :=
  mkDataFrame cleaned_columns
    [ cleaned_observation (Str "United States of America") (whole 2020)
        (Num (Q2Qc (111 # 2))) internet_users "unknown";
      cleaned_observation (Str "United States of America") (whole 2020)
        (whole 60) internet_users "unknown" ].

(** What [clean_data] makes of [households]. *)
Definition households_cleaned : DataFrame :=
  mkDataFrame cleaned_columns
    [ cleaned_observation (Str "United States of America") (whole 2020)
        (decimal_of "55.5") (Str "Households with Fixed-line or Mobile telephone")
        "fixed-line";
      cleaned_observation (Str "United Kingdom") (whole 2021)
        NA (Str "Households with Fixed-line or Mobile telephone")
        "fixed-line" ].

Definition scored (country : string) (year value : cell) : gmap string cell :=
  {[ "Country" := Str country; "Year" := year; "Value" := value ]}.

(** A cleaned table, read back from CSV, in which a row without a Year
    comes after the rows of 2020. *)
Definition year_missing_last : DataFrame :=
  mkDataFrame ["Country"; "Year"; "Value"]
    [ scored "Namibia" (whole 2020) (whole 41);
      scored "Kenya" NA (whole 30) ].

(** A catalog of three indicators; the second and the third match. *)
Definition catalog : json :=
  JArr [ JObj [("page", JNum (Q2Qc 1))];
         JArr [ JObj [("id", JStr "IT.NET.USER.ZS");
                      ("name", JStr "Individuals using the Internet (% of population)")];
                JObj [("id", JStr "IT.MLT.HOUS.ZS");
                      ("name", JStr "Households with a Fixed-line telephone (%)")];
                JObj [("id", JStr "IT.CEL.HOUS.ZS");
                      ("name", JStr "HOUSEHOLDS WITH A MOBILE PHONE (%)")] ] ].

Definition record_of (value : json) : json :=
  JObj [ ("indicator", JObj [("id", JStr "IT.NET.USER.ZS");
                             ("value", JStr "Individuals using the Internet (% of population)")]);
         ("country", JObj [("id", JStr "NA"); ("value", JStr "Namibia")]);
         ("countryiso3code", JStr "NAM");
         ("date", JStr "2020");
         ("value", value) ].

(** A server with a catalog and one full page of records; the request for
    the second page fails. *)
Definition one_page_then_failure (r : Fetcher.request) : outcome json :=
  if decide (r = Fetcher.catalog_request) then Return catalog
  else if decide (r = Fetcher.page_request "IT.NET.USER.ZS" 2000 2024 1) then
    Return (JArr [ JObj [("page", JNum (Q2Qc 1))];
                   JArr (replicate Fetcher.per_page (record_of (JNum (Q2Qc (41 # 1))))) ])
  else Raise RequestException.

Definition later : string := "2024-06-30 12:00:00".

(** A table without a Value column. *)
Definition no_value : DataFrame :=
  mkDataFrame ["Country"; "Year"]
    [ {[ "Country" := Str "Namibia"; "Year" := whole 2020 ]} ].

(** A server that answers every request with a full page. *)
Definition always_full (r : Fetcher.request) : outcome json :=
  Return (JArr [ JObj [("page", JNum (Q2Qc 1))];
                 JArr (replicate Fetcher.per_page (record_of (JNum (Q2Qc (41 # 1))))) ]).

(** A catalog whose first entry matches and whose second has no name. *)
Definition unnamed_entry (r : Fetcher.request) : outcome json :=
  Return (JArr [ JObj [("page", JNum (Q2Qc 1))];
                 JArr [ JObj [("id", JStr "IT.MLT.HOUS.ZS");
                              ("name", JStr "Households with a Fixed-line telephone (%)")];
                        JObj [("id", JStr "IT.XXX"); ("name", JNull)] ] ]).


(** An item with a date that is a number but not a whole one. *)
Definition half_year : json :=
  JObj [ ("country", JObj [("id", JStr "NA"); ("value", JStr "Namibia")]);
         ("date", JStr "2020.5");
         ("value", JNum (Q2Qc (41 # 1))) ].

(** A cleaned table of three countries over two years. *)
Definition three_countries : DataFrame :=
  mkDataFrame ["Country"; "Year"; "Value"]
    [ scored "Namibia" (whole 2020) (whole 41);
      scored "Canada" (whole 2019) (whole 90);
      scored "Kenya" (whole 2020) (whole 30);
      scored "Canada" (whole 2020) (whole 92) ].

(** A table of Namibia alone. *)
Definition namibia_alone : DataFrame :=
  mkDataFrame ["Country"; "Year"; "Value"]
    [ scored "Namibia" (whole 2019) (whole 36);
      scored "Namibia" (whole 2020) (whole 41) ].

(** The two highest values of 2020 in [three_countries]. *)
Definition top_two_of_2020 : Visualizer.chart :=
  {| Visualizer.chart_year := whole 2020; Visualizer.chart_n := 2;
     Visualizer.bars := [ (Str "Canada", whole 92); (Str "Namibia", whole 41) ] |}.

(** A mean for the sample tables: the first value of the column. *)
Definition first_value (col : list cell) : outcome cell :=
  Return (default NA (head col)).

(** The regions of 2020 in [three_countries]. *)
Definition regions_of_2020 : Visualizer.regional_chart :=
  {| Visualizer.regional_year := whole 2020;
     Visualizer.regional_bars := [ ("North America", whole 92); ("Africa", whole 30) ] |}.

(** A directory with two snapshots named by their time, the latest
    snapshot and another file. *)
Definition processed_dir : list string :=
  [ "cleaned_data_20240101_000000.csv"; "cleaned_data_latest.csv";
    "cleaned_data_20240630_120000.csv"; "cleaned_data_latest.json" ].

(** A table of years, without countries and values. *)
Definition year_without_value : DataFrame :=
  mkDataFrame ["Year"] [ {[ "Year" := whole 2020 ]} ].

(** A global trend that is drawn. *)
Definition trend_drawn (df : DataFrame) : outcome unit := Return tt.

End Examples.

(** * Properties *)

(** Membership in a list of literals. *)
Ltac not_in_list :=
  let H := fresh in
  intros H; repeat (apply elem_of_cons in H as [H|H]; [discriminate H|]);
  by apply elem_of_nil in H.

Ltac in_list := repeat first [apply list_elem_of_here | apply list_elem_of_further].

Ltac sub_list H :=
  repeat (apply elem_of_cons in H as [->|H]; [in_list|]); by apply elem_of_nil in H.

Ltac other_column H := intros <-; apply H; in_list.

(** ** Outcomes *)

Lemma bind_Return {A B} (a : A) (f : A → outcome B) : (Return a ≫= f) = f a.
Proof. reflexivity. Qed.

Lemma bind_Raise {A B} e (f : A → outcome B) : (Raise e ≫= f) = Raise e.
Proof. reflexivity. Qed.

(** ** The object store *)

Section StoreFacts.
Import Store.

Lemma preserves_refl h : preserves h h.
Proof. by intros l d. Qed.

Lemma fresh_loc_unused (h : heap) : h !! fresh (dom h) = None.
Proof. apply not_elem_of_dom, is_fresh. Qed.

Lemma preserves_insert h h' l d :
  preserves h h' → h !! l = None → preserves h (<[l := d]> h').
Proof.
  intros Hp Hl l0 d0 H0. rewrite lookup_insert_ne; [by apply Hp|].
  intros ->. congruence.
Qed.

Lemma bind_run {A B} (m : py A) (k : A → py B) h :
  (m ≫= k) h = match m h with
               | (Return a, h') => k a h'
               | (Raise e, h') => (Raise e, h')
               end.
Proof. reflexivity. Qed.

Lemma deref_run h l d : h !! l = Some d → deref l h = (Return d, h).
Proof. intros H. unfold deref. by rewrite H. Qed.

Lemma assign_run h l d c e :
  h !! l = Some d →
  assign l c e h = match e d with
                   | Return col => (Return tt, <[l := setitem d c col]> h)
                   | Raise x => (Raise x, h)
                   end.
Proof.
  intros H. unfold assign. rewrite bind_run, (deref_run _ _ _ H), bind_run.
  unfold lift. by destruct (e d).
Qed.

Lemma assign_scalar_run h l d c v :
  h !! l = Some d →
  assign_scalar l c v h = (Return tt, <[l := setitem_scalar d c v]> h).
Proof.
  intros H. unfold assign_scalar. by rewrite bind_run, (deref_run _ _ _ H).
Qed.

Lemma copy_run h l d :
  h !! l = Some d → copy l h = (Return (fresh (dom h)), <[fresh (dom h) := d]> h).
Proof. intros H. unfold copy. by rewrite bind_run, (deref_run _ _ _ H). Qed.

Lemma drop_duplicates_run h l d :
  h !! l = Some d →
  Store.drop_duplicates l h
  = (Return (fresh (dom h)), <[fresh (dom h) := Frame.drop_duplicates d]> h).
Proof.
  intros H. unfold Store.drop_duplicates. by rewrite bind_run, (deref_run _ _ _ H).
Qed.
End StoreFacts.

(** ** The Cleaner: from the statements to the frames *)

Section CleanerFrames.
Import Store Cleaner.
Variable parse_float : string → option Qc.

(** One assignment of the program, with the value of its right-hand side
    among the hypotheses. *)
Local Ltac run_assign :=
  rewrite bind_run; erewrite assign_run by apply lookup_insert_eq;
  match goal with
  | E : _ = _ :> outcome _ |- _ => rewrite E
  end;
  try rewrite insert_insert_eq.

(** Step 7 acts on the object [l] as [labelled] says. *)
Lemma derive_connection_type_runs l d :
  "Indicator" ∈ columns d →
  runs_as l d (derive_connection_type l) (labelled d).
Proof.
  intros Hin h H. unfold labelled, derive_connection_type.
  rewrite decide_True by done.
  rewrite bind_run, (deref_run _ _ _ H).
  set (o := if negb (Frame.empty d) then Py.bind (getitem d "Indicator") iloc0
            else Return (Str "Unknown")).
  assert (Ho : (if negb (Frame.empty d)
                then lift (Py.bind (getitem d "Indicator") iloc0)
                else mret (Str "Unknown")) = lift o :> py cell).
  { unfold o. by destruct (negb (Frame.empty d)). }
  rewrite Ho, bind_run. unfold lift at 1.
  destruct o as [name|e]; simpl; [|exists d; by rewrite insert_id].
  rewrite bind_run, (assign_scalar_run _ _ _ _ _ H).
  rewrite bind_run. unfold lift at 1.
  destruct (str_lower name) as [s|e] eqn:Hs; simpl; [|by eexists].
  unfold label_of.
  destruct (contains "fixed" s).
  - erewrite assign_scalar_run by apply lookup_insert_eq.
    by rewrite insert_insert_eq.
  - rewrite bind_run. unfold lift at 1.
    destruct (contains "mobile" s);
      (erewrite assign_scalar_run by apply lookup_insert_eq);
      by rewrite insert_insert_eq.
Qed.

(** Steps 5 to 7, from the frame the copy [l1] holds after step 4. *)
Lemma clean_data_tail now (h : heap) l1 d4 :
  h !! l1 = None →
  ∃ h', preserves h h' ∧
    match labelled (Frame.drop_duplicates (setitem_scalar d4 "processed_at" (Str now))) with
    | Return out =>
        ∃ l', h !! l' = None ∧ h' !! l' = Some out ∧
          (assign_scalar l1 "processed_at" (Str now) ≫= λ _,
           Store.drop_duplicates l1 ≫= λ cleaned_df,
           deref cleaned_df ≫= λ d,
           (if decide ("Indicator" ∈ columns d) then derive_connection_type cleaned_df
            else mret tt) ≫= λ _, mret (Some cleaned_df)) (<[l1 := d4]> h)
          = (Return (Some l'), h')
    | Raise e =>
          (assign_scalar l1 "processed_at" (Str now) ≫= λ _,
           Store.drop_duplicates l1 ≫= λ cleaned_df,
           deref cleaned_df ≫= λ d,
           (if decide ("Indicator" ∈ columns d) then derive_connection_type cleaned_df
            else mret tt) ≫= λ _, mret (Some cleaned_df)) (<[l1 := d4]> h)
          = (Raise e, h')
    end.
Proof.
  intros Hl1.
  rewrite bind_run. erewrite assign_scalar_run by apply lookup_insert_eq.
  rewrite insert_insert_eq.
  rewrite bind_run. erewrite drop_duplicates_run by apply lookup_insert_eq.
  set (d5 := setitem_scalar d4 "processed_at" (Str now)).
  set (h5 := <[l1 := d5]> h).
  set (l2 := fresh (dom h5)).
  set (d6 := Frame.drop_duplicates d5).
  assert (Hl2 : h5 !! l2 = None) by apply fresh_loc_unused.
  assert (Hl2' : h !! l2 = None).
  { unfold h5 in Hl2. apply lookup_insert_None in Hl2. tauto. }
  assert (Hp : ∀ d', preserves h (<[l2 := d']> h5)).
  { intros d'. apply preserves_insert; [|done].
    apply preserves_insert; [apply preserves_refl|done]. }
  rewrite bind_run. erewrite deref_run by apply lookup_insert_eq.
  rewrite bind_run.
  destruct (decide ("Indicator" ∈ columns d6)) as [Hin|Hin].
  - pose proof (derive_connection_type_runs l2 d6 Hin (<[l2 := d6]> h5)
                  (lookup_insert_eq _ _ _)) as Hrun.
    destruct (labelled d6) as [out|e].
    + rewrite Hrun, insert_insert_eq. eexists; split; [apply Hp|].
      exists l2. by rewrite lookup_insert_eq.
    + destruct Hrun as [d' ->]. rewrite insert_insert_eq.
      eexists; split; [apply Hp|]. reflexivity.
  - unfold labelled. rewrite decide_False by done.
    eexists; split; [apply Hp|].
    exists l2. by rewrite lookup_insert_eq.
Qed.

(** [clean_data] on a reference to a frame [d] that is not empty: the
    objects of the store are kept, and the call returns a new object holding
    [cleaned d], or raises what [cleaned d] raises. *)
Lemma clean_data_frames now h l d :
  h !! l = Some d → Frame.empty d = false →
  ∃ h', preserves h h' ∧
    match cleaned parse_float now d with
    | Return out =>
        ∃ l', h !! l' = None ∧ h' !! l' = Some out ∧
              clean_data parse_float now (Some l) h = (Return (Some l'), h')
    | Raise e => clean_data parse_float now (Some l) h = (Raise e, h')
    end.
Proof.
  intros H Hne. unfold clean_data.
  rewrite bind_run, (deref_run _ _ _ H), Hne.
  rewrite bind_run, (copy_run _ _ _ H).
  set (l1 := fresh (dom h)).
  assert (Hl1 : h !! l1 = None) by apply fresh_loc_unused.
  assert (Hp1 : ∀ d', preserves h (<[l1 := d']> h)).
  { intros d'. apply preserves_insert; [apply preserves_refl|done]. }
  unfold cleaned, deduplicated, assigned.
  destruct (filled_countries d) as [c1|e] eqn:E1; rewrite ?bind_Return, ?bind_Raise.
  2:{ eexists; split; [|run_assign; reflexivity]. apply Hp1. }
  destruct (standardized_countries _) as [c2|e] eqn:E2; rewrite ?bind_Return, ?bind_Raise.
  2:{ eexists; split; [|do 2 run_assign; reflexivity]. apply Hp1. }
  destruct (numeric_values parse_float _) as [c3|e] eqn:E3;
    rewrite ?bind_Return, ?bind_Raise.
  2:{ eexists; split; [|do 3 run_assign; reflexivity]. apply Hp1. }
  do 3 run_assign.
  rewrite bind_run. erewrite deref_run by apply lookup_insert_eq.
  rewrite bind_run.
  match goal with |- context [decide ("Year" ∈ columns ?d)] => generalize d end.
  intros d3.
  destruct (decide ("Year" ∈ columns d3)) as [Hy|Hy].
  - erewrite assign_run by apply lookup_insert_eq.
    destruct (integer_years parse_float d3) as [c4|e] eqn:E4;
      rewrite ?bind_Return, ?bind_Raise.
    2:{ eexists; split; [|reflexivity]. apply Hp1. }
    rewrite insert_insert_eq. by apply clean_data_tail.
  - rewrite bind_Return. by apply clean_data_tail.
Qed.
End CleanerFrames.

(** ** Frames *)

Section FrameFacts.

(** Cells, columns and labels. *)
Lemma at_insert_eq (r : gmap string cell) c v : at_ (<[c := v]> r) c = v.
Proof. unfold at_. by rewrite lookup_insert_eq. Qed.

Lemma at_insert_ne (r : gmap string cell) c c' v :
  c ≠ c' → at_ (<[c := v]> r) c' = at_ r c'.
Proof. intros Hne. unfold at_. by rewrite lookup_insert_ne. Qed.

Lemma add_column_elem c cols : c ∈ cols → add_column c cols = cols.
Proof. intros H. unfold add_column. by rewrite decide_True. Qed.

Lemma elem_of_add_column c c' cols :
  c' ∈ add_column c cols ↔ c' = c ∨ c' ∈ cols.
Proof.
  unfold add_column. destruct (decide (c ∈ cols)).
  - split; [tauto|]. intros [->|]; done.
  - rewrite elem_of_app, list_elem_of_singleton. tauto.
Qed.

Lemma zip_with_insert_fmap c (f : cell → cell) (rs : list (gmap string cell)) :
  zip_with (λ r v, <[c := v]> r) rs (f <$> ((λ r, at_ r c) <$> rs))
  = (λ r, <[c := f (at_ r c)]> r) <$> rs.
Proof.
  induction rs as [|r rs IH]; [done|].
  rewrite !fmap_cons. cbn [zip_with]. by rewrite IH.
Qed.

Lemma setitem_map_column c f d :
  c ∈ columns d →
  setitem d c (f <$> ((λ r, at_ r c) <$> rows d)) = map_column c f d.
Proof.
  intros H. unfold setitem, map_column.
  by rewrite add_column_elem, zip_with_insert_fmap.
Qed.

Lemma getitem_elem d c :
  c ∈ columns d → getitem d c = Return ((λ r, at_ r c) <$> rows d).
Proof. intros H. unfold getitem. by rewrite decide_True. Qed.

Lemma getitem_Return d c col : getitem d c = Return col → c ∈ columns d.
Proof. unfold getitem. by destruct (decide (c ∈ columns d)). Qed.

(** [keep_first]: the kept items are items of the list with keys not seen
    before, their keys are distinct, and every item of the list has its key
    among the seen ones or the kept ones. *)
Section KeepFirst.
Context {A K : Type} `{EqDecision K} (key : A → K).

Lemma keep_first_fresh seen l x :
  x ∈ keep_first key seen l → x ∈ l ∧ key x ∉ seen.
Proof.
  revert seen. induction l as [|y l IH]; intros seen; simpl.
  - by intros ?%elem_of_nil.
  - destruct (decide (key y ∈ seen)) as [Hy|Hy].
    + intros [? ?]%IH. split; [by right|done].
    + intros [->|[? Hx]%IH]%elem_of_cons.
      * split; [by left|done].
      * split; [by right|]. intros ?. apply Hx. by right.
Qed.

Lemma keep_first_NoDup seen l : NoDup (key <$> keep_first key seen l).
Proof.
  revert seen. induction l as [|y l IH]; intros seen; simpl.
  - constructor.
  - destruct (decide (key y ∈ seen)); [apply IH|].
    rewrite fmap_cons. constructor; [|apply IH].
    intros (x & Hk & Hx)%list_elem_of_fmap.
    apply keep_first_fresh in Hx as [_ Hx]. apply Hx. rewrite Hk. by left.
Qed.

Lemma keep_first_covers seen l x :
  x ∈ l → key x ∈ seen ∨ ∃ y, y ∈ keep_first key seen l ∧ key y = key x.
Proof.
  revert seen. induction l as [|y l IH]; intros seen; simpl.
  - by intros ?%elem_of_nil.
  - intros [->|Hx]%elem_of_cons.
    + destruct (decide (key y ∈ seen)); [by left|].
      right. exists y. split; [by left|done].
    + destruct (decide (key y ∈ seen)) as [Hy|Hy]; [by apply IH|].
      destruct (IH (key y :: seen) Hx) as [[Hk|Hk]%elem_of_cons|(z & Hz & Hk)].
      * right. exists y. split; [by left|done].
      * by left.
      * right. exists z. split; [by right|done].
Qed.

Lemma keep_first_head x l :
  keep_first key [] (x :: l) = x :: keep_first key [key x] l.
Proof.
  cbn [keep_first]. destruct (decide _) as [H|]; [|done].
  by apply elem_of_nil in H.
Qed.
End KeepFirst.

(** [drop_duplicates] leaves no two rows equal in every column. *)
Lemma drop_duplicates_distinct d : Cleaner.distinct_rows (drop_duplicates d).
Proof.
  intros i j r1 r2 H1 H2 Heq. simpl in *.
  pose proof (keep_first_NoDup (row_key (columns d)) [] (rows d)) as Hnd.
  eapply NoDup_lookup; [apply Hnd| |].
  - rewrite list_lookup_fmap, H1. reflexivity.
  - rewrite list_lookup_fmap, H2. simpl. f_equal.
    unfold row_key. apply list_fmap_ext. intros k c Hc. symmetry. apply Heq.
    by eapply list_elem_of_lookup_2.
Qed.

(** The integer cast accepts a column of castable entries and keeps it;
    an entry the cast of a cell accepts is castable. *)
Lemma astype_Int64_castable parse_float col :
  Forall (Cleaner.castable parse_float) col →
  astype_Int64 (to_numeric parse_float col) = Return (to_numeric parse_float col).
Proof.
  induction 1 as [|x col Hx _ IH]; [done|].
  unfold to_numeric in *. rewrite fmap_cons. cbn [astype_Int64].
  rewrite IH. unfold Cleaner.castable in Hx.
  destruct (to_numeric_cell parse_float x) as [|q|s]; simpl; [done| |done].
  destruct Hx as (z & -> & ->). done.
Qed.

Lemma castable_cast parse_float x y :
  astype_Int64_cell (to_numeric_cell parse_float x) = Return y →
  Cleaner.castable parse_float x.
Proof.
  unfold Cleaner.castable.
  destruct (to_numeric_cell parse_float x) as [|q|s]; cbn [astype_Int64_cell];
    [done| |done].
  destruct (as_integer q) as [z|]; [|done].
  destruct (int64_range z) eqn:Hz; [|done]. eauto.
Qed.
End FrameFacts.

(** ** The Cleaner: the cleaned frame *)

Section CleanerResults.
Import Store Cleaner.
Variable parse_float : string → option Qc.

(** An assignment that maps a column cell by cell. *)
Lemma assigned_map_column c (f : cell → cell) d :
  c ∈ columns d →
  assigned c (λ d, Py.bind (getitem d c) (λ col, Return (f <$> col))) d
  = Return (map_column c f d).
Proof.
  intros H. unfold assigned. rewrite (getitem_elem _ _ H). simpl.
  by rewrite <-setitem_map_column.
Qed.

Lemma clean_row_steps now (y : bool) r :
  <["processed_at" := Str now]>
    ((if y then (λ r, <["Year" := to_numeric_cell parse_float (at_ r "Year")]> r) else id)
       ((λ r, <["Value" := to_numeric_cell parse_float (at_ r "Value")]> r)
          ((λ r, <["Country" := replace_cell country_mapping (at_ r "Country")]> r)
             (<["Country" := fillna_cell (Str "Unknown") (at_ r "Country")]> r))))
  = clean_row parse_float now y r.
Proof.
  unfold clean_row. simpl. rewrite at_insert_eq, insert_insert_eq. by destruct y.
Qed.

(** Steps 1 to 6 on a coercible table. *)
Lemma deduplicated_coercible now d :
  coercible parse_float d →
  deduplicated parse_float now d
  = Return {| columns := add_column "processed_at" (columns d);
              rows := keep_first (row_key (add_column "processed_at" (columns d))) []
                        (clean_row parse_float now (bool_decide ("Year" ∈ columns d))
                           <$> rows d) |}.
Proof.
  intros (_ & Hc & Hv & Hy). unfold deduplicated.
  unfold filled_countries, fillna. rewrite (assigned_map_column _ _ _ Hc), bind_Return.
  unfold standardized_countries, replace.
  rewrite (assigned_map_column _ _ (map_column _ _ d) Hc), bind_Return.
  unfold numeric_values, to_numeric.
  rewrite (assigned_map_column "Value" _ (map_column _ _ (map_column _ _ d)) Hv), bind_Return.
  set (d3 := map_column "Value" _ _).
  assert (Hcols : columns d3 = columns d) by done.
  rewrite Hcols.
  assert (Hd4 : (if decide ("Year" ∈ columns d)
                 then assigned "Year" (integer_years parse_float) d3 else Return d3)
                = Return {| columns := columns d;
                            rows := (if bool_decide ("Year" ∈ columns d)
                                     then (λ r, <["Year" := to_numeric_cell parse_float (at_ r "Year")]> r)
                                     else id) <$> rows d3 |}).
  { destruct (decide ("Year" ∈ columns d)) as [Hin|Hin].
    - rewrite bool_decide_eq_true_2 by done.
      unfold assigned, integer_years. rewrite getitem_elem by done. simpl.
      rewrite astype_Int64_castable.
      + simpl. unfold to_numeric. rewrite setitem_map_column by done. done.
      + specialize (Hy Hin). unfold d3. simpl.
        rewrite <-!list_fmap_compose. apply Forall_fmap.
        eapply Forall_impl; [apply Hy|]. intros r Hr. simpl.
        by rewrite !at_insert_ne.
    - rewrite bool_decide_eq_false_2 by done. rewrite list_fmap_id. reflexivity. }
  rewrite Hd4, bind_Return. unfold Frame.drop_duplicates, setitem_scalar. simpl.
  do 3 f_equal. rewrite <-!list_fmap_compose.
  apply list_fmap_ext. intros i r _. simpl. apply clean_row_steps.
Qed.

(** The cells of a cleaned row and of a labelled row. *)
Lemma clean_row_other now y r c :
  c ∉ ["Country"; "Value"; "Year"; "processed_at"] →
  at_ (clean_row parse_float now y r) c = at_ r c.
Proof.
  intros Hc. unfold clean_row. rewrite at_insert_ne by other_column Hc.
  destruct y; rewrite ?at_insert_ne by other_column Hc; done.
Qed.

Lemma clean_row_Value now y r :
  at_ (clean_row parse_float now y r) "Value" = to_numeric_cell parse_float (at_ r "Value").
Proof.
  unfold clean_row. rewrite at_insert_ne by done.
  destruct y; rewrite ?at_insert_ne by done; by rewrite at_insert_eq, at_insert_ne.
Qed.

Lemma clean_row_Year now r :
  at_ (clean_row parse_float now true r) "Year" = to_numeric_cell parse_float (at_ r "Year").
Proof.
  unfold clean_row. rewrite at_insert_ne by done.
  by rewrite at_insert_eq, !at_insert_ne.
Qed.

Lemma label_row_other s r c :
  c ∉ ["indicator_clean"; "connection_type"] → at_ (label_row s r) c = at_ r c.
Proof. intros Hc. unfold label_row. rewrite !at_insert_ne by other_column Hc. done. Qed.

Lemma label_row_connection_type s r :
  at_ (label_row s r) "connection_type" = Str (label_of (lower s)).
Proof. unfold label_row. by rewrite at_insert_eq. Qed.

(** Step 7 on a frame whose first Indicator is the text [s]. *)
Lemma labelled_text d s :
  "Indicator" ∈ columns d → first_indicator d s →
  labelled d
  = Return {| columns := add_column "connection_type"
                           (add_column "indicator_clean" (columns d));
              rows := label_row s <$> rows d |}.
Proof.
  intros Hin (r & Hr & Hs). unfold labelled. rewrite decide_True by done.
  destruct (rows d) as [|r0 rs] eqn:Hrows; [done|]. simplify_eq/=.
  assert (Frame.empty d = false) as ->.
  { unfold Frame.empty. rewrite Hrows.
    rewrite (bool_decide_eq_false_2 (columns d = [])); [done|].
    intros E. rewrite E in Hin. by apply elem_of_nil in Hin. }
  simpl. rewrite (getitem_elem _ _ Hin), Hrows. simpl. rewrite Hs. simpl.
  unfold setitem_scalar. simpl. rewrite Hrows. do 2 f_equal.
  rewrite <-list_fmap_compose. done.
Qed.

Lemma labelled_without d : "Indicator" ∉ columns d → labelled d = Return d.
Proof. intros H. unfold labelled. by rewrite decide_False. Qed.

(** The whole of [clean_data] on a coercible table with an Indicator text. *)
Lemma cleaned_text now d s :
  coercible parse_float d → "Indicator" ∈ columns d → first_indicator d s →
  cleaned parse_float now d
  = Return {| columns := add_column "connection_type"
                           (add_column "indicator_clean"
                              (add_column "processed_at" (columns d)));
              rows := label_row s <$>
                        keep_first (row_key (add_column "processed_at" (columns d))) []
                          (clean_row parse_float now (bool_decide ("Year" ∈ columns d))
                             <$> rows d) |}.
Proof.
  intros Hco Hin (r & Hr & Hs). unfold cleaned.
  rewrite (deduplicated_coercible _ _ Hco), bind_Return.
  rewrite (labelled_text _ s); [done| |].
  - simpl. apply elem_of_add_column. by right.
  - destruct (rows d) as [|r0 rs] eqn:Hrows; [done|].
    simpl in Hr. simplify_eq. unfold first_indicator. cbn [rows].
    rewrite fmap_cons, keep_first_head. eexists; split; [reflexivity|].
    rewrite clean_row_other; [done|]. not_in_list.
Qed.

Lemma cleaned_without now d :
  coercible parse_float d → "Indicator" ∉ columns d →
  cleaned parse_float now d
  = Return {| columns := add_column "processed_at" (columns d);
              rows := keep_first (row_key (add_column "processed_at" (columns d))) []
                        (clean_row parse_float now (bool_decide ("Year" ∈ columns d))
                           <$> rows d) |}.
Proof.
  intros Hco Hin. unfold cleaned.
  rewrite (deduplicated_coercible _ _ Hco), bind_Return.
  apply labelled_without. simpl. rewrite elem_of_add_column. intros [?|?]; done.
Qed.

(** From the frames back to the program. *)
Lemma clean_data_cleaned now h l d out :
  h !! l = Some d → Frame.empty d = false →
  cleaned parse_float now d = Return out →
  ∃ l' h', clean_data parse_float now (Some l) h = (Return (Some l'), h') ∧
           h' !! l' = Some out.
Proof.
  intros H Hne Hc.
  destruct (clean_data_frames parse_float now h l d H Hne) as (h' & _ & Hm).
  rewrite Hc in Hm. destruct Hm as (l' & _ & Hout & Hrun). eauto.
Qed.

Lemma clean_data_Return now h l d l' h' :
  h !! l = Some d →
  clean_data parse_float now (Some l) h = (Return (Some l'), h') →
  ∃ out, cleaned parse_float now d = Return out ∧ h' !! l' = Some out ∧
         h !! l' = None ∧ preserves h h'.
Proof.
  intros H Hrun.
  destruct (Frame.empty d) eqn:Hne.
  { unfold clean_data in Hrun. rewrite bind_run, (deref_run _ _ _ H), Hne in Hrun.
    discriminate. }
  destruct (clean_data_frames parse_float now h l d H Hne) as (h'' & Hp & Hm).
  destruct (cleaned parse_float now d) as [out|e].
  - destruct Hm as (l'' & Hnew & Hout & Hrun'). rewrite Hrun' in Hrun.
    simplify_eq. eauto.
  - rewrite Hm in Hrun. discriminate.
Qed.

(** Whatever the table, what steps 1 to 6 return has distinct rows, under
    the columns of the input and [processed_at]. *)
Lemma deduplicated_Return now d d6 :
  deduplicated parse_float now d = Return d6 →
  distinct_rows d6 ∧ ∀ c, c ∈ columns d6 → c = "processed_at" ∨ c ∈ columns d.
Proof.
  unfold deduplicated, assigned. intros Hd.
  destruct (filled_countries d) as [c1|] eqn:E1; [|done]. rewrite !bind_Return in Hd.
  destruct (standardized_countries _) as [c2|] eqn:E2; [|done]. rewrite !bind_Return in Hd.
  destruct (numeric_values _ _) as [c3|] eqn:E3; [|done]. rewrite !bind_Return in Hd.
  assert (Hc : "Country" ∈ columns d).
  { unfold filled_countries in E1. destruct (getitem d "Country") eqn:E; [|done].
    by apply getitem_Return in E. }
  assert (Hv : "Value" ∈ columns d).
  { unfold numeric_values in E3. destruct (getitem _ "Value") eqn:E; [|done].
    apply getitem_Return in E. simpl in E. by rewrite !(add_column_elem _ _ Hc) in E. }
  set (d3 := setitem _ "Value" c3) in *.
  assert (H3 : columns d3 = columns d).
  { unfold d3. simpl. by rewrite !(add_column_elem _ _ Hc), (add_column_elem _ _ Hv). }
  assert (∃ d4, Return d6 = Return (Frame.drop_duplicates
                                      (setitem_scalar d4 "processed_at" (Str now)))
                ∧ columns d4 = columns d) as (d4 & [= ->] & H4).
  { destruct (decide ("Year" ∈ columns d3)) as [Hy|Hy].
    - destruct (integer_years _ _) as [c4|]; [|done]. eexists; split; [by rewrite <-Hd|].
      simpl. rewrite add_column_elem by done. apply H3.
    - eexists; split; [by rewrite <-Hd|done]. }
  split; [apply drop_duplicates_distinct|].
  intros c. simpl. rewrite elem_of_add_column, H4. tauto.
Qed.

(** Step 7 keeps the rows distinct when it adds its two columns. *)
Lemma labelled_distinct d out :
  distinct_rows d → "indicator_clean" ∉ columns d → "connection_type" ∉ columns d →
  labelled d = Return out → distinct_rows out.
Proof.
  intros Hd Hic Hct. unfold labelled.
  destruct (decide ("Indicator" ∈ columns d)); [|by intros [= <-]].
  destruct (if negb _ then _ else _) as [v|]; [|done]. rewrite !bind_Return.
  destruct (str_lower v) as [s|]; [|done]. rewrite !bind_Return. intros [= <-].
  intros i j r1 r2. unfold setitem_scalar. simpl.
  rewrite <-list_fmap_compose, !list_lookup_fmap.
  destruct (rows d !! i) as [r1'|] eqn:H1; [|done].
  destruct (rows d !! j) as [r2'|] eqn:H2; [|done]. simpl.
  intros [= <-] [= <-] Heq. apply (Hd i j r1' r2' H1 H2).
  intros c Hc. specialize (Heq c). rewrite !elem_of_add_column in Heq.
  rewrite !at_insert_ne in Heq by congruence. apply Heq. tauto.
Qed.
End CleanerResults.

(** *** The tables [clean_data] returns on *)

Section CleanerDomain.
Import Store Cleaner.
Variable parse_float : string → option Qc.

(** Steps 1 to 6 return on the coercible tables only. *)
Lemma deduplicated_Return_coercible now d d6 :
  Frame.empty d = false →
  deduplicated parse_float now d = Return d6 → coercible parse_float d.
Proof.
  intros Hne. unfold deduplicated, assigned. intros Hd.
  destruct (filled_countries d) as [c1|] eqn:E1; [|done]. rewrite !bind_Return in Hd.
  destruct (standardized_countries _) as [c2|] eqn:E2; [|done]. rewrite !bind_Return in Hd.
  destruct (numeric_values _ _) as [c3|] eqn:E3; [|done]. rewrite !bind_Return in Hd.
  assert (Hc : "Country" ∈ columns d).
  { unfold filled_countries in E1. destruct (getitem d "Country") eqn:E; [|done].
    by apply getitem_Return in E. }
  assert (Hv : "Value" ∈ columns d).
  { unfold numeric_values in E3. destruct (getitem _ "Value") eqn:E; [|done].
    apply getitem_Return in E. simpl in E. by rewrite !(add_column_elem _ _ Hc) in E. }
  split; [done|]. split; [done|]. split; [done|]. intros Hy.
  unfold filled_countries, standardized_countries, numeric_values in *.
  rewrite (getitem_elem _ _ Hc) in E1. injection E1 as <-.
  unfold fillna in *. rewrite setitem_map_column in * by done.
  rewrite (getitem_elem (map_column _ _ d) "Country" Hc) in E2. injection E2 as <-.
  unfold replace in *. rewrite setitem_map_column in * by done.
  rewrite (getitem_elem (map_column _ _ (map_column _ _ d)) "Value" Hv) in E3.
  injection E3 as <-.
  unfold to_numeric in *. rewrite setitem_map_column in Hd by done.
  set (d3 := map_column "Value" _ _) in *.
  rewrite decide_True in Hd by done.
  destruct (integer_years parse_float d3) as [c4|] eqn:E4; [|done].
  unfold integer_years in E4. rewrite (getitem_elem d3 "Year" Hy) in E4.
  cbn [Py.bind] in E4. clear Hd.
  assert (Hcol : (λ r, at_ r "Year") <$> rows d3 = (λ r, at_ r "Year") <$> rows d).
  { unfold d3. simpl. rewrite <-!list_fmap_compose. apply list_fmap_ext.
    intros i r _. simpl. by rewrite !at_insert_ne. }
  rewrite Hcol in E4. clear Hcol. revert c4 E4.
  induction (rows d) as [|r rs IH]; intros c4 E4; [constructor|].
  rewrite fmap_cons in E4. unfold to_numeric in E4. rewrite fmap_cons in E4.
  cbn [astype_Int64] in E4.
  destruct (astype_Int64_cell _) as [y|] eqn:Ecell; [|done].
  cbn [Py.bind] in E4.
  destruct (astype_Int64 _) as [ys|] eqn:Erest; [|done].
  constructor; [by eapply castable_cast|]. by eapply IH.
Qed.

(** [cleaned] returns on the coercible tables whose first Indicator, if
    there is such a column, is a text, and on no other table. *)
Lemma cleaned_Return now d out :
  Frame.empty d = false →
  cleaned parse_float now d = Return out →
  coercible parse_float d ∧ ("Indicator" ∈ columns d → ∃ s, first_indicator d s).
Proof.
  intros Hne Hc. unfold cleaned in Hc.
  destruct (deduplicated parse_float now d) as [d6|] eqn:Hd; [|done].
  rewrite bind_Return in Hc.
  pose proof (deduplicated_Return_coercible _ _ _ Hne Hd) as Hco.
  split; [done|]. intros Hin.
  rewrite (deduplicated_coercible _ _ _ Hco) in Hd. injection Hd as <-.
  unfold labelled in Hc. cbn [columns] in Hc.
  rewrite decide_True in Hc by (apply elem_of_add_column; by right).
  destruct (rows d) as [|r rs] eqn:Hrows.
  { unfold Frame.empty in Hne. rewrite Hrows in Hne.
    by rewrite orb_true_r in Hne. }
  rewrite fmap_cons, keep_first_head in Hc.
  match type of Hc with
  | context [Frame.empty ?x] => assert (Frame.empty x = false) as Hne6
  end.
  { unfold Frame.empty. cbn [columns rows].
    rewrite bool_decide_eq_false_2; [done|].
    intros E. assert ("Indicator" ∈ add_column "processed_at" (columns d)) as Hx
      by (apply elem_of_add_column; by right).
    rewrite E in Hx. by apply elem_of_nil in Hx. }
  rewrite Hne6 in Hc. cbn [negb] in Hc.
  rewrite getitem_elem in Hc by (apply elem_of_add_column; by right).
  cbn [rows Py.bind iloc0 fmap list_fmap] in Hc. rewrite bind_Return in Hc.
  rewrite clean_row_other in Hc by not_in_list.
  destruct (at_ r "Indicator") as [| |s] eqn:Hs; try done.
  exists s, r. by rewrite Hrows.
Qed.

(** X1.  [clean_data] returns a table on exactly these tables: the ones
    that are not empty, have a Country and a Value column, whose Years can
    be cast to integers, and whose first Indicator, if there is such a
    column, is a text.  On every other table it returns [None] or raises. *)
Lemma clean_data_returns_iff now (h : heap) l d :
  h !! l = Some d →
  (∃ l' h', clean_data parse_float now (Some l) h = (Return (Some l'), h')) ↔
  coercible parse_float d ∧ ("Indicator" ∈ columns d → ∃ s, first_indicator d s).
Proof.
  intros H. split.
  - intros (l' & h' & Hrun).
    destruct (clean_data_Return parse_float now h l d l' h' H Hrun) as (out & Hc & _).
    destruct (Frame.empty d) eqn:Hne.
    { unfold clean_data in Hrun. rewrite bind_run, (deref_run _ _ _ H), Hne in Hrun.
      discriminate. }
    by eapply cleaned_Return.
  - intros [Hco Hind]. destruct (decide ("Indicator" ∈ columns d)) as [Hin|Hin].
    + destruct (Hind Hin) as [s Hs].
      pose proof (cleaned_text parse_float now d s Hco Hin Hs) as Hc.
      destruct (clean_data_cleaned parse_float now h l d _ H (proj1 Hco) Hc)
        as (l' & h' & Hrun & _). eauto.
    + pose proof (cleaned_without parse_float now d Hco Hin) as Hc.
      destruct (clean_data_cleaned parse_float now h l d _ H (proj1 Hco) Hc)
        as (l' & h' & Hrun & _). eauto.
Qed.
End CleanerDomain.

(** ** The Cleaner: the properties of the specification *)

Section CleanerClaims.
Import Store Cleaner.
Variable parse_float : string → option Qc.

(** The shape of what [clean_data] returns. *)
Lemma clean_data_output now (h : heap) l d l' h' :
  h !! l = Some d →
  clean_data parse_float now (Some l) h = (Return (Some l'), h') →
  coercible parse_float d ∧
  ∃ out lab, h' !! l' = Some out ∧
    rows out = fmap lab (keep_first (row_key (add_column "processed_at" (columns d))) []
                           (clean_row parse_float now (bool_decide ("Year" ∈ columns d))
                              <$> rows d)) ∧
    ((∃ s, "Indicator" ∈ columns d ∧ first_indicator d s ∧ lab = label_row s ∧
           columns out = add_column "connection_type"
                           (add_column "indicator_clean"
                              (add_column "processed_at" (columns d)))) ∨
     (lab = id ∧ ("Indicator" ∉ columns d) ∧
      columns out = add_column "processed_at" (columns d))).
Proof.
  intros H Hrun.
  destruct (clean_data_Return parse_float now h l d l' h' H Hrun) as (out & Hc & Hout & _).
  assert (Hne : Frame.empty d = false).
  { destruct (Frame.empty d) eqn:Hne; [|done].
    unfold clean_data in Hrun. rewrite bind_run, (deref_run _ _ _ H), Hne in Hrun.
    discriminate. }
  destruct (cleaned_Return parse_float now d out Hne Hc) as [Hco Hind].
  split; [done|]. exists out.
  destruct (decide ("Indicator" ∈ columns d)) as [Hin|Hin].
  - destruct (Hind Hin) as [s Hs].
    rewrite (cleaned_text parse_float now d s Hco Hin Hs) in Hc. injection Hc as <-.
    exists (label_row s). split; [done|]. split; [done|]. left. eauto 6.
  - rewrite (cleaned_without parse_float now d Hco Hin) in Hc. injection Hc as <-.
    exists id. split; [done|]. split; [by rewrite list_fmap_id|]. right. eauto.
Qed.

(** Every row of the input has a row that stands for it among the rows
    kept at step 6: one with the cells steps 1 to 5 give it. *)
Lemma clean_row_kept now d r :
  r ∈ rows d →
  ∃ r6, r6 ∈ keep_first (row_key (add_column "processed_at" (columns d))) []
               (clean_row parse_float now (bool_decide ("Year" ∈ columns d)) <$> rows d) ∧
        ∀ c, c ∈ columns d →
             at_ r6 c = at_ (clean_row parse_float now (bool_decide ("Year" ∈ columns d)) r) c.
Proof.
  intros Hr.
  destruct (keep_first_covers (row_key (add_column "processed_at" (columns d))) []
              (clean_row parse_float now (bool_decide ("Year" ∈ columns d)) <$> rows d)
              (clean_row parse_float now (bool_decide ("Year" ∈ columns d)) r))
    as [Hnil|(r6 & Hr6 & Hkey)].
  - apply list_elem_of_fmap. eauto.
  - by apply elem_of_nil in Hnil.
  - exists r6. split; [done|]. intros c Hc.
    assert (Hc' : c ∈ add_column "processed_at" (columns d))
      by (apply elem_of_add_column; by right).
    apply list_elem_of_lookup in Hc' as [i Hi].
    apply (f_equal (λ k, k !! i)) in Hkey.
    unfold row_key in Hkey. rewrite !list_lookup_fmap, Hi in Hkey.
    simpl in Hkey. congruence.
Qed.

(** C1, as the code has it.  Step 6 drops exact duplicates and nothing
    else.  For a raw table, one without the two derived columns, no two
    rows of the table [clean_data] returns are equal in every column;
    every returned row stands for a row of the input and every row of the
    input has a returned row with its cleaned cells; and two rows of the
    input whose cleaned cells differ in some column, be it Value alone,
    are both kept, at two places, also when they share Country and
    Year. *)
Theorem clean_data_distinct_rows now (h : heap) l d l' h' :
  h !! l = Some d →
  "indicator_clean" ∉ columns d → "connection_type" ∉ columns d →
  clean_data parse_float now (Some l) h = (Return (Some l'), h') →
  ∃ out, h' !! l' = Some out ∧ distinct_rows out ∧
    (∀ r', r' ∈ rows out →
       ∃ r, r ∈ rows d ∧
         ∀ c, c ∈ columns d →
           at_ r' c
           = at_ (clean_row parse_float now (bool_decide ("Year" ∈ columns d)) r) c) ∧
    (∀ r, r ∈ rows d →
       ∃ r', r' ∈ rows out ∧
         ∀ c, c ∈ columns d →
           at_ r' c
           = at_ (clean_row parse_float now (bool_decide ("Year" ∈ columns d)) r) c) ∧
    (∀ r1 r2 c, r1 ∈ rows d → r2 ∈ rows d → c ∈ columns d →
       at_ (clean_row parse_float now (bool_decide ("Year" ∈ columns d)) r1) c
       ≠ at_ (clean_row parse_float now (bool_decide ("Year" ∈ columns d)) r2) c →
       ∃ i j r1' r2', i ≠ j ∧ rows out !! i = Some r1' ∧ rows out !! j = Some r2' ∧
         (∀ c', c' ∈ columns d →
            at_ r1' c'
            = at_ (clean_row parse_float now (bool_decide ("Year" ∈ columns d)) r1) c') ∧
         (∀ c', c' ∈ columns d →
            at_ r2' c'
            = at_ (clean_row parse_float now (bool_decide ("Year" ∈ columns d)) r2) c')).
Proof.
  intros H Hic Hct Hrun.
  destruct (clean_data_output now h l d l' h' H Hrun)
    as (Hco & out & lab & Hout & Hrows & Hlab).
  exists out. split; [done|].
  assert (Hlabel : ∀ r c, c ∈ columns d → at_ (lab r) c = at_ r c).
  { intros r c Hc. destruct Hlab as [(s & _ & _ & -> & _)|(-> & _ & _)]; [|done].
    apply label_row_other. intros Hx.
    repeat (apply elem_of_cons in Hx as [->|Hx]; [done|]). by apply elem_of_nil in Hx. }
  assert (Hall : ∀ r, r ∈ rows d →
            ∃ r', r' ∈ rows out ∧
              ∀ c, c ∈ columns d →
                at_ r' c
                = at_ (clean_row parse_float now (bool_decide ("Year" ∈ columns d)) r) c).
  { intros r Hr. destruct (clean_row_kept now d r Hr) as (r6 & Hr6 & Heq).
    exists (lab r6). split; [rewrite Hrows; apply list_elem_of_fmap; eauto|].
    intros c Hc. rewrite Hlabel by done. by apply Heq. }
  split; [|split; [|split]].
  - destruct (clean_data_Return parse_float now h l d l' h' H Hrun)
      as (out' & Hc & Hout' & _).
    assert (out' = out) as -> by congruence.
    unfold cleaned in Hc.
    destruct (deduplicated parse_float now d) as [d6|] eqn:Hd; [|done].
    rewrite bind_Return in Hc.
    apply deduplicated_Return in Hd as [Hdist Hcols].
    eapply (labelled_distinct parse_float); [exact Hdist| | |exact Hc].
    + intros Hx. apply Hcols in Hx as [?|?]; done.
    + intros Hx. apply Hcols in Hx as [?|?]; done.
  - intros r'. rewrite Hrows. intros (r6 & -> & Hr6)%list_elem_of_fmap.
    apply keep_first_fresh in Hr6 as [Hr6 _].
    apply list_elem_of_fmap in Hr6 as (r & -> & Hr).
    exists r. split; [done|]. intros c Hc. by apply Hlabel.
  - done.
  - intros r1 r2 c Hr1 Hr2 Hc Hdiff.
    destruct (Hall r1 Hr1) as (r1' & Hin1 & Heq1).
    destruct (Hall r2 Hr2) as (r2' & Hin2 & Heq2).
    apply list_elem_of_lookup in Hin1 as [i Hi].
    apply list_elem_of_lookup in Hin2 as [j Hj].
    exists i, j, r1', r2'. split; [|by auto].
    intros ->. rewrite Hi in Hj. injection Hj as ->.
    apply Hdiff. by rewrite <-Heq1, <-Heq2.
Qed.

(** C8.  [clean_data] leaves every object of the store as it was, its
    argument included, and the table it returns is a new object. *)
Theorem clean_data_input_unchanged now df (h : heap) l d :
  h !! l = Some d →
  (clean_data parse_float now df h).2 !! l = Some d ∧
  ∀ l', (clean_data parse_float now df h).1 = Return (Some l') → l' ≠ l.
Proof.
  intros H. destruct df as [l0|]; [|by split].
  destruct (h !! l0) as [d0|] eqn:H0.
  - destruct (Frame.empty d0) eqn:Hne.
    + unfold clean_data. rewrite bind_run, (deref_run _ _ _ H0), Hne. by split.
    + destruct (clean_data_frames parse_float now h l0 d0 H0 Hne) as (h' & Hp & Hm).
      destruct (cleaned parse_float now d0) as [out|e].
      * destruct Hm as (l'' & Hnew & _ & ->). simpl. split; [by apply Hp|].
        intros l' [= <-] ->. congruence.
      * rewrite Hm. simpl. split; [by apply Hp|done].
  - unfold clean_data, deref. rewrite bind_run, H0. by split.
Qed.

(** C2, as the code has it.  On a table that steps 1 to 6 run through and
    whose first Indicator is a text [s], every row gets the same
    connection type, one of the three labels, fixed by [s] alone. *)
Theorem connection_type_of_text now (h : heap) l d s :
  h !! l = Some d → coercible parse_float d →
  "Indicator" ∈ columns d → first_indicator d s →
  ∃ l' h' out,
    clean_data parse_float now (Some l) h = (Return (Some l'), h') ∧
    h' !! l' = Some out ∧ rows out ≠ [] ∧
    Forall (λ r, at_ r "connection_type" = Str (label_of (lower s))) (rows out) ∧
    label_of (lower s) ∈ ["fixed-line"; "mobile"; "unknown"].
Proof.
  intros H Hco Hin Hs.
  pose proof (cleaned_text parse_float now d s Hco Hin Hs) as Hc.
  destruct (clean_data_cleaned parse_float now h l d _ H (proj1 Hco) Hc)
    as (l' & h' & Hrun & Hout).
  exists l', h'. eexists. split; [done|]. split; [done|]. simpl.
  split; [|split].
  - destruct Hs as (r & Hr & _). destruct (rows d) as [|r0 rs]; [done|].
    by rewrite fmap_cons, keep_first_head.
  - apply Forall_fmap, Forall_forall. intros r _. apply label_row_connection_type.
  - unfold label_of.
    destruct (contains "fixed" _); [in_list|].
    destruct (contains "mobile" _); in_list.
Qed.

(** C9, as the code has it.  On a table that steps 1 to 6 run through
    and whose first Indicator is a text with both "fixed" and "mobile" in
    it, in any case, [clean_data] returns a table with a
    [connection_type] column and at least one row, every row of it reads
    "fixed-line", and every row of the input has such a row, with its own
    cells in the columns the steps do not write. *)
Theorem fixed_takes_precedence now (h : heap) l d s :
  h !! l = Some d → coercible parse_float d →
  "Indicator" ∈ columns d → first_indicator d s →
  contains "fixed" (lower s) = true → contains "mobile" (lower s) = true →
  ∃ l' h' out,
    clean_data parse_float now (Some l) h = (Return (Some l'), h') ∧
    h' !! l' = Some out ∧
    "connection_type" ∈ columns out ∧ rows out ≠ [] ∧
    Forall (λ r, at_ r "connection_type" = Str "fixed-line") (rows out) ∧
    ∀ r, r ∈ rows d →
      ∃ r', r' ∈ rows out ∧ at_ r' "connection_type" = Str "fixed-line" ∧
        ∀ c, c ∈ columns d →
             c ∉ ["Country"; "Value"; "Year"; "processed_at";
                  "indicator_clean"; "connection_type"] →
             at_ r' c = at_ r c.
Proof.
  intros H Hco Hin Hs Hf _.
  pose proof (cleaned_text parse_float now d s Hco Hin Hs) as Hc.
  destruct (clean_data_cleaned parse_float now h l d _ H (proj1 Hco) Hc)
    as (l' & h' & Hrun & Hout).
  exists l', h'. eexists. split; [done|]. split; [done|]. cbn [columns rows].
  assert (Hlabel : ∀ r, at_ (label_row s r) "connection_type" = Str "fixed-line").
  { intros r. rewrite label_row_connection_type. unfold label_of. by rewrite Hf. }
  split; [|split; [|split]].
  - apply elem_of_add_column. by left.
  - destruct Hs as (r & Hr & _). destruct (rows d) as [|r0 rs]; [done|].
    by rewrite fmap_cons, keep_first_head.
  - apply Forall_fmap, Forall_forall. intros r _. apply Hlabel.
  - intros r Hr. destruct (clean_row_kept now d r Hr) as (r6 & Hr6 & Heq).
    exists (label_row s r6). split; [apply list_elem_of_fmap; eauto|].
    split; [apply Hlabel|].
    intros c Hcol Hn. rewrite label_row_other.
    + rewrite Heq by done. apply clean_row_other.
      intros Hx. apply Hn. sub_list Hx.
    + intros Hx. apply Hn. sub_list Hx.
Qed.

(** C3, as the code has it.  On a table whose Year entries are missing,
    not numbers, or whole numbers, the coercion of Value and Year does not
    raise: [clean_data] returns, and every row of the input has a row in
    the output with its Value and Year coerced, a missing value where the
    entry was not a number, and the other cells of the input. *)
Theorem coercion_gives_nulls now (h : heap) l d :
  h !! l = Some d → coercible parse_float d →
  ("Indicator" ∈ columns d → ∃ s, first_indicator d s) →
  ∃ l' h' out,
    clean_data parse_float now (Some l) h = (Return (Some l'), h') ∧
    h' !! l' = Some out ∧
    ∀ r, r ∈ rows d →
      ∃ r', r' ∈ rows out ∧
        at_ r' "Value" = to_numeric_cell parse_float (at_ r "Value") ∧
        (∀ t, at_ r "Value" = Str t → parse_float t = None → at_ r' "Value" = NA) ∧
        ("Year" ∈ columns d →
           at_ r' "Year" = to_numeric_cell parse_float (at_ r "Year") ∧
           ∀ t, at_ r "Year" = Str t → parse_float t = None → at_ r' "Year" = NA) ∧
        ∀ c, c ∈ columns d →
             c ∉ ["Country"; "Value"; "Year"; "processed_at";
                  "indicator_clean"; "connection_type"] →
             at_ r' c = at_ r c.
Proof.
  intros H Hco Hind.
  set (cols := add_column "processed_at" (columns d)).
  set (y := bool_decide ("Year" ∈ columns d)).
  (* the row of the deduplicated table that stands for [r] *)
  assert (Hkept : ∀ r, r ∈ rows d →
            ∃ r6, r6 ∈ keep_first (row_key cols) [] (clean_row parse_float now y <$> rows d) ∧
                  ∀ c, c ∈ columns d → at_ r6 c = at_ (clean_row parse_float now y r) c).
  { intros r Hr.
    destruct (keep_first_covers (row_key cols) []
                (clean_row parse_float now y <$> rows d) (clean_row parse_float now y r))
      as [Hnil|(r6 & Hr6 & Hkey)].
    - apply list_elem_of_fmap. eauto.
    - by apply elem_of_nil in Hnil.
    - exists r6. split; [done|]. intros c Hc.
      assert (Hc' : c ∈ cols) by (apply elem_of_add_column; by right).
      apply list_elem_of_lookup in Hc' as [i Hi].
      apply (f_equal (λ k, k !! i)) in Hkey.
      unfold row_key in Hkey. rewrite !list_lookup_fmap, Hi in Hkey.
      simpl in Hkey. congruence. }
  assert (Hrow : ∀ r r6,
            (∀ c, c ∈ columns d → at_ r6 c = at_ (clean_row parse_float now y r) c) →
            at_ r6 "Value" = to_numeric_cell parse_float (at_ r "Value") ∧
            (∀ t, at_ r "Value" = Str t → parse_float t = None → at_ r6 "Value" = NA) ∧
            ("Year" ∈ columns d →
               at_ r6 "Year" = to_numeric_cell parse_float (at_ r "Year") ∧
               ∀ t, at_ r "Year" = Str t → parse_float t = None → at_ r6 "Year" = NA) ∧
            ∀ c, c ∈ columns d →
                 c ∉ ["Country"; "Value"; "Year"; "processed_at";
                      "indicator_clean"; "connection_type"] →
                 at_ r6 c = at_ r c).
  { intros r r6 Heq.
    assert (Hv : at_ r6 "Value" = to_numeric_cell parse_float (at_ r "Value")).
    { rewrite Heq by apply Hco. apply clean_row_Value. }
    split; [done|]. split; [|split].
    - intros t Ht Hp. rewrite Hv, Ht. simpl. by rewrite Hp.
    - intros Hy.
      assert (Hyr : at_ r6 "Year" = to_numeric_cell parse_float (at_ r "Year")).
      { rewrite Heq by done. unfold y. rewrite bool_decide_eq_true_2 by done.
        apply clean_row_Year. }
      split; [done|]. intros t Ht Hp. rewrite Hyr, Ht. simpl. by rewrite Hp.
    - intros c Hc Hn. rewrite Heq by done. apply clean_row_other.
      intros Hx. apply Hn. sub_list Hx. }
  destruct (decide ("Indicator" ∈ columns d)) as [Hin|Hin].
  - destruct (Hind Hin) as [s Hs].
    pose proof (cleaned_text parse_float now d s Hco Hin Hs) as Hc.
    destruct (clean_data_cleaned parse_float now h l d _ H (proj1 Hco) Hc)
      as (l' & h' & Hrun & Hout).
    exists l', h'. eexists. split; [done|]. split; [done|]. simpl.
    intros r Hr. destruct (Hkept r Hr) as (r6 & Hr6 & Heq).
    exists (label_row s r6). split; [apply list_elem_of_fmap; eauto|].
    destruct (Hrow r r6 Heq) as (Hv & Hvn & Hy & Hother).
    rewrite !label_row_other by not_in_list.
    split; [done|]. split; [|split].
    + done.
    + intros Hyc. destruct (Hy Hyc) as [Hy1 Hy2]. split; [done|].
      intros t Ht Hp. eauto.
    + intros c Hcol Hn. rewrite label_row_other; [by apply Hother|].
      intros Hx. apply Hn. sub_list Hx.
  - pose proof (cleaned_without parse_float now d Hco Hin) as Hc.
    destruct (clean_data_cleaned parse_float now h l d _ H (proj1 Hco) Hc)
      as (l' & h' & Hrun & Hout).
    exists l', h'. eexists. split; [done|]. split; [done|]. simpl.
    intros r Hr. destruct (Hkept r Hr) as (r6 & Hr6 & Heq).
    exists r6. split; [done|]. by apply Hrow.
Qed.
End CleanerClaims.

(** *** The country-name table *)

Section CountryMapping.
Import Store Cleaner.

(** No name the table maps to is a key of the table. *)
Lemma country_mapping_range s v :
  assoc s country_mapping = Some v → assoc v country_mapping = None.
Proof.
  unfold country_mapping. cbn [assoc].
  repeat (case_decide; [intros [= <-]; reflexivity|]). discriminate.
Qed.

Lemma replace_cell_idempotent x :
  replace_cell country_mapping (replace_cell country_mapping x)
  = replace_cell country_mapping x.
Proof.
  destruct x as [|q|s]; [done|done|]. cbn [replace_cell].
  destruct (assoc s country_mapping) as [v|] eqn:Hs; cbn [replace_cell].
  - by rewrite (country_mapping_range _ _ Hs).
  - by rewrite Hs.
Qed.

Lemma map_column_idempotent c f d :
  (∀ x, f (f x) = f x) → map_column c f (map_column c f d) = map_column c f d.
Proof.
  intros Hf. unfold map_column. simpl. f_equal.
  rewrite <-list_fmap_compose. apply list_fmap_ext. intros i r _. simpl.
  by rewrite at_insert_eq, insert_insert_eq, Hf.
Qed.

(** C5.  Replacing the country names twice is replacing them once: on a
    cell, on a column, and as the statement of [clean_data] run twice on
    any store; no name the table maps to is itself mapped. *)
Theorem country_mapping_idempotent :
  (∀ col, replace country_mapping (replace country_mapping col)
          = replace country_mapping col) ∧
  (∀ l (h : heap),
      (assign l "Country" standardized_countries ≫= λ _,
       assign l "Country" standardized_countries) h
      = assign l "Country" standardized_countries h) ∧
  Forall (λ kv, assoc kv.2 country_mapping = None) country_mapping.
Proof.
  split; [|split].
  - intros col. unfold replace. rewrite <-list_fmap_compose.
    apply list_fmap_ext. intros i x _. apply replace_cell_idempotent.
  - intros l h. rewrite bind_run.
    destruct (h !! l) as [d|] eqn:H.
    + rewrite (assign_run _ _ _ _ _ H). unfold standardized_countries at 1 3.
      destruct (getitem d "Country") as [col|e] eqn:Hg; simpl; [|done].
      erewrite assign_run by apply lookup_insert_eq.
      apply getitem_Return in Hg as Hin. rewrite (getitem_elem _ _ Hin) in Hg.
      injection Hg as <-. unfold replace.
      rewrite setitem_map_column by done.
      unfold standardized_countries. rewrite getitem_elem by done. simpl.
      unfold replace. rewrite setitem_map_column by done.
      rewrite map_column_idempotent by apply replace_cell_idempotent.
      by rewrite insert_insert_eq.
    + unfold assign, deref. rewrite bind_run, H. done.
  - unfold country_mapping. repeat constructor.
Qed.
End CountryMapping.

(** *** The properties on the sample tables *)

Section CleanerExamples.
Import Store Cleaner Examples.

Local Ltac whole_years :=
  repeat (apply Forall_cons_2; [eapply castable_cast; vm_compute; reflexivity|]);
  apply Forall_nil_2.

(** C1 fails as stated: two observations of one country and year with
    different values are both kept. *)
Lemma same_country_year_kept :
  (clean_data Literal.decimal now (Some 1%positive) (store_of same_country_year)).1
    = Return (Some 3%positive) ∧
  (clean_data Literal.decimal now (Some 1%positive) (store_of same_country_year)).2
    !! 3%positive = Some same_country_year_cleaned ∧
  ¬ one_row_per_country_year same_country_year_cleaned.
Proof.
  split; [vm_compute; reflexivity|]. split; [vm_compute; reflexivity|].
  intros Hone.
  refine (_ (Hone 0%nat 1%nat _ _ eq_refl eq_refl _ _));
    [discriminate|vm_compute; reflexivity|vm_compute; reflexivity].
Qed.

Lemma clean_data_distinct_rows_witness :
  ∃ out, (clean_data Literal.decimal now (Some 1%positive)
            (store_of same_country_year)).2 !! 3%positive = Some out ∧
         distinct_rows out ∧
    (∀ r', r' ∈ rows out →
       ∃ r, r ∈ rows same_country_year ∧
         ∀ c, c ∈ columns same_country_year →
           at_ r' c
           = at_ (clean_row Literal.decimal now
                    (bool_decide ("Year" ∈ columns same_country_year)) r) c) ∧
    (∀ r, r ∈ rows same_country_year →
       ∃ r', r' ∈ rows out ∧
         ∀ c, c ∈ columns same_country_year →
           at_ r' c
           = at_ (clean_row Literal.decimal now
                    (bool_decide ("Year" ∈ columns same_country_year)) r) c) ∧
    (∀ r1 r2 c, r1 ∈ rows same_country_year → r2 ∈ rows same_country_year →
       c ∈ columns same_country_year →
       at_ (clean_row Literal.decimal now
              (bool_decide ("Year" ∈ columns same_country_year)) r1) c
       ≠ at_ (clean_row Literal.decimal now
                (bool_decide ("Year" ∈ columns same_country_year)) r2) c →
       ∃ i j r1' r2', i ≠ j ∧ rows out !! i = Some r1' ∧ rows out !! j = Some r2' ∧
         (∀ c', c' ∈ columns same_country_year →
            at_ r1' c'
            = at_ (clean_row Literal.decimal now
                     (bool_decide ("Year" ∈ columns same_country_year)) r1) c') ∧
         (∀ c', c' ∈ columns same_country_year →
            at_ r2' c'
            = at_ (clean_row Literal.decimal now
                     (bool_decide ("Year" ∈ columns same_country_year)) r2) c')).
Proof.
  apply (clean_data_distinct_rows Literal.decimal now
           (store_of same_country_year) 1%positive same_country_year).
  - reflexivity.
  - not_in_list.
  - not_in_list.
  - vm_compute. reflexivity.
Defined.

Lemma clean_data_input_unchanged_witness :
  (clean_data Literal.decimal now (Some 1%positive) (store_of households)).2 !! 1%positive
    = Some households ∧
  ∀ l', (clean_data Literal.decimal now (Some 1%positive) (store_of households)).1
          = Return (Some l') → l' ≠ 1%positive.
Proof.
  apply (clean_data_input_unchanged Literal.decimal now (Some 1%positive)
           (store_of households) 1%positive households).
  reflexivity.
Defined.

(** C2 fails as stated: on a table whose first row has no Indicator the
    derivation raises, and no row gets a connection type. *)
Lemma null_indicator_raises :
  Frame.empty null_indicator = false ∧ "Indicator" ∈ columns null_indicator ∧
  (clean_data Literal.decimal now (Some 1%positive) (store_of null_indicator)).1
    = Raise AttributeError.
Proof. split; [reflexivity|]. split; [in_list|]. vm_compute. reflexivity. Qed.

Lemma connection_type_of_text_witness :
  ∃ l' h' out,
    clean_data Literal.decimal now (Some 1%positive) (store_of households)
      = (Return (Some l'), h') ∧
    h' !! l' = Some out ∧ rows out ≠ [] ∧
    Forall (λ r, at_ r "connection_type"
                 = Str (label_of (lower "Households with Fixed-line or Mobile telephone")))
      (rows out) ∧
    label_of (lower "Households with Fixed-line or Mobile telephone")
      ∈ ["fixed-line"; "mobile"; "unknown"].
Proof.
  apply (connection_type_of_text Literal.decimal now (store_of households)
           1%positive households).
  - reflexivity.
  - split; [reflexivity|]. split; [in_list|]. split; [in_list|].
    intros _. whole_years.
  - in_list.
  - eexists. split; [reflexivity|]. vm_compute. reflexivity.
Defined.

(** C9 fails as stated: the first Indicator has both words in it, and
    a Year that reads a number but not a whole one makes [clean_data]
    raise at step 4, before step 7 labels a row. *)
Lemma half_year_unlabelled :
  first_indicator households_half_year "Households with Fixed-line or Mobile telephone" ∧
  contains "fixed" (lower "Households with Fixed-line or Mobile telephone") = true ∧
  contains "mobile" (lower "Households with Fixed-line or Mobile telephone") = true ∧
  (clean_data Literal.decimal now (Some 1%positive) (store_of households_half_year)).1
    = Raise TypeError ∧
  map_Forall (λ _ d, "connection_type" ∉ columns d)
    (clean_data Literal.decimal now (Some 1%positive) (store_of households_half_year)).2.
Proof.
  split; [eexists; split; [reflexivity|]; vm_compute; reflexivity|].
  split; [vm_compute; reflexivity|]. split; [vm_compute; reflexivity|].
  split; [vm_compute; reflexivity|].
  apply map_Forall_to_list, (bool_decide_unpack _). vm_compute. exact I.
Qed.

Lemma fixed_takes_precedence_witness :
  ∃ l' h' out,
    clean_data Literal.decimal now (Some 1%positive) (store_of households)
      = (Return (Some l'), h') ∧
    h' !! l' = Some out ∧
    "connection_type" ∈ columns out ∧ rows out ≠ [] ∧
    Forall (λ r, at_ r "connection_type" = Str "fixed-line") (rows out) ∧
    ∀ r, r ∈ rows households →
      ∃ r', r' ∈ rows out ∧ at_ r' "connection_type" = Str "fixed-line" ∧
        ∀ c, c ∈ columns households →
             c ∉ ["Country"; "Value"; "Year"; "processed_at";
                  "indicator_clean"; "connection_type"] →
             at_ r' c = at_ r c.
Proof.
  apply (fixed_takes_precedence Literal.decimal now (store_of households)
           1%positive households "Households with Fixed-line or Mobile telephone").
  - reflexivity.
  - split; [reflexivity|]. split; [in_list|]. split; [in_list|].
    intros _. whole_years.
  - in_list.
  - eexists. split; [reflexivity|]. vm_compute. reflexivity.
  - vm_compute. reflexivity.
  - vm_compute. reflexivity.
Defined.

(** C3 fails as stated: a Year that is a number but not a whole one makes
    the integer cast, and [clean_data] with it, raise. *)
Lemma fractional_year_raises :
  integer_years Literal.decimal fractional_year = Raise TypeError ∧
  (clean_data Literal.decimal now (Some 1%positive) (store_of fractional_year)).1
    = Raise TypeError.
Proof. split; vm_compute; reflexivity. Qed.

Lemma coercion_gives_nulls_witness :
  ∃ l' h' out,
    clean_data Literal.decimal now (Some 1%positive) (store_of households)
      = (Return (Some l'), h') ∧
    h' !! l' = Some out ∧
    ∀ r, r ∈ rows households →
      ∃ r', r' ∈ rows out ∧
        at_ r' "Value" = to_numeric_cell Literal.decimal (at_ r "Value") ∧
        (∀ t, at_ r "Value" = Str t → Literal.decimal t = None → at_ r' "Value" = NA) ∧
        ("Year" ∈ columns households →
           at_ r' "Year" = to_numeric_cell Literal.decimal (at_ r "Year") ∧
           ∀ t, at_ r "Year" = Str t → Literal.decimal t = None → at_ r' "Year" = NA) ∧
        ∀ c, c ∈ columns households →
             c ∉ ["Country"; "Value"; "Year"; "processed_at";
                  "indicator_clean"; "connection_type"] →
             at_ r' c = at_ r c.
Proof.
  apply (coercion_gives_nulls Literal.decimal now (store_of households)
           1%positive households).
  - reflexivity.
  - split; [reflexivity|]. split; [in_list|]. split; [in_list|].
    intros _. whole_years.
  - intros _. eexists. eexists. split; [reflexivity|]. vm_compute. reflexivity.
Defined.

(** The sample table cleaned: the names are standardized, the texts are
    numbers, and the row with the value "n/a" is there with a missing
    value. *)
Example households_are_cleaned :
  (clean_data Literal.decimal now (Some 1%positive) (store_of households)).1
    = Return (Some 3%positive) ∧
  (clean_data Literal.decimal now (Some 1%positive) (store_of households)).2
    !! 3%positive = Some households_cleaned.
Proof. split; vm_compute; reflexivity. Qed.
End CleanerExamples.

(** ** The Cleaner: what it returns *)

Section CleanerOutput.
Import Store Cleaner.
Variable parse_float : string → option Qc.

(** X2.  [clean_data] returns [None] exactly when it is given [None] or
    an empty table, and then the store is what it was. *)
Theorem clean_data_nothing_to_clean now df (h : heap) :
  ((clean_data parse_float now df h).1 = Return None ↔
     df = None ∨ ∃ l d, df = Some l ∧ h !! l = Some d ∧ Frame.empty d = true) ∧
  ((clean_data parse_float now df h).1 = Return None →
     (clean_data parse_float now df h).2 = h).
Proof.
  destruct df as [l|].
  2:{ split; [|done]. split; [by left|done]. }
  destruct (h !! l) as [d|] eqn:H.
  2:{ assert (clean_data parse_float now (Some l) h = (Raise DanglingReference, h)) as ->.
      { unfold clean_data, deref. by rewrite bind_run, H. }
      split; [|done]. split; [done|].
      intros [?|(l0 & d0 & [= <-] & ? & _)]; congruence. }
  destruct (Frame.empty d) eqn:Hne.
  - assert (clean_data parse_float now (Some l) h = (Return None, h)) as ->.
    { unfold clean_data. by rewrite bind_run, (deref_run _ _ _ H), Hne. }
    split; [|done]. split; [|done]. intros _. right. eauto.
  - destruct (clean_data_frames parse_float now h l d H Hne) as (h' & _ & Hm).
    assert (Hno : (clean_data parse_float now (Some l) h).1 ≠ Return None).
    { destruct (cleaned parse_float now d) as [out|e].
      - destruct Hm as (l' & _ & _ & ->). done.
      - rewrite Hm. done. }
    split; [|done]. split; [done|].
    intros [?|(l0 & d0 & [= <-] & ? & ?)]; congruence.
Qed.

(** X3.  On a table that is not empty and lacks one of the columns
    Country and Value, [clean_data] raises [KeyError] for the first of
    them that is missing: Country at step 1, Value at step 3. *)
Theorem clean_data_missing_column now (h : heap) l d c others :
  h !! l = Some d → Frame.empty d = false →
  List.filter (λ c, bool_decide (c ∉ columns d)) ["Country"; "Value"] = c :: others →
  (clean_data parse_float now (Some l) h).1 = Raise (KeyError c).
Proof.
  intros H Hne Hmissing.
  destruct (clean_data_frames parse_float now h l d H Hne) as (h' & _ & Hm).
  assert (cleaned parse_float now d = Raise (KeyError c)) as Hr.
  { cbn [List.filter] in Hmissing.
    destruct (decide ("Country" ∈ columns d)) as [Hc|Hc].
    - rewrite (bool_decide_eq_false_2 ("Country" ∉ columns d)) in Hmissing by tauto.
      destruct (decide ("Value" ∈ columns d)) as [Hv|Hv].
      { by rewrite (bool_decide_eq_false_2 ("Value" ∉ columns d)) in Hmissing by tauto. }
      rewrite (bool_decide_eq_true_2 ("Value" ∉ columns d)) in Hmissing by done.
      injection Hmissing as <- <-.
      unfold cleaned, deduplicated.
      unfold filled_countries, fillna. rewrite (assigned_map_column _ _ _ Hc), bind_Return.
      unfold standardized_countries, replace.
      rewrite (assigned_map_column _ _ (map_column _ _ d) Hc), bind_Return.
      unfold assigned, numeric_values, getitem. cbn [columns map_column].
      by rewrite decide_False.
    - rewrite (bool_decide_eq_true_2 ("Country" ∉ columns d)) in Hmissing by done.
      injection Hmissing as <- _.
      unfold cleaned, deduplicated, assigned, filled_countries, getitem.
      by rewrite decide_False. }
  rewrite Hr in Hm. by rewrite Hm.
Qed.

(** X4.  In the table [clean_data] returns no Country is missing and none
    is a name the country table maps: the missing ones read "Unknown", the
    variations read the standard name. *)
Theorem clean_data_standard_countries now (h : heap) l d l' h' :
  h !! l = Some d →
  clean_data parse_float now (Some l) h = (Return (Some l'), h') →
  ∃ out, h' !! l' = Some out ∧
    Forall (λ r, at_ r "Country" ≠ NA ∧
                 ∀ s, at_ r "Country" = Str s → assoc s country_mapping = None)
      (rows out).
Proof.
  intros H Hrun.
  destruct (clean_data_output parse_float now h l d l' h' H Hrun)
    as (Hco & out & lab & Hout & Hrows & Hlab).
  exists out. split; [done|]. rewrite Hrows.
  apply Forall_fmap, Forall_forall. intros r [Hr _]%keep_first_fresh.
  apply list_elem_of_fmap in Hr as (r0 & -> & _). simpl.
  assert (at_ (lab (clean_row parse_float now (bool_decide ("Year" ∈ columns d)) r0))
            "Country"
          = replace_cell country_mapping (fillna_cell (Str "Unknown") (at_ r0 "Country")))
    as ->.
  { assert (at_ (clean_row parse_float now (bool_decide ("Year" ∈ columns d)) r0) "Country"
            = replace_cell country_mapping (fillna_cell (Str "Unknown") (at_ r0 "Country")))
      as Hcl.
    { unfold clean_row. rewrite at_insert_ne by done.
      destruct (bool_decide _); rewrite ?at_insert_ne by done;
        by rewrite at_insert_eq. }
    destruct Hlab as [(s & _ & _ & -> & _)|(-> & _ & _)]; [|done].
    rewrite label_row_other; [done|]. not_in_list. }
  destruct (at_ r0 "Country") as [|q|s]; cbn [fillna_cell replace_cell].
  - split; [done|]. intros s [= <-]. reflexivity.
  - split; [done|]. done.
  - destruct (assoc s country_mapping) as [v|] eqn:Hs.
    + split; [done|]. intros s' [= <-]. by eapply country_mapping_range.
    + split; [done|]. intros s' [= <-]. done.
Qed.

(** X5.  In the table [clean_data] returns every Value is a number or
    missing, never a text, and every Year, when there is a Year column, is
    missing or a whole number of the [int64] range. *)
Theorem clean_data_numeric_columns now (h : heap) l d l' h' :
  h !! l = Some d →
  clean_data parse_float now (Some l) h = (Return (Some l'), h') →
  ∃ out, h' !! l' = Some out ∧
    Forall (λ r, (at_ r "Value" = NA ∨ ∃ q, at_ r "Value" = Num q) ∧
                 ("Year" ∈ columns d →
                    at_ r "Year" = NA ∨
                    ∃ q z, at_ r "Year" = Num q ∧ as_integer q = Some z ∧
                           int64_range z = true))
      (rows out).
Proof.
  intros H Hrun.
  destruct (clean_data_output parse_float now h l d l' h' H Hrun)
    as (Hco & out & lab & Hout & Hrows & Hlab).
  exists out. split; [done|]. rewrite Hrows.
  apply Forall_fmap, Forall_forall. intros r [Hr _]%keep_first_fresh.
  apply list_elem_of_fmap in Hr as (r0 & -> & Hr0). simpl.
  assert (Hother : ∀ r c, c ∉ ["indicator_clean"; "connection_type"] →
                          at_ (lab r) c = at_ r c).
  { intros r c Hc. destruct Hlab as [(s & _ & _ & -> & _)|(-> & _ & _)]; [|done].
    by apply label_row_other. }
  rewrite !Hother by not_in_list. split.
  - rewrite clean_row_Value. destruct (at_ r0 "Value") as [|q|s]; simpl; eauto.
    destruct (parse_float s); eauto.
  - intros Hy. rewrite bool_decide_eq_true_2 by done. rewrite clean_row_Year.
    destruct Hco as (_ & _ & _ & Hcast). specialize (Hcast Hy).
    rewrite Forall_forall in Hcast. specialize (Hcast r0 Hr0).
    unfold castable in Hcast.
    destruct (to_numeric_cell parse_float (at_ r0 "Year")) as [|q|s]; [by left| |done].
    right. destruct Hcast as (z & Hz & Hrange). eauto.
Qed.
End CleanerOutput.

Section KeepFirstMore.
Context {A K : Type} `{EqDecision K}.

Lemma keep_first_sublist (key : A → K) seen l : keep_first key seen l `sublist_of` l.
Proof.
  revert seen. induction l as [|x l IH]; intros seen; cbn [keep_first]; [constructor|].
  destruct (decide (key x ∈ seen)); [apply sublist_cons|apply sublist_skip]; apply IH.
Qed.

Lemma keep_first_fmap {B} (key : B → K) (f : A → B) seen l :
  keep_first key seen (f <$> l) = f <$> keep_first (key ∘ f) seen l.
Proof.
  revert seen. induction l as [|x l IH]; intros seen; [done|].
  rewrite fmap_cons. cbn [keep_first]. unfold compose at 1 3.
  destruct (decide (key (f x) ∈ seen)); [apply IH|].
  rewrite fmap_cons. f_equal. apply IH.
Qed.

(** A list with distinct keys, none of them seen, is kept whole. *)
Lemma keep_first_id (key : A → K) seen l :
  NoDup (key <$> l) → (∀ x, x ∈ l → key x ∉ seen) → keep_first key seen l = l.
Proof.
  revert seen. induction l as [|x l IH]; intros seen Hnd Hseen; [done|].
  rewrite fmap_cons in Hnd. apply NoDup_cons in Hnd as [Hx Hnd].
  cbn [keep_first]. rewrite decide_False by (apply Hseen; by left).
  f_equal. apply IH; [done|]. intros z Hz [Heq|Hin]%elem_of_cons.
  - apply Hx. rewrite <-Heq. apply list_elem_of_fmap. eauto.
  - apply (Hseen z); [by right|done].
Qed.

(** Two keys that tell the same items apart keep the same items. *)
Lemma keep_first_ext {K'} `{EqDecision K'} (k1 : A → K) (k2 : A → K') l :
  ∀ seen1 seen2,
    (∀ x, x ∈ l → k1 x ∈ seen1 ↔ k2 x ∈ seen2) →
    (∀ x y, x ∈ l → y ∈ l → k1 x = k1 y ↔ k2 x = k2 y) →
    keep_first k1 seen1 l = keep_first k2 seen2 l.
Proof.
  induction l as [|x l IH]; intros seen1 seen2 Hseen Hkeys; [done|].
  cbn [keep_first].
  assert (Hl : ∀ a b, a ∈ l → b ∈ l → k1 a = k1 b ↔ k2 a = k2 b).
  { intros a b Ha Hb. apply Hkeys; by right. }
  destruct (decide (k1 x ∈ seen1)) as [H1|H1], (decide (k2 x ∈ seen2)) as [H2|H2].
  - apply IH; [|done]. intros z Hz. apply Hseen. by right.
  - exfalso. apply H2, Hseen; [by left|done].
  - exfalso. apply H1, Hseen; [by left|done].
  - f_equal. apply IH; [|done]. intros z Hz. rewrite !elem_of_cons.
    rewrite (Hkeys z x) by (by left || by right).
    rewrite (Hseen z) by (by right). done.
Qed.
End KeepFirstMore.

Lemma row_key_eq cols (a b : gmap string cell) :
  row_key cols a = row_key cols b ↔ ∀ c, c ∈ cols → at_ a c = at_ b c.
Proof.
  unfold row_key. split.
  - intros Heq c [i Hi]%list_elem_of_lookup.
    apply (f_equal (λ k, k !! i)) in Heq. rewrite !list_lookup_fmap, Hi in Heq.
    simpl in Heq. congruence.
  - intros Heq. apply list_fmap_ext. intros i c Hc. apply Heq.
    by eapply list_elem_of_lookup_2.
Qed.

Section CleanerRows.
Import Store Cleaner.
Variable parse_float : string → option Qc.

(** X6.  The columns of the table [clean_data] returns are those of the
    input, in their order, then [processed_at] and, for a table with an
    Indicator column, [indicator_clean] and [connection_type], each added
    at the end unless the input has it already.  Every row carries the
    time of the call, and the Indicator of the first input row as its
    [indicator_clean], whatever its own Indicator is. *)
Theorem clean_data_derived_columns now (h : heap) l d l' h' :
  h !! l = Some d →
  clean_data parse_float now (Some l) h = (Return (Some l'), h') →
  ∃ out, h' !! l' = Some out ∧
    columns out
    = (if decide ("Indicator" ∈ columns d)
       then add_column "connection_type"
              (add_column "indicator_clean" (add_column "processed_at" (columns d)))
       else add_column "processed_at" (columns d)) ∧
    Forall (λ r, at_ r "processed_at" = Str now) (rows out) ∧
    ("Indicator" ∈ columns d →
       ∃ s, first_indicator d s ∧
            Forall (λ r, at_ r "indicator_clean" = Str s) (rows out)).
Proof.
  intros H Hrun.
  destruct (clean_data_output parse_float now h l d l' h' H Hrun)
    as (Hco & out & lab & Hout & Hrows & Hlab).
  exists out. split; [done|].
  assert (Hpa : ∀ y r, at_ (clean_row parse_float now y r) "processed_at" = Str now).
  { intros y r. unfold clean_row. by rewrite at_insert_eq. }
  destruct Hlab as [(s & Hin & Hs & -> & Hcols)|(-> & Hin & Hcols)].
  - rewrite decide_True by done. split; [done|]. rewrite Hrows. split.
    + apply Forall_fmap, Forall_forall. intros r [Hr _]%keep_first_fresh.
      apply list_elem_of_fmap in Hr as (r0 & -> & _). simpl.
      rewrite label_row_other by not_in_list. apply Hpa.
    + intros _. exists s. split; [done|].
      apply Forall_fmap, Forall_forall. intros r _. simpl.
      unfold label_row. rewrite at_insert_ne by done. by rewrite at_insert_eq.
  - rewrite decide_False by done. split; [done|]. rewrite Hrows. split; [|done].
    apply Forall_fmap, Forall_forall. intros r [Hr _]%keep_first_fresh.
    apply list_elem_of_fmap in Hr as (r0 & -> & _). simpl. apply Hpa.
Qed.

(** X7.  The rows [clean_data] returns stand for rows of the input, in
    the order of the input and beginning with its first row: the later
    duplicates are dropped, no row is added or moved.  A returned row has
    the cells of the row it stands for in every column the steps do not
    write. *)
Theorem clean_data_keeps_first_rows now (h : heap) l d l' h' :
  h !! l = Some d →
  clean_data parse_float now (Some l) h = (Return (Some l'), h') →
  ∃ out kept, h' !! l' = Some out ∧
    kept `sublist_of` rows d ∧ head kept = head (rows d) ∧
    (0 < length (rows out) ≤ length (rows d))%nat ∧
    Forall2 (λ r r', ∀ c, c ∉ ["Country"; "Value"; "Year"; "processed_at";
                                "indicator_clean"; "connection_type"] →
                          at_ r' c = at_ r c)
      kept (rows out).
Proof.
  intros H Hrun.
  destruct (clean_data_output parse_float now h l d l' h' H Hrun)
    as (Hco & out & lab & Hout & Hrows & Hlab).
  set (cols := add_column "processed_at" (columns d)) in *.
  set (y := bool_decide ("Year" ∈ columns d)) in *.
  rewrite keep_first_fmap in Hrows.
  set (kept := keep_first (row_key cols ∘ clean_row parse_float now y) [] (rows d)) in *.
  exists out, kept. split; [done|].
  assert (Hsub : kept `sublist_of` rows d) by apply keep_first_sublist.
  assert (Hhead : head kept = head (rows d)).
  { unfold kept. destruct (rows d) as [|r rs]; [done|]. by rewrite keep_first_head. }
  assert (Hne : rows d ≠ []).
  { destruct Hco as (Hne & _). unfold Frame.empty in Hne.
    apply orb_false_elim in Hne as [_ Hne]. by apply bool_decide_eq_false in Hne. }
  split; [done|]. split; [done|]. split.
  - rewrite Hrows, !length_fmap. split; [|by apply sublist_length].
    apply head_is_Some in Hne. rewrite <-Hhead in Hne.
    destruct kept; [by destruct Hne|simpl; lia].
  - rewrite Hrows, <-list_fmap_compose. apply Forall2_fmap_r, Forall_Forall2_diag.
    apply Forall_forall. intros r _ c Hc. simpl.
    assert (at_ (lab (clean_row parse_float now y r)) c
            = at_ (clean_row parse_float now y r) c) as ->.
    { destruct Hlab as [(s & _ & _ & -> & _)|(-> & _ & _)]; [|done].
      apply label_row_other. intros Hx. apply Hc. sub_list Hx. }
    apply clean_row_other. intros Hx. apply Hc. sub_list Hx.
Qed.
End CleanerRows.

Section CleanerTwice.
Import Store Cleaner.
Variable parse_float : string → option Qc.

Lemma to_numeric_cell_idempotent x :
  to_numeric_cell parse_float (to_numeric_cell parse_float x)
  = to_numeric_cell parse_float x.
Proof. destruct x as [|q|s]; simpl; [done|done|]. by destruct (parse_float s). Qed.

Lemma standard_country_idempotent x :
  replace_cell country_mapping
    (fillna_cell (Str "Unknown")
       (replace_cell country_mapping (fillna_cell (Str "Unknown") x)))
  = replace_cell country_mapping (fillna_cell (Str "Unknown") x).
Proof.
  assert (Hfill : ∀ c, replace_cell country_mapping (fillna_cell (Str "Unknown") x) = c →
                       fillna_cell (Str "Unknown") c = c).
  { intros c <-. destruct x as [|q|s]; cbn [fillna_cell replace_cell]; [done|done|].
    by destruct (assoc s country_mapping). }
  rewrite (Hfill _ eq_refl). apply replace_cell_idempotent.
Qed.

Lemma clean_row_Country now y r :
  at_ (clean_row parse_float now y r) "Country"
  = replace_cell country_mapping (fillna_cell (Str "Unknown") (at_ r "Country")).
Proof.
  unfold clean_row. rewrite at_insert_ne by done.
  destruct y; rewrite ?at_insert_ne by done; by rewrite at_insert_eq.
Qed.

Lemma clean_row_processed_at now y r :
  at_ (clean_row parse_float now y r) "processed_at" = Str now.
Proof. unfold clean_row. by rewrite at_insert_eq. Qed.

Lemma clean_row_Year_kept now r :
  at_ (clean_row parse_float now false r) "Year" = at_ r "Year".
Proof. unfold clean_row. by rewrite !at_insert_ne. Qed.

(** The cells of a cleaned row but for the time do not depend on the
    time. *)
Lemma clean_row_time now now' y r c :
  c ≠ "processed_at" →
  at_ (clean_row parse_float now y r) c = at_ (clean_row parse_float now' y r) c.
Proof.
  intros Hc. unfold clean_row. rewrite !(at_insert_ne _ "processed_at") by done. done.
Qed.

(** Cleaning a cleaned row again leaves its cells, but for the time. *)
Lemma clean_row_again now now' y r c :
  c ≠ "processed_at" →
  at_ (clean_row parse_float now' y (clean_row parse_float now y r)) c
  = at_ (clean_row parse_float now y r) c.
Proof.
  intros Hc.
  destruct (decide (c = "Country")) as [->|HC].
  { rewrite !clean_row_Country. apply standard_country_idempotent. }
  destruct (decide (c = "Value")) as [->|HV].
  { rewrite !clean_row_Value. apply to_numeric_cell_idempotent. }
  destruct (decide (c = "Year")) as [->|HY].
  { destruct y.
    - rewrite !clean_row_Year. apply to_numeric_cell_idempotent.
    - by rewrite !clean_row_Year_kept. }
  rewrite (clean_row_other _ now'); [done|].
  intros Hx. repeat (apply elem_of_cons in Hx as [->|Hx]; [done|]).
  by apply elem_of_nil in Hx.
Qed.

Lemma at_ext (a b : gmap string cell) :
  (∀ c, is_Some (a !! c) ↔ is_Some (b !! c)) → (∀ c, at_ a c = at_ b c) → a = b.
Proof.
  intros Hdom Hat. apply map_eq. intros c. specialize (Hat c). unfold at_ in Hat.
  specialize (Hdom c).
  destruct (a !! c) as [x|] eqn:Ha, (b !! c) as [z|] eqn:Hb; simpl in Hat.
  - by subst.
  - destruct Hdom as [Hdom _]. by destruct Hdom.
  - destruct Hdom as [_ Hdom]. by destruct Hdom.
  - done.
Qed.

Lemma clean_row_is_Some now y r c :
  is_Some (clean_row parse_float now y r !! c) ↔
  "processed_at" = c ∨ (y = true ∧ "Year" = c) ∨ "Value" = c ∨ "Country" = c ∨
  is_Some (r !! c).
Proof.
  unfold clean_row. destruct y; rewrite !lookup_insert_is_Some'; intuition congruence.
Qed.

Lemma label_row_is_Some s r c :
  is_Some (label_row s r !! c) ↔
  "connection_type" = c ∨ "indicator_clean" = c ∨ is_Some (r !! c).
Proof. unfold label_row. by rewrite !lookup_insert_is_Some'. Qed.

(** A row cleaned and labelled twice is the row cleaned and labelled at
    the second time. *)
Lemma clean_row_twice now now' y r :
  clean_row parse_float now' y (clean_row parse_float now y r)
  = clean_row parse_float now' y r.
Proof.
  apply at_ext.
  - intros c. rewrite !clean_row_is_Some. tauto.
  - intros c. destruct (decide (c = "processed_at")) as [->|Hc].
    + by rewrite !clean_row_processed_at.
    + rewrite clean_row_again by done. by apply clean_row_time.
Qed.

Lemma label_row_at s r c :
  at_ (label_row s r) c
  = if decide (c = "connection_type") then Str (label_of (lower s))
    else if decide (c = "indicator_clean") then Str s else at_ r c.
Proof.
  unfold label_row. destruct (decide (c = "connection_type")) as [->|H1].
  { by rewrite at_insert_eq. }
  rewrite at_insert_ne by done.
  destruct (decide (c = "indicator_clean")) as [->|H2].
  { by rewrite at_insert_eq. }
  by rewrite at_insert_ne.
Qed.

Lemma clean_label_twice s now now' y r :
  label_row s (clean_row parse_float now' y (label_row s (clean_row parse_float now y r)))
  = label_row s (clean_row parse_float now' y r).
Proof.
  apply at_ext.
  - intros c.
    rewrite !label_row_is_Some, !clean_row_is_Some, !label_row_is_Some, !clean_row_is_Some.
    tauto.
  - intros c. rewrite !label_row_at.
    destruct (decide (c = "connection_type")) as [->|H1]; [done|].
    destruct (decide (c = "indicator_clean")) as [->|H2]; [done|].
    destruct (decide (c = "processed_at")) as [->|Hc].
    { by rewrite !clean_row_processed_at. }
    rewrite <-(clean_row_twice now now' y r).
    destruct (decide (c = "Country")) as [->|HC].
    { rewrite !(clean_row_Country now'). by rewrite label_row_at. }
    destruct (decide (c = "Value")) as [->|HV].
    { rewrite !(clean_row_Value _ now'). by rewrite label_row_at. }
    destruct (decide (c = "Year")) as [->|HY].
    { destruct y.
      - rewrite !(clean_row_Year _ now'). by rewrite label_row_at.
      - rewrite !(clean_row_Year_kept now'). by rewrite label_row_at. }
    assert (Hother : c ∉ ["Country"; "Value"; "Year"; "processed_at"]).
    { intros Hx. repeat (apply elem_of_cons in Hx as [->|Hx]; [done|]).
      by apply elem_of_nil in Hx. }
    rewrite !(clean_row_other _ now') by done. rewrite label_row_at.
    by rewrite decide_False, decide_False.
Qed.
End CleanerTwice.

Section CleanerAgain.
Import Store Cleaner.
Variable parse_float : string → option Qc.

Lemma NoDup_fmap_keys {A K1 K2} (k1 : A → K1) (k2 : A → K2) l :
  NoDup (k1 <$> l) →
  (∀ x y, x ∈ l → y ∈ l → k2 x = k2 y → k1 x = k1 y) →
  NoDup (k2 <$> l).
Proof.
  induction l as [|x l IH]; intros Hnd Hk; [constructor|].
  rewrite fmap_cons in *. apply NoDup_cons in Hnd as [Hx Hnd].
  constructor.
  - intros (z & Hz & Hin)%list_elem_of_fmap. apply Hx.
    apply list_elem_of_fmap. exists z. split; [|done].
    apply Hk; [by left|by right|done].
  - apply IH; [done|]. intros a b Ha Hb. apply Hk; by right.
Qed.

(** The cell of a cleaned row in a column other than the time depends on
    the cell of the row in that column alone. *)
Lemma clean_row_cell now now' y a b c :
  c ≠ "processed_at" → at_ a c = at_ b c →
  at_ (clean_row parse_float now y a) c = at_ (clean_row parse_float now' y b) c.
Proof.
  intros Hc Hab.
  destruct (decide (c = "Country")) as [->|HC].
  { by rewrite !clean_row_Country, Hab. }
  destruct (decide (c = "Value")) as [->|HV].
  { by rewrite !clean_row_Value, Hab. }
  destruct (decide (c = "Year")) as [->|HY].
  { destruct y; [by rewrite !clean_row_Year, Hab|by rewrite !clean_row_Year_kept]. }
  assert (Hother : c ∉ ["Country"; "Value"; "Year"; "processed_at"]).
  { intros Hx. repeat (apply elem_of_cons in Hx as [->|Hx]; [done|]).
    by apply elem_of_nil in Hx. }
  by rewrite !clean_row_other.
Qed.

(** The rows of a table cleaned a second time. *)
Lemma rows_cleaned_again (lab : gmap string cell → gmap string cell)
    cols cols1 now now' y (rs : list (gmap string cell)) :
  (∀ c, c ∈ cols → c ∈ cols1) →
  "indicator_clean" ∉ cols → "connection_type" ∉ cols →
  (∀ r c, c ∉ ["indicator_clean"; "connection_type"] → at_ (lab r) c = at_ r c) →
  (∀ r, lab (clean_row parse_float now' y (lab (clean_row parse_float now y r)))
        = lab (clean_row parse_float now' y r)) →
  lab <$> keep_first (row_key cols1) []
            (clean_row parse_float now' y <$>
               (lab <$> keep_first (row_key cols) [] (clean_row parse_float now y <$> rs)))
  = lab <$> keep_first (row_key cols) [] (clean_row parse_float now' y <$> rs).
Proof.
  intros Hsub Hic Hct Hlab Hrow.
  set (cl := clean_row parse_float now y).
  set (cl' := clean_row parse_float now' y).
  rewrite !(keep_first_fmap (row_key cols)).
  set (S := keep_first (row_key cols ∘ cl) [] rs).
  assert (HS : keep_first (row_key cols ∘ cl') [] rs = S).
  { unfold S. apply keep_first_ext; [intros x _; by rewrite !elem_of_nil|].
    intros a b _ _. unfold compose. rewrite !row_key_eq.
    split; intros Heq c Hc; specialize (Heq c Hc); unfold cl, cl' in *;
      (destruct (decide (c = "processed_at")) as [->|Hpa];
       [by rewrite !clean_row_processed_at|]).
    - pose proof (clean_row_time parse_float now now' y a c Hpa).
      pose proof (clean_row_time parse_float now now' y b c Hpa). congruence.
    - pose proof (clean_row_time parse_float now now' y a c Hpa).
      pose proof (clean_row_time parse_float now now' y b c Hpa). congruence. }
  rewrite HS.
  rewrite <-!list_fmap_compose.
  rewrite (keep_first_fmap (row_key cols1)).
  assert (Hnd : NoDup ((row_key cols ∘ cl) <$> S)).
  { unfold S. rewrite list_fmap_compose, <-keep_first_fmap. apply keep_first_NoDup. }
  rewrite keep_first_id.
  - rewrite <-list_fmap_compose. apply list_fmap_ext. intros i r _. apply Hrow.
  - eapply NoDup_fmap_keys; [exact Hnd|].
    intros a b _ _. unfold compose. rewrite !row_key_eq. intros Heq c Hc.
    destruct (decide (c = "processed_at")) as [->|Hpa].
    { unfold cl. by rewrite !clean_row_processed_at. }
    specialize (Heq c (Hsub c Hc)).
    assert (Hg : ∀ r, at_ (cl' (lab (cl r))) c = at_ (cl r) c).
    { intros r. unfold cl'.
      rewrite (clean_row_cell now' now' y (lab (cl r)) (cl r) c Hpa).
      - unfold cl. by apply clean_row_again.
      - apply Hlab. intros Hx.
        repeat (apply elem_of_cons in Hx as [->|Hx]; [done|]).
        by apply elem_of_nil in Hx. }
    by rewrite !Hg in Heq.
  - intros x _ Hx. by apply elem_of_nil in Hx.
Qed.
End CleanerAgain.

Section CleanerIdempotent.
Import Store Cleaner.
Variable parse_float : string → option Qc.

Lemma castable_to_numeric x :
  castable parse_float x → castable parse_float (to_numeric_cell parse_float x).
Proof. unfold castable. by rewrite to_numeric_cell_idempotent. Qed.

(** A raw table cleaned at one time and cleaned again at another is the
    table cleaned at the other time. *)
Lemma cleaned_again now now' d out1 :
  Frame.empty d = false →
  "indicator_clean" ∉ columns d → "connection_type" ∉ columns d →
  cleaned parse_float now d = Return out1 →
  Frame.empty out1 = false ∧
  cleaned parse_float now' out1 = cleaned parse_float now' d ∧
  ∃ out, cleaned parse_float now' d = Return out ∧
         length (rows out) = length (rows out1).
Proof.
  intros Hne Hic Hct Hc.
  destruct (cleaned_Return parse_float now d out1 Hne Hc) as [Hco Hind].
  pose proof Hco as (_ & HC & HV & HY).
  set (cols := add_column "processed_at" (columns d)).
  set (y := bool_decide ("Year" ∈ columns d)).
  assert (Hrows : rows d ≠ []).
  { unfold Frame.empty in Hne. apply orb_false_elim in Hne as [_ Hne].
    by apply bool_decide_eq_false in Hne. }
  assert (Hcols_in : ∀ c, c ∈ columns d → c ∈ cols).
  { intros c Hc'. apply elem_of_add_column. by right. }
  assert (Hicc : "indicator_clean" ∉ cols).
  { unfold cols. rewrite elem_of_add_column. intros [?|?]; done. }
  assert (Hctc : "connection_type" ∉ cols).
  { unfold cols. rewrite elem_of_add_column. intros [?|?]; done. }
  (* what is needed of the table cleaned once, whatever the labels *)
  assert (Hagain : ∀ (lab : gmap string cell → gmap string cell) cols1,
    (∀ r c, c ∉ ["indicator_clean"; "connection_type"] → at_ (lab r) c = at_ r c) →
    (∀ c, c ∈ cols → c ∈ cols1) →
    ("Year" ∈ cols1 → "Year" ∈ columns d) →
    out1 = {| columns := cols1;
              rows := lab <$> keep_first (row_key cols) []
                                (clean_row parse_float now y <$> rows d) |} →
    coercible parse_float out1 ∧
    bool_decide ("Year" ∈ columns out1) = y ∧
    add_column "processed_at" (columns out1) = cols1 ∧
    ∀ s, first_indicator d s → first_indicator out1 s).
  { intros lab cols1 Hlab Hsub Hyear ->. cbn [columns rows].
    assert (Hpa : "processed_at" ∈ cols1).
    { apply Hsub. apply elem_of_add_column. by left. }
    split; [|split; [|split]].
    - split; [|split; [|split]].
      + unfold Frame.empty. cbn [columns rows].
        rewrite bool_decide_eq_false_2.
        2:{ intros E. rewrite E in Hpa. by apply elem_of_nil in Hpa. }
        rewrite bool_decide_eq_false_2; [done|].
        destruct (rows d) as [|r rs]; [done|].
        by rewrite fmap_cons, keep_first_head.
      + cbn [columns]. auto.
      + cbn [columns]. auto.
      + cbn [columns rows]. intros Hy1. specialize (HY (Hyear Hy1)).
        apply Forall_fmap, Forall_forall. intros r [Hr _]%keep_first_fresh.
        apply list_elem_of_fmap in Hr as (r0 & -> & Hr0). simpl.
        rewrite Hlab by not_in_list. unfold y.
        rewrite bool_decide_eq_true_2 by auto. rewrite clean_row_Year.
        apply castable_to_numeric. rewrite Forall_forall in HY. by apply HY.
    - unfold y. apply bool_decide_ext. split; [done|]. intros ?. auto.
    - by apply add_column_elem.
    - intros s (r & Hr & Hs). destruct (rows d) as [|r0 rs]; [done|].
      simpl in Hr. injection Hr as ->. unfold first_indicator. cbn [rows].
      rewrite fmap_cons, keep_first_head, fmap_cons. eexists. split; [reflexivity|].
      rewrite Hlab by not_in_list. rewrite clean_row_other; [done|]. not_in_list. }
  assert (Hlen : ∀ (lab : gmap string cell → gmap string cell) t,
            length (lab <$> keep_first (row_key cols) [] (clean_row parse_float t y <$> rows d))
            = length (keep_first (row_key cols ∘ clean_row parse_float now y) [] (rows d))).
  { intros lab t. rewrite keep_first_fmap, !length_fmap. f_equal.
    apply keep_first_ext; [intros x _; by rewrite !elem_of_nil|].
    intros a b _ _. unfold compose. rewrite !row_key_eq.
    split; intros Heq c Hc'; specialize (Heq c Hc');
      (destruct (decide (c = "processed_at")) as [->|Hpa];
       [by rewrite !clean_row_processed_at|]);
      pose proof (clean_row_time parse_float now t y a c Hpa);
      pose proof (clean_row_time parse_float now t y b c Hpa); congruence. }
  destruct (decide ("Indicator" ∈ columns d)) as [Hin|Hin].
  - destruct (Hind Hin) as [s Hs].
    rewrite (cleaned_text parse_float now d s Hco Hin Hs) in Hc. injection Hc as Hout.
    symmetry in Hout. fold cols y in Hout.
    set (cols1 := add_column "connection_type" (add_column "indicator_clean" cols)) in *.
    assert (Hsub : ∀ c, c ∈ cols → c ∈ cols1).
    { intros c Hc'. unfold cols1. rewrite !elem_of_add_column. auto. }
    destruct (Hagain (label_row s) cols1) as (Hco1 & Hy1 & Hpa1 & Hfirst); [| | |done|].
    { intros r c Hc'. by apply label_row_other. }
    { done. }
    { unfold cols1, cols. rewrite !elem_of_add_column. intros [?|[?|[?|?]]]; done. }
    assert (Hin1 : "Indicator" ∈ columns out1).
    { rewrite Hout. cbn [columns]. auto. }
    split; [apply Hco1|].
    rewrite (cleaned_text parse_float now' out1 s Hco1 Hin1 (Hfirst s Hs)).
    rewrite (cleaned_text parse_float now' d s Hco Hin Hs).
    rewrite Hy1, Hpa1. fold cols y.
    assert (Hc1 : add_column "connection_type" (add_column "indicator_clean" cols1) = cols1).
    { rewrite (add_column_elem "indicator_clean").
      - apply add_column_elem. unfold cols1. rewrite elem_of_add_column. by left.
      - unfold cols1. rewrite !elem_of_add_column. auto. }
    rewrite Hc1. fold cols1. split.
    + do 2 f_equal. rewrite Hout. cbn [rows].
      apply rows_cleaned_again; [done|done|done| |].
      * intros r c Hc'. by apply label_row_other.
      * intros r. apply clean_label_twice.
    + eexists. split; [reflexivity|]. rewrite Hout. cbn [rows]. by rewrite !Hlen.
  - rewrite (cleaned_without parse_float now d Hco Hin) in Hc. injection Hc as Hout.
    symmetry in Hout. fold cols y in Hout.
    destruct (Hagain id cols) as (Hco1 & Hy1 & Hpa1 & Hfirst); [done|done| | |].
    { unfold cols. rewrite elem_of_add_column. intros [?|?]; done. }
    { by rewrite list_fmap_id. }
    assert (Hin1 : "Indicator" ∉ columns out1).
    { rewrite Hout. cbn [columns]. unfold cols. rewrite elem_of_add_column.
      intros [?|?]; done. }
    split; [apply Hco1|].
    rewrite (cleaned_without parse_float now' out1 Hco1 Hin1).
    rewrite (cleaned_without parse_float now' d Hco Hin).
    rewrite Hy1, Hpa1. fold cols y. split.
    + do 2 f_equal. rewrite Hout. cbn [rows].
      pose proof (rows_cleaned_again parse_float id cols cols now now' y (rows d)) as Hr.
      rewrite !list_fmap_id in Hr. apply Hr; [done|done|done|done|].
      intros r. apply clean_row_twice.
    + eexists. split; [reflexivity|]. rewrite Hout. cbn [rows].
      pose proof (Hlen id now') as H1. pose proof (Hlen id now) as H2.
      rewrite list_fmap_id in H1, H2. by rewrite H1, H2.
Qed.

(** X8.  Cleaning is repeatable.  When [clean_data] has returned a table
    for a raw table, one without the two derived columns, cleaning the
    returned table again, at any time, returns the table that cleaning
    the raw table at that time returns: nothing but [processed_at]
    changes, and no row is dropped the second time. *)
Theorem clean_data_again now now' (h : heap) l d l1 h1 :
  h !! l = Some d →
  "indicator_clean" ∉ columns d → "connection_type" ∉ columns d →
  clean_data parse_float now (Some l) h = (Return (Some l1), h1) →
  ∃ out1 l2 h2 l3 h3 out,
    h1 !! l1 = Some out1 ∧
    clean_data parse_float now' (Some l1) h1 = (Return (Some l2), h2) ∧
    h2 !! l2 = Some out ∧
    clean_data parse_float now' (Some l) h = (Return (Some l3), h3) ∧
    h3 !! l3 = Some out ∧
    length (rows out) = length (rows out1).
Proof.
  intros H Hic Hct Hrun.
  destruct (clean_data_Return parse_float now h l d l1 h1 H Hrun)
    as (out1 & Hc & Hout1 & _).
  assert (Hne : Frame.empty d = false).
  { destruct (Frame.empty d) eqn:Hne; [|done].
    unfold clean_data in Hrun. rewrite bind_run, (deref_run _ _ _ H), Hne in Hrun.
    discriminate. }
  destruct (cleaned_again now now' d out1 Hne Hic Hct Hc)
    as (Hne1 & Heq & out & Hout & Hlen).
  rewrite Hout in Heq.
  destruct (clean_data_cleaned parse_float now' h1 l1 out1 out Hout1 Hne1 Heq)
    as (l2 & h2 & Hrun2 & Hout2).
  destruct (clean_data_cleaned parse_float now' h l d out H Hne Hout)
    as (l3 & h3 & Hrun3 & Hout3).
  exists out1, l2, h2, l3, h3, out. auto 10.
Qed.
End CleanerIdempotent.

(** *** These properties on the sample tables *)

Section CleanerMoreExamples.
Import Store Cleaner Examples.

Local Ltac whole_years :=
  repeat (apply Forall_cons_2; [eapply castable_cast; vm_compute; reflexivity|]);
  apply Forall_nil_2.

Lemma households_run :
  clean_data Literal.decimal now (Some 1%positive) (store_of households)
  = (Return (Some 3%positive),
     (clean_data Literal.decimal now (Some 1%positive) (store_of households)).2).
Proof.
  pose proof (proj1 households_are_cleaned) as H.
  destruct (clean_data Literal.decimal now (Some 1%positive) (store_of households)).
  simpl in *. by subst.
Qed.

Lemma clean_data_returns_iff_witness :
  (∃ l' h', clean_data Literal.decimal now (Some 1%positive) (store_of households)
            = (Return (Some l'), h')) ↔
  coercible Literal.decimal households ∧
  ("Indicator" ∈ columns households → ∃ s, first_indicator households s).
Proof.
  apply (clean_data_returns_iff Literal.decimal now (store_of households)
           1%positive households).
  reflexivity.
Defined.

Lemma clean_data_missing_column_witness :
  (clean_data Literal.decimal now (Some 1%positive) (store_of no_value)).1
  = Raise (KeyError "Value").
Proof.
  apply (clean_data_missing_column Literal.decimal now (store_of no_value)
           1%positive no_value "Value" []); reflexivity.
Defined.

Lemma clean_data_standard_countries_witness :
  ∃ out, (clean_data Literal.decimal now (Some 1%positive) (store_of households)).2
           !! 3%positive = Some out ∧
    Forall (λ r, at_ r "Country" ≠ NA ∧
                 ∀ s, at_ r "Country" = Str s → assoc s country_mapping = None)
      (rows out).
Proof.
  apply (clean_data_standard_countries Literal.decimal now (store_of households)
           1%positive households).
  - reflexivity.
  - apply households_run.
Defined.

Lemma clean_data_numeric_columns_witness :
  ∃ out, (clean_data Literal.decimal now (Some 1%positive) (store_of households)).2
           !! 3%positive = Some out ∧
    Forall (λ r, (at_ r "Value" = NA ∨ ∃ q, at_ r "Value" = Num q) ∧
                 ("Year" ∈ columns households →
                    at_ r "Year" = NA ∨
                    ∃ q z, at_ r "Year" = Num q ∧ as_integer q = Some z ∧
                           int64_range z = true))
      (rows out).
Proof.
  apply (clean_data_numeric_columns Literal.decimal now (store_of households)
           1%positive households).
  - reflexivity.
  - apply households_run.
Defined.

Lemma clean_data_derived_columns_witness :
  ∃ out, (clean_data Literal.decimal now (Some 1%positive) (store_of households)).2
           !! 3%positive = Some out ∧
    columns out
    = (if decide ("Indicator" ∈ columns households)
       then add_column "connection_type"
              (add_column "indicator_clean"
                 (add_column "processed_at" (columns households)))
       else add_column "processed_at" (columns households)) ∧
    Forall (λ r, at_ r "processed_at" = Str now) (rows out) ∧
    ("Indicator" ∈ columns households →
       ∃ s, first_indicator households s ∧
            Forall (λ r, at_ r "indicator_clean" = Str s) (rows out)).
Proof.
  apply (clean_data_derived_columns Literal.decimal now (store_of households)
           1%positive households).
  - reflexivity.
  - apply households_run.
Defined.

Lemma clean_data_keeps_first_rows_witness :
  ∃ out kept,
    (clean_data Literal.decimal now (Some 1%positive) (store_of households)).2
      !! 3%positive = Some out ∧
    kept `sublist_of` rows households ∧ head kept = head (rows households) ∧
    (0 < length (rows out) ≤ length (rows households))%nat ∧
    Forall2 (λ r r', ∀ c, c ∉ ["Country"; "Value"; "Year"; "processed_at";
                                "indicator_clean"; "connection_type"] →
                          at_ r' c = at_ r c)
      kept (rows out).
Proof.
  apply (clean_data_keeps_first_rows Literal.decimal now (store_of households)
           1%positive households).
  - reflexivity.
  - apply households_run.
Defined.

Lemma clean_data_again_witness :
  ∃ out1 l2 h2 l3 h3 out,
    (clean_data Literal.decimal now (Some 1%positive) (store_of households)).2
      !! 3%positive = Some out1 ∧
    clean_data Literal.decimal later (Some 3%positive)
      (clean_data Literal.decimal now (Some 1%positive) (store_of households)).2
    = (Return (Some l2), h2) ∧
    h2 !! l2 = Some out ∧
    clean_data Literal.decimal later (Some 1%positive) (store_of households)
    = (Return (Some l3), h3) ∧
    h3 !! l3 = Some out ∧
    length (rows out) = length (rows out1).
Proof.
  apply (clean_data_again Literal.decimal now later (store_of households)
           1%positive households).
  - reflexivity.
  - not_in_list.
  - not_in_list.
  - apply households_run.
Defined.
End CleanerMoreExamples.

(** ** Lists *)

Lemma filter_none {A} (f : A → bool) l :
  Forall (λ x, f x = false) l → List.filter f l = [].
Proof. induction 1 as [|x l Hx _ IH]; [done|]. simpl. by rewrite Hx. Qed.

(** ** The Fetcher *)

Section FetcherFacts.
Import Fetcher.
Variable requests_get : request → outcome json.
Variable parse_float : string → option Qc.

(** *** The catalog *)



Lemma except_RequestException_caught {A} (body handler : outcome A) :
  handler ≠ Raise RequestException →
  except_RequestException body handler ≠ Raise RequestException.
Proof.
  intros Hh. unfold except_RequestException.
  destruct body as [a|[]]; try discriminate; exact Hh.
Qed.


(** *** The pages *)

(** The turn of the loop on a body with a batch of records. *)
Lemma fetch_page_body all_data meta batch rest (continue : bool) :
  batch ≠ [] →
  (length batch <? per_page)%nat = negb continue →
  except_RequestException
    (response_data ← Return (JArr (meta :: JArr batch :: rest));
     n ← len response_data;
     no_data ← (if (n <? 2)%nat then Return true
                else second ← getitem_1 response_data; Return (negb (truthy second)));
     if no_data : bool then Return (false, all_data)
     else
       data_batch ← getitem_1 response_data;
       items ← iter data_batch;
       let all_data := all_data ++ items in
       m ← len data_batch;
       if (m <? per_page)%nat then Return (false, all_data)
       else Return (true, all_data))
    (Return (false, all_data))
  = Return (continue, all_data ++ batch).
Proof.
  intros Hne Hlt. rewrite bind_Return. cbn [len length]. rewrite bind_Return.
  change (S (S (length rest)) <? 2)%nat with false.
  cbn [getitem_1 lookup list_lookup]. rewrite !bind_Return.
  cbn [truthy]. rewrite bool_decide_eq_false_2 by done. cbn [negb iter].
  rewrite !bind_Return. cbn [len]. rewrite bind_Return, Hlt.
  by destruct continue.
Qed.

Lemma fetch_page_full id s e page all_data body batch :
  requests_get (page_request id s e page) = Return body →
  full_page body batch →
  fetch_page requests_get id s e page all_data = Return (true, all_data ++ batch).
Proof.
  intros Hget (meta & rest & -> & Hlen). unfold fetch_page.
  assert (Hne : batch ≠ []).
  { intros ->. unfold per_page in Hlen. simpl in Hlen. lia. }
  rewrite Hget. apply (fetch_page_body all_data meta batch rest true Hne).
  destruct (Nat.ltb_spec (length batch) per_page) as [?|_]; [lia|]. reflexivity.
Qed.

Lemma fetch_page_final id s e page all_data batch :
  final_page (requests_get (page_request id s e page)) batch →
  fetch_page requests_get id s e page all_data = Return (false, all_data ++ batch).
Proof.
  unfold fetch_page. inversion 1 as [Hget|body n Hlen Hn Hget|body n second Hlen Hn H1 Ht Hget|
                                      meta b rest Hne Hlen Hget]; subst.
  - cbn. by rewrite app_nil_r.
  - rewrite bind_Return, Hlen, bind_Return.
    destruct (Nat.ltb_spec n 2) as [_|?]; [|lia].
    rewrite bind_Return. cbn. by rewrite app_nil_r.
  - rewrite bind_Return, Hlen, bind_Return.
    destruct (Nat.ltb_spec n 2) as [?|_]; [lia|].
    rewrite H1, !bind_Return, Ht. cbn. by rewrite app_nil_r.
  - apply (fetch_page_body all_data meta batch rest false Hne).
    destruct (Nat.ltb_spec (length batch) per_page) as [_|?]; [|lia]. reflexivity.
Qed.

(** The loop from any page on, with any records accumulated before. *)
Lemma fetch_loop_pages id s e (pages : list (list json)) last :
  ∀ page all_data fuel,
    (∀ i batch, pages !! i = Some batch →
       ∃ body, requests_get (page_request id s e (page + i)) = Return body ∧
               full_page body batch) →
    final_page (requests_get (page_request id s e (page + length pages))) last →
    fetch_loop requests_get fuel id s e page all_data
    = if decide (length pages < fuel) then Some (Return (all_data ++ concat pages ++ last))
      else None.
Proof.
  induction pages as [|batch pages IH]; intros page all_data fuel Hfull Hlast.
  - simpl in Hlast. rewrite Nat.add_0_r in Hlast.
    destruct fuel as [|fuel]; [done|].
    cbn [fetch_loop]. rewrite (fetch_page_final _ _ _ _ _ _ Hlast).
    rewrite decide_True by (simpl; lia). done.
  - destruct fuel as [|fuel].
    { rewrite decide_False by (simpl; lia). done. }
    destruct (Hfull 0 batch eq_refl) as (body & Hget & Hbody).
    rewrite Nat.add_0_r in Hget.
    cbn [fetch_loop]. rewrite (fetch_page_full _ _ _ _ _ _ _ Hget Hbody).
    rewrite (IH (S page) (all_data ++ batch) fuel).
    + simpl. rewrite <-!app_assoc.
      destruct (decide (length pages < fuel)), (decide (S (length pages) < S fuel));
        done || lia.
    + intros i b Hi. specialize (Hfull (S i) b Hi).
      by replace (S page + i) with (page + S i) by lia.
    + by replace (S page + length pages) with (page + length (batch :: pages))
        by (simpl; lia).
Qed.

(** C4.  When the pages [1 .. k] are full and page [k + 1] is a failed
    request, a short or empty body, or a page of fewer records than the
    page size, the loop makes exactly [k + 1] turns and returns the
    records of all these pages in order. *)
Theorem fetch_data_stops_at_short_page id s e (pages : list (list json)) last fuel :
  (∀ i batch, pages !! i = Some batch →
     ∃ body, requests_get (page_request id s e (S i)) = Return body ∧
             full_page body batch) →
  final_page (requests_get (page_request id s e (S (length pages)))) last →
  fetch_data requests_get fuel id s e
  = if decide (length pages < fuel) then Some (Return (concat pages ++ last)) else None.
Proof.
  intros Hfull Hlast. unfold fetch_data.
  by rewrite (fetch_loop_pages id s e pages last 1 [] fuel).
Qed.

(** *** The records *)

(** The status [flatten] gives a record. *)
Lemma flatten_obs_status item record :
  flatten item = Return record →
  ∃ fields, item = JObj fields ∧
    field (list_to_map record) "OBS_STATUS"
    = if is_not_None (default JNull (lookup_field "value" fields))
      then JStr "Regular" else JStr "Missing".
Proof.
  unfold flatten. destruct item as [| | | | |fields]; try discriminate.
  cbn [get]. rewrite !bind_Return.
  destruct (get (default (JObj []) (lookup_field "country" fields)) "value" _)
    as [country|]; [|discriminate].
  rewrite !bind_Return.
  destruct (get (default (JObj []) (lookup_field "indicator" fields)) "value" _)
    as [indicator|]; [|discriminate].
  rewrite !bind_Return.
  destruct (get (default (JObj []) (lookup_field "indicator" fields)) "id" _)
    as [indicator_id|]; [|discriminate].
  rewrite !bind_Return. intros [= <-]. exists fields. split; [reflexivity|].
  unfold field. cbn [list_to_map foldr uncurry fst snd].
  rewrite !lookup_insert_ne by discriminate. by rewrite lookup_insert_eq.
Qed.

Lemma normalized_flattens raw_data :
  Forall2 (λ item record, flatten item = Return record)
    (List.filter flattens raw_data) (normalized raw_data).
Proof.
  induction raw_data as [|item raw_data IH]; [constructor|].
  cbn [normalized List.filter]. unfold flattens at 1.
  destruct (flatten item) as [record|] eqn:Hf; [|done].
  by constructor.
Qed.

Lemma jsons_Int64_length col col' :
  jsons_Int64 col = Return col' → length col' = length col.
Proof.
  revert col'. induction col as [|x col IH]; intros col'; cbn [jsons_Int64].
  - by intros [= <-].
  - destruct (json_Int64 x) as [y|]; [|discriminate]. rewrite bind_Return.
    destruct (jsons_Int64 col) as [ys|]; [|discriminate]. rewrite bind_Return.
    intros [= <-]. simpl. by rewrite (IH ys).
Qed.

Lemma column_length t c col : column t c = Return col → length col = length (records t).
Proof.
  unfold column. destruct (decide _); [|discriminate].
  intros [= <-]. by rewrite length_fmap.
Qed.

Lemma set_column_other t c col c' :
  c ≠ c' → length col = length (records t) →
  Forall2 (λ r r', field r' c' = field r c') (records t) (records (set_column t c col)).
Proof.
  intros Hne. unfold set_column. cbn [records].
  generalize (records t). intros rs. revert col.
  induction rs as [|r rs IH]; intros [|v col] Hlen; try discriminate; [constructor|].
  cbn [zip_with]. constructor; [|apply IH; by injection Hlen].
  unfold field. cbv beta. by rewrite lookup_insert_ne.
Qed.

Lemma set_scalar_other t c v c' :
  c ≠ c' →
  Forall2 (λ r r', field r' c' = field r c') (records t) (records (set_scalar t c v)).
Proof.
  intros Hne. unfold set_scalar. cbn [records].
  apply Forall2_fmap_r, Forall_Forall2_diag, Forall_forall. intros r _.
  unfold field. simpl. by rewrite lookup_insert_ne.
Qed.

(** The type conversions leave the status of every record as it was. *)
Lemma convert_types_obs_status now t :
  Forall2 (λ r r', field r' "OBS_STATUS" = field r "OBS_STATUS")
    (records t) (records (convert_types parse_float now t)).
Proof.
  assert (Hrefl : ∀ rs : list (gmap string json),
             Forall2 (λ r r', field r' "OBS_STATUS" = field r "OBS_STATUS") rs rs).
  { intros rs. by apply Forall_Forall2_diag, Forall_forall. }
  assert (Htrans : ∀ l1 l2 l3 : list (gmap string json),
             Forall2 (λ r r', field r' "OBS_STATUS" = field r "OBS_STATUS") l1 l2 →
             Forall2 (λ r r', field r' "OBS_STATUS" = field r "OBS_STATUS") l2 l3 →
             Forall2 (λ r r', field r' "OBS_STATUS" = field r "OBS_STATUS") l1 l3).
  { intros l1 l2 l3 H12 H23. eapply Forall2_trans; [|exact H12|exact H23].
    simpl. intros x y z <- <-. done. }
  unfold convert_types.
  destruct (column t "Year") as [year|] eqn:Hy; rewrite ?bind_Return, ?bind_Raise;
    [|apply Hrefl].
  destruct (jsons_Int64 _) as [year'|] eqn:Hc; [|apply Hrefl].
  assert (Hlen : length year' = length (records t)).
  { rewrite (jsons_Int64_length _ _ Hc), length_fmap. by eapply column_length. }
  pose proof (set_column_other t "Year" year' "OBS_STATUS" ltac:(discriminate) Hlen) as H1.
  destruct (column (set_column t "Year" year') "Value") as [value|] eqn:Hv; [|exact H1].
  eapply Htrans; [exact H1|]. eapply Htrans; [|apply set_scalar_other; discriminate].
  apply set_column_other; [discriminate|].
  rewrite length_fmap. by eapply column_length.
Qed.

(** C10.  The records of the frame are those of the items that flatten, in
    order, and each has the status "Regular" when the item's value field
    is present and not null, "Missing" otherwise. *)
Theorem obs_status_regular_iff now raw_data :
  Forall2 (λ item r,
             ∃ fields, item = JObj fields ∧
               (has_value fields → field r "OBS_STATUS" = JStr "Regular") ∧
               (¬ has_value fields → field r "OBS_STATUS" = JStr "Missing"))
    (List.filter flattens raw_data)
    (records (normalize_data parse_float now raw_data)).
Proof.
  unfold normalize_data.
  pose proof (convert_types_obs_status now (DataFrame_of (normalized raw_data))) as Hconv.
  unfold DataFrame_of in Hconv at 1. cbn [records] in Hconv.
  apply Forall2_fmap_l in Hconv.
  eapply Forall2_trans; [|apply normalized_flattens|exact Hconv].
  cbv beta. intros item record r Hflat Hr. unfold compose in Hr.
  apply flatten_obs_status in Hflat as (fields & -> & Hstatus).
  exists fields. split; [done|]. rewrite Hr, Hstatus. unfold has_value.
  destruct (lookup_field "value" fields) as [v|]; simpl.
  - destruct (is_not_None v) eqn:Hv.
    + split; [done|]. intros Hno. exfalso. apply Hno. exists v.
      split; [done|]. by intros ->.
    + split; [|done]. intros (v' & [= <-] & Hnull). by destruct v.
  - split; [|done]. intros (v & [=] & _).
Qed.
End FetcherFacts.

(** *** The properties on a sample server *)

Section FetcherExamples.
Import Fetcher Examples.



Lemma fetch_data_stops_at_short_page_witness :
  fetch_data one_page_then_failure 5 "IT.NET.USER.ZS" 2000 2024
  = if decide (length [replicate per_page (record_of (JNum (Q2Qc (41 # 1))))] < 5)
    then Some (Return (concat [replicate per_page (record_of (JNum (Q2Qc (41 # 1))))] ++ []))
    else None.
Proof.
  apply (fetch_data_stops_at_short_page one_page_then_failure "IT.NET.USER.ZS" 2000 2024
           [replicate per_page (record_of (JNum (Q2Qc (41 # 1))))] [] 5).
  - intros i batch [-> <-]%list_lookup_singleton_Some.
    exists (JArr [ JObj [("page", JNum (Q2Qc 1))];
                   JArr (replicate per_page (record_of (JNum (Q2Qc (41 # 1))))) ]).
    split; [reflexivity|].
    eexists _, _. split; [reflexivity|]. rewrite length_replicate. lia.
  - replace (one_page_then_failure (page_request "IT.NET.USER.ZS" 2000 2024 2))
      with (@Raise json RequestException) by reflexivity.
    constructor.
Defined.
End FetcherExamples.

(** ** The Fetcher: the loop, the catalog and the records *)

Section FetcherMoreFacts.
Import Fetcher.
Variable requests_get : request → outcome json.
Variable parse_float : string → option Qc.

(** *** The loop *)

Lemma fetch_page_no_RequestException id s e page all_data :
  fetch_page requests_get id s e page all_data ≠ Raise RequestException.
Proof. apply except_RequestException_caught. discriminate. Qed.

(** X9.  Whatever the server answers and however long the loop runs, no
    [RequestException] leaves [fetch_data]: a failed request ends the loop
    with the records fetched before. *)
Theorem fetch_data_no_RequestException fuel id s e :
  fetch_data requests_get fuel id s e ≠ Some (Raise RequestException).
Proof.
  unfold fetch_data. generalize 1%nat, (@nil json).
  induction fuel as [|fuel IH]; intros page all_data; [done|].
  cbn [fetch_loop].
  pose proof (fetch_page_no_RequestException id s e page all_data) as Hp.
  destruct (fetch_page requests_get id s e page all_data) as [[[] all_data']|x].
  - apply IH.
  - done.
  - congruence.
Qed.

(** X10.  The loop has no bound of its own: against a server that
    answers every page with a full page, [fetch_data] does not stop,
    whatever the number of turns it is given. *)
Theorem fetch_data_endless id s e :
  (∀ page, (1 ≤ page)%nat →
     ∃ body batch, requests_get (page_request id s e page) = Return body ∧
                   full_page body batch) →
  ∀ fuel, fetch_data requests_get fuel id s e = None.
Proof.
  intros Hfull fuel. unfold fetch_data.
  assert (H1 : (1 ≤ 1)%nat) by lia. revert H1.
  generalize 1%nat at 2 3, (@nil json).
  induction fuel as [|fuel IH]; intros page all_data Hpage; [done|].
  cbn [fetch_loop].
  destruct (Hfull page Hpage) as (body & batch & Hget & Hbody).
  rewrite (fetch_page_full requests_get id s e page all_data body batch Hget Hbody).
  apply IH. lia.
Qed.

(** *** The catalog *)

Lemma is_relevant_Return entry b :
  is_relevant entry = Return b → catalog_entry entry ∧ b = matches entry.
Proof.
  unfold is_relevant, matches, entry_name, catalog_entry.
  destruct entry as [| | | | |fields]; try discriminate.
  cbn [get]. rewrite bind_Return.
  destruct (lookup_field "name" fields) as [name|] eqn:Hname; cbn [default id].
  - destruct name as [| | |s| |]; try discriminate.
    cbn [str_lower]. rewrite bind_Return. intros [= <-].
    split; [|done]. exists fields. split; [done|]. rewrite Hname. eauto.
  - cbn [str_lower]. rewrite bind_Return. intros [= <-].
    split; [|done]. exists fields. split; [done|]. by rewrite Hname.
Qed.

Lemma relevant_Return entries rel :
  relevant entries = Return rel →
  Forall catalog_entry entries ∧ rel = List.filter matches entries.
Proof.
  revert rel. induction entries as [|entry entries IH]; intros rel; cbn [relevant].
  - intros [= <-]. split; [constructor|done].
  - destruct (is_relevant entry) as [b|] eqn:Hb; [|discriminate].
    rewrite bind_Return.
    destruct (relevant entries) as [rest|]; [|discriminate].
    rewrite bind_Return. intros [= <-].
    apply is_relevant_Return in Hb as [He ->].
    destruct (IH rest eq_refl) as [Hes ->].
    split; [by constructor|]. cbn [List.filter]. by destruct (matches entry).
Qed.

Lemma is_relevant_AttributeError entry x :
  is_relevant entry = Raise x → x = AttributeError.
Proof.
  unfold is_relevant.
  destruct entry as [| | | | |fields]; try (by intros [= <-]).
  cbn [get]. rewrite bind_Return.
  destruct (default (JStr "") (lookup_field "name" fields)); by intros [= <-].
Qed.

Lemma relevant_Raise entries :
  Exists (λ entry, ¬ catalog_entry entry) entries →
  relevant entries = Raise AttributeError.
Proof.
  induction entries as [|entry entries IH]; intros Hex.
  - by apply Exists_nil in Hex.
  - cbn [relevant].
    destruct (is_relevant entry) as [b|x] eqn:Hb.
    + apply is_relevant_Return in Hb as [He _].
      apply Exists_cons in Hex as [Hno|Hex]; [done|].
      by rewrite bind_Return, (IH Hex).
    + by apply is_relevant_AttributeError in Hb as ->.
Qed.

Lemma filter_first {A} (f : A → bool) l x rest :
  List.filter f l = x :: rest →
  ∃ before after, l = before ++ x :: after ∧
                  Forall (λ y, f y = false) before ∧ f x = true.
Proof.
  induction l as [|y l IH]; [done|]. cbn [List.filter].
  destruct (f y) eqn:Hy.
  - intros [= -> <-]. exists [], l. by repeat split.
  - intros (before & after & -> & Hb & Hx)%IH.
    exists (y :: before), after. split; [done|]. split; [by constructor|done].
Qed.

(** X11.  An identifier [discover_indicator_id] returns is the fallback
    or the [id] of the first entry of the catalog, in its order, whose
    name mentions households and fixed or mobile lines; no later entry is
    returned and none that does not match. *)
Theorem discover_indicator_id_sound id :
  discover_indicator_id requests_get = Return id →
  id = JStr "IT.NET.USER.ZS" ∨
  ∃ data second before first after fields,
    requests_get catalog_request = Return data ∧
    getitem_1 data = Return second ∧
    iter second = Return (before ++ first :: after) ∧
    Forall (λ entry, matches entry = false) before ∧
    matches first = true ∧
    first = JObj fields ∧ lookup_field "id" fields = Some id.
Proof.
  unfold discover_indicator_id.
  assert (Hraise : ∀ x, except_RequestException (Raise x) (Return (JStr "IT.NET.USER.ZS"))
                        = Return id → id = JStr "IT.NET.USER.ZS").
  { intros []; simpl; congruence. }
  destruct (requests_get catalog_request) as [data|x] eqn:Hget;
    rewrite ?bind_Return, ?bind_Raise; [|left; by eapply Hraise].
  destruct (getitem_1 data) as [second|x] eqn:H1;
    rewrite ?bind_Return, ?bind_Raise; [|left; by eapply Hraise].
  destruct (iter second) as [entries|x] eqn:Hit;
    rewrite ?bind_Return, ?bind_Raise; [|left; by eapply Hraise].
  destruct (relevant entries) as [rel|x] eqn:Hrel;
    rewrite ?bind_Return, ?bind_Raise; [|left; by eapply Hraise].
  apply relevant_Return in Hrel as [_ ->].
  destruct (List.filter matches entries) as [|first others] eqn:Hf.
  { simpl. intros [= <-]. by left. }
  destruct (getitem_key first "id") as [v|x] eqn:Hid; [|left; by eapply Hraise].
  simpl. intros [= ->]. right.
  apply filter_first in Hf as (before & after & -> & Hbefore & Hfirst).
  unfold getitem_key in Hid. destruct first as [| | | | |fields]; try discriminate.
  destruct (lookup_field "id" fields) as [v|] eqn:Hv; [|discriminate].
  injection Hid as ->.
  exists data, second, before, (JObj fields), after, fields. repeat split; done.
Qed.

(** X12.  The filter runs over the whole catalog before an identifier
    is chosen: one entry that is not an object, or whose name is not a
    text, makes [discover_indicator_id] raise [AttributeError], also when
    an entry before it matches. *)
Theorem discover_indicator_id_unnamed_entry meta entries rest :
  requests_get catalog_request = Return (JArr (meta :: JArr entries :: rest)) →
  Exists (λ entry, ¬ catalog_entry entry) entries →
  discover_indicator_id requests_get = Raise AttributeError.
Proof.
  intros Hget Hex. unfold discover_indicator_id.
  rewrite Hget, bind_Return. cbn [getitem_1 lookup list_lookup].
  rewrite !bind_Return. cbn [iter]. rewrite bind_Return.
  by rewrite (relevant_Raise _ Hex).
Qed.
End FetcherMoreFacts.

Section FetcherRecords.
Import Fetcher.
Variable parse_float : string → option Qc.

(** The record of an item that flattens. *)
Lemma flatten_record item record :
  flatten item = Return record →
  ∃ fields country code indicator indicator_id status,
    item = JObj fields ∧ nested fields "country" = true ∧
    nested fields "indicator" = true ∧
    record = [ ("Country", country); ("Country_Code", code);
               ("Year", date_of fields); ("Value", value_of fields);
               ("UNIT_MEASURE", JStr "Percentage"); ("OBS_STATUS", status);
               ("Indicator", indicator); ("Indicator_Code", indicator_id) ].
Proof.
  unfold flatten.
  destruct item as [| | | | |fields]; try discriminate.
  cbn [get]. rewrite !bind_Return.
  destruct (lookup_field "country" fields) as [[| | | | |cf]|] eqn:Hc; try discriminate;
    cbn [default id get]; rewrite !bind_Return;
    (destruct (lookup_field "indicator" fields) as [[| | | | |inf]|] eqn:Hi;
     try discriminate;
     cbn [default id get]; rewrite !bind_Return; intros [= <-];
     exists fields; eexists _, _, _, _, _;
     (split; [reflexivity|]); (split; [unfold nested; by rewrite Hc|]);
     (split; [unfold nested; by rewrite Hi|]); reflexivity).
Qed.

(** X13.  An item gives a row exactly when it is an object whose
    [country] and [indicator] fields are absent or objects themselves;
    every other item, one with a null country for example, is skipped. *)
Theorem flattens_iff item :
  flattens item = true ↔
  ∃ fields, item = JObj fields ∧
            nested fields "country" = true ∧ nested fields "indicator" = true.
Proof.
  unfold flattens. split.
  - destruct (flatten item) as [record|] eqn:Hf; [|done]. intros _.
    apply flatten_record in Hf as (fields & ? & ? & ? & ? & ? & -> & Hc & Hi & _).
    eauto.
  - intros (fields & -> & Hc & Hi). unfold flatten, nested in *.
    cbn [get]. rewrite !bind_Return.
    destruct (lookup_field "country" fields) as [[| | | | |cf]|]; try discriminate;
      cbn [default id get]; rewrite !bind_Return;
      (destruct (lookup_field "indicator" fields) as [[| | | | |inf]|]; try discriminate;
       cbn [default id get]; rewrite !bind_Return; reflexivity).
Qed.

Lemma normalized_filter raw_data :
  normalized raw_data = [] ↔ List.filter flattens raw_data = [].
Proof.
  pose proof (normalized_flattens raw_data) as H.
  split; intros E; rewrite E in H.
  - by apply Forall2_nil_inv_r in H.
  - by apply Forall2_nil_inv_l in H.
Qed.

(** X14.  When no item gives a row, an empty list included,
    [normalize_data] returns a frame without rows and without columns,
    [processed_at] included: the missing Year column ends the type
    conversions, and nothing is raised. *)
Theorem normalize_data_nothing_flattens now raw_data :
  Forall (λ item, flattens item = false) raw_data →
  normalize_data parse_float now raw_data = {| labels := []; records := [] |}.
Proof.
  intros Hnone. unfold normalize_data.
  assert (normalized raw_data = []) as ->; [|reflexivity].
  apply normalized_filter. by apply filter_none.
Qed.

(** *** The columns of the frame *)

Lemma foldl_add_column (d : list (string * json)) cols :
  foldl (λ cols kv, add_column kv.1 cols) cols d
  = foldl (λ cols k, add_column k cols) cols (d.*1).
Proof. revert cols. induction d as [|kv d IH]; intros cols; [done|]. apply IH. Qed.

Lemma labels_DataFrame_of dicts :
  dicts ≠ [] → Forall (λ d : list (string * json), d.*1 = record_labels) dicts →
  labels (DataFrame_of dicts) = record_labels.
Proof.
  intros Hne Hkeys. unfold DataFrame_of. cbn [labels].
  assert (Hstep : ∀ rest, Forall (λ d : list (string * json), d.*1 = record_labels) rest →
            foldl (λ cols d, foldl (λ cols kv, add_column kv.1 cols) cols d)
              record_labels rest = record_labels).
  { induction 1 as [|d rest Hd _ IH]; [done|].
    cbn [foldl]. rewrite foldl_add_column, Hd.
    replace (foldl (λ cols k, add_column k cols) record_labels record_labels)
      with record_labels by (vm_compute; reflexivity).
    apply IH. }
  destruct Hkeys as [|d rest Hd Hrest]; [done|].
  cbn [foldl]. rewrite foldl_add_column, Hd.
  replace (foldl (λ cols k, add_column k cols) [] record_labels)
    with record_labels by (vm_compute; reflexivity).
  by apply Hstep.
Qed.

Lemma normalized_labels raw_data :
  Forall (λ d : list (string * json), d.*1 = record_labels) (normalized raw_data).
Proof.
  pose proof (normalized_flattens raw_data) as H.
  induction H as [|item record items recs Hf _ IH]; constructor; [|done].
  apply flatten_record in Hf as (? & ? & ? & ? & ? & ? & _ & _ & _ & ->). reflexivity.
Qed.

Lemma zip_with_insert_json c (f : json → json) (rs : list (gmap string json)) :
  zip_with (λ r v, <[c := v]> r) rs (f <$> ((λ r, field r c) <$> rs))
  = (λ r, <[c := f (field r c)]> r) <$> rs.
Proof.
  induction rs as [|r rs IH]; [done|].
  rewrite !fmap_cons. cbn [zip_with]. by rewrite IH.
Qed.

Lemma set_column_map t c (f : json → json) :
  c ∈ labels t →
  set_column t c (f <$> ((λ r, field r c) <$> records t))
  = {| labels := labels t; records := (λ r, <[c := f (field r c)]> r) <$> records t |}.
Proof.
  intros Hc. unfold set_column. by rewrite zip_with_insert_json, add_column_elem.
Qed.

Lemma json_Int64_same x y : json_Int64 x = Return y → y = x.
Proof.
  unfold json_Int64. destruct x as [| |q| | |]; try discriminate; [by intros [= <-]|].
  destruct (as_integer q); [|discriminate].
  destruct (int64_range _); [|discriminate]. by intros [= <-].
Qed.

Lemma jsons_Int64_whole col :
  Forall (λ x, whole_year parse_float x = true) col →
  jsons_Int64 (json_numeric parse_float <$> col) = Return (json_numeric parse_float <$> col).
Proof.
  induction 1 as [|x col Hx _ IH]; [done|].
  rewrite fmap_cons. cbn [jsons_Int64]. unfold whole_year in Hx.
  destruct (json_Int64 (json_numeric parse_float x)) as [y|] eqn:Hy; [|done].
  apply json_Int64_same in Hy as ->. by rewrite bind_Return, IH.
Qed.

Lemma jsons_Int64_Raise col :
  Exists (λ x, whole_year parse_float x = false) col →
  ∃ e, jsons_Int64 (json_numeric parse_float <$> col) = Raise e.
Proof.
  induction 1 as [x col Hx|x col _ IH].
  - rewrite fmap_cons. cbn [jsons_Int64]. unfold whole_year in Hx.
    destruct (json_Int64 (json_numeric parse_float x)) as [y|e]; [done|]. by exists e.
  - rewrite fmap_cons. cbn [jsons_Int64].
    destruct (json_Int64 (json_numeric parse_float x)) as [y|e]; [|by exists e].
    rewrite bind_Return. destruct IH as [e ->]. by exists e.
Qed.

(** The fields of the row of a record. *)
Lemma field_record country code year value status indicator indicator_id :
  let r : gmap string json :=
    list_to_map [ ("Country", country); ("Country_Code", code);
                  ("Year", year); ("Value", value);
                  ("UNIT_MEASURE", JStr "Percentage"); ("OBS_STATUS", status);
                  ("Indicator", indicator); ("Indicator_Code", indicator_id) ] in
  field r "Year" = year ∧ field r "Value" = value ∧ r !! "processed_at" = None.
Proof.
  intros r. unfold r, field. cbn [list_to_map foldr uncurry fst snd].
  split; [|split].
  - rewrite !lookup_insert_ne by discriminate. by rewrite lookup_insert_eq.
  - rewrite !lookup_insert_ne by discriminate. by rewrite lookup_insert_eq.
  - rewrite !lookup_insert_ne by discriminate. apply lookup_empty.
Qed.

(** The rows of the frame before the type conversions. *)
Lemma DataFrame_of_rows raw_data :
  Forall2 (λ item r, ∃ fields, item = JObj fields ∧
             field r "Year" = date_of fields ∧ field r "Value" = value_of fields ∧
             r !! "processed_at" = None)
    (List.filter flattens raw_data) (records (DataFrame_of (normalized raw_data))).
Proof.
  unfold DataFrame_of. cbn [records]. apply Forall2_fmap_r.
  eapply Forall2_impl; [apply normalized_flattens|].
  intros item record Hf. simpl.
  apply flatten_record in Hf as (fields & c & cc & i & ii & st & -> & _ & _ & ->).
  exists fields. split; [done|]. apply field_record.
Qed.

(** X15.  When some item gives a row and the date of every such item is
    not a number or is a whole number, the frame has the eight columns of
    the records and [processed_at], and in every row the Year and the
    Value are what [to_numeric] makes of the item's date and value (of a
    value that is not a boolean: a column of booleans alone keeps them). *)
Theorem normalize_data_converted now raw_data :
  Exists (λ item, flattens item = true) raw_data →
  Forall (λ item, ∀ fields, item = JObj fields →
                            whole_year parse_float (date_of fields) = true)
    (List.filter flattens raw_data) →
  labels (normalize_data parse_float now raw_data) = record_labels ++ ["processed_at"] ∧
  Forall2 (λ item r, ∃ fields, item = JObj fields ∧
             field r "Year" = json_numeric parse_float (date_of fields) ∧
             ((∀ b, value_of fields ≠ JBool b) →
              field r "Value" = json_numeric parse_float (value_of fields)) ∧
             field r "processed_at" = JStr now)
    (List.filter flattens raw_data)
    (records (normalize_data parse_float now raw_data)).
Proof.
  intros Hsome Hwhole. unfold normalize_data.
  pose proof (DataFrame_of_rows raw_data) as Hrows.
  assert (Hlabels : labels (DataFrame_of (normalized raw_data)) = record_labels).
  { apply labels_DataFrame_of; [|apply normalized_labels].
    rewrite normalized_filter. intros E.
    apply Exists_exists in Hsome as (item & Hin & Hf).
    assert (item ∈ List.filter flattens raw_data) as Hx.
    { apply list_elem_of_In, filter_In. split; [by apply list_elem_of_In|done]. }
    rewrite E in Hx. by apply elem_of_nil in Hx. }
  set (t := DataFrame_of (normalized raw_data)) in *.
  unfold convert_types.
  assert (Hyear : column t "Year" = Return ((λ r, field r "Year") <$> records t)).
  { unfold column. rewrite decide_True; [done|]. rewrite Hlabels. unfold record_labels.
    in_list. }
  rewrite Hyear, bind_Return.
  rewrite jsons_Int64_whole.
  2:{ apply Forall_fmap, Forall_forall. intros r Hr. simpl.
      apply list_elem_of_lookup in Hr as [i Hi].
      destruct (Forall2_lookup_r _ _ _ _ _ Hrows Hi)
        as (item & Hitem & fields & -> & Hy & _).
      rewrite Hy. rewrite Forall_forall in Hwhole.
      apply (Hwhole (JObj fields)); [|done]. by eapply list_elem_of_lookup_2. }
  assert (HinY : "Year" ∈ labels t) by (rewrite Hlabels; unfold record_labels; in_list).
  rewrite (set_column_map t "Year" (json_numeric parse_float) HinY), Hlabels.
  set (t1 := {| labels := record_labels; records := _ |}).
  assert (HinV : "Value" ∈ labels t1) by (unfold t1, record_labels; cbn [labels]; in_list).
  assert (Hvalue : column t1 "Value" = Return ((λ r, field r "Value") <$> records t1)).
  { unfold column. by rewrite decide_True. }
  rewrite Hvalue, (set_column_map t1 "Value" (json_numeric parse_float) HinV).
  unfold set_scalar, t1. cbn [labels records].
  split.
  { unfold add_column. rewrite decide_False; [done|]. unfold record_labels. not_in_list. }
  rewrite <-!list_fmap_compose. apply Forall2_fmap_r.
  eapply Forall2_impl; [exact Hrows|].
  intros item r (fields & -> & Hy & Hv & _). exists fields. split; [done|].
  unfold field, compose in *. cbn beta.
  rewrite lookup_insert_eq. rewrite !(lookup_insert_ne _ "processed_at") by discriminate.
  rewrite (lookup_insert_ne _ "Value" "Year") by discriminate.
  rewrite !lookup_insert_eq. rewrite !(lookup_insert_ne _ "Year" "Value") by discriminate.
  cbn [default]. by rewrite Hy, Hv.
Qed.

(** X16.  One date that is a number but not a whole one ends the type
    conversions at their first statement: the frame keeps the eight
    columns of the records, the dates and the values stay as the items
    give them, and no row is stamped with [processed_at]. *)
Theorem normalize_data_unconverted now raw_data :
  Exists (λ item, flattens item = true ∧
                  ∃ fields, item = JObj fields ∧
                            whole_year parse_float (date_of fields) = false) raw_data →
  labels (normalize_data parse_float now raw_data) = record_labels ∧
  Forall2 (λ item r, ∃ fields, item = JObj fields ∧
             field r "Year" = date_of fields ∧ field r "Value" = value_of fields ∧
             r !! "processed_at" = None)
    (List.filter flattens raw_data)
    (records (normalize_data parse_float now raw_data)).
Proof.
  intros Hsome. unfold normalize_data.
  pose proof (DataFrame_of_rows raw_data) as Hrows.
  apply Exists_exists in Hsome as (item & Hin & Hf & fields & -> & Hdate).
  assert (Hx : JObj fields ∈ List.filter flattens raw_data).
  { apply list_elem_of_In, filter_In. split; [by apply list_elem_of_In|done]. }
  assert (Hlabels : labels (DataFrame_of (normalized raw_data)) = record_labels).
  { apply labels_DataFrame_of; [|apply normalized_labels].
    rewrite normalized_filter. intros E. rewrite E in Hx. by apply elem_of_nil in Hx. }
  set (t := DataFrame_of (normalized raw_data)) in *.
  assert (convert_types parse_float now t = t) as ->; [|done].
  unfold convert_types.
  assert (Hyear : column t "Year" = Return ((λ r, field r "Year") <$> records t)).
  { unfold column. rewrite decide_True; [done|]. rewrite Hlabels. unfold record_labels.
    in_list. }
  rewrite Hyear, bind_Return.
  destruct (jsons_Int64_Raise ((λ r, field r "Year") <$> records t)) as [e ->]; [|done].
  apply list_elem_of_lookup in Hx as [i Hi].
  destruct (Forall2_lookup_l _ _ _ _ _ Hrows Hi) as (r & Hr & fields' & [= <-] & Hy & _).
  apply Exists_exists. exists (field r "Year"). split; [|by rewrite Hy].
  apply list_elem_of_fmap. exists r. split; [done|]. by eapply list_elem_of_lookup_2.
Qed.
End FetcherRecords.

(** *** These properties on sample payloads *)

Section FetcherMoreExamples.
Import Fetcher Examples.

Lemma fetch_data_endless_witness :
  fetch_data always_full 7 "IT.NET.USER.ZS" 2000 2024 = None.
Proof.
  apply (fetch_data_endless always_full "IT.NET.USER.ZS" 2000 2024).
  intros page _.
  eexists _, (replicate per_page (record_of (JNum (Q2Qc (41 # 1))))).
  split; [reflexivity|].
  eexists _, _. split; [reflexivity|]. rewrite length_replicate. lia.
Defined.

Lemma discover_indicator_id_sound_witness :
  JStr "IT.MLT.HOUS.ZS" = JStr "IT.NET.USER.ZS" ∨
  ∃ data second before first after fields,
    one_page_then_failure catalog_request = Return data ∧
    getitem_1 data = Return second ∧
    iter second = Return (before ++ first :: after) ∧
    Forall (λ entry, matches entry = false) before ∧
    matches first = true ∧
    first = JObj fields ∧ lookup_field "id" fields = Some (JStr "IT.MLT.HOUS.ZS").
Proof.
  apply (discover_indicator_id_sound one_page_then_failure).
  vm_compute. reflexivity.
Defined.

Lemma discover_indicator_id_unnamed_entry_witness :
  discover_indicator_id unnamed_entry = Raise AttributeError.
Proof.
  eapply (discover_indicator_id_unnamed_entry unnamed_entry); [reflexivity|].
  apply Exists_cons_tl, Exists_cons_hd.
  intros (fields & [= <-] & Hname). simpl in Hname. destruct Hname as [s Hs].
  discriminate.
Defined.

Lemma normalize_data_nothing_flattens_witness :
  normalize_data Literal.decimal now [JNull; JObj [("country", JNull)]]
  = {| labels := []; records := [] |}.
Proof.
  apply (normalize_data_nothing_flattens Literal.decimal).
  repeat (apply Forall_cons_2; [vm_compute; reflexivity|]). apply Forall_nil_2.
Defined.

Lemma normalize_data_converted_witness :
  labels (normalize_data Literal.decimal now [record_of (JNum (Q2Qc (41 # 1))); JNull])
  = record_labels ++ ["processed_at"] ∧
  Forall2 (λ item r, ∃ fields, item = JObj fields ∧
             field r "Year" = json_numeric Literal.decimal (date_of fields) ∧
             ((∀ b, value_of fields ≠ JBool b) →
              field r "Value" = json_numeric Literal.decimal (value_of fields)) ∧
             field r "processed_at" = JStr now)
    (List.filter flattens [record_of (JNum (Q2Qc (41 # 1))); JNull])
    (records (normalize_data Literal.decimal now
                [record_of (JNum (Q2Qc (41 # 1))); JNull])).
Proof.
  apply (normalize_data_converted Literal.decimal).
  - apply Exists_cons_hd. vm_compute. reflexivity.
  - change (List.filter flattens [record_of (JNum (Q2Qc (41 # 1))); JNull])
      with [record_of (JNum (Q2Qc (41 # 1)))].
    apply Forall_cons_2; [|apply Forall_nil_2].
    intros fields [= <-]. vm_compute. reflexivity.
Defined.

Lemma normalize_data_unconverted_witness :
  labels (normalize_data Literal.decimal now [half_year]) = record_labels ∧
  Forall2 (λ item r, ∃ fields, item = JObj fields ∧
             field r "Year" = date_of fields ∧ field r "Value" = value_of fields ∧
             r !! "processed_at" = None)
    (List.filter flattens [half_year])
    (records (normalize_data Literal.decimal now [half_year])).
Proof.
  apply (normalize_data_unconverted Literal.decimal).
  apply Exists_cons_hd. split; [vm_compute; reflexivity|].
  eexists. split; [reflexivity|]. vm_compute. reflexivity.
Defined.
End FetcherMoreExamples.

(** ** The Visualizer *)

(** *** [sorted] on items of one kind

    Where every item is a number, or every item a text, the comparisons
    are those of a total order, and the run followed by binary insertion
    sorts the list. *)

Lemma StronglySorted_lookup {A} (R : relation A) l i j x y :
  StronglySorted R l → (i < j)%nat → l !! i = Some x → l !! j = Some y → R x y.
Proof.
  intros Hs. revert i j. induction Hs as [|a l Hs IH Ha]; intros i j Hij Hi Hj.
  - done.
  - destruct j as [|j]; [lia|]. simpl in Hj. destruct i as [|i]; simpl in Hi.
    + injection Hi as <-. rewrite Forall_forall in Ha. apply Ha.
      by eapply list_elem_of_lookup_2.
    + apply (IH i j); [lia|done|done].
Qed.

Section SortedKind.
Import Visualizer.
Variable kind : cell → bool.
Variable le : relation cell.
Hypothesis le_trans : Transitive le.
Hypothesis le_refl : ∀ a, kind a = true → le a a.
Hypothesis lt_false : ∀ a b, kind a = true → kind b = true → lt_cell a b = false → le b a.
Hypothesis lt_true : ∀ a b, kind a = true → kind b = true → lt_cell a b = true → le a b.
Hypothesis one_kind : ∀ l, Forall (λ x, kind x = true) l → mixed l = false.

Section Insertion.
Variable pre : list cell.
Variable pivot : cell.
Hypothesis pre_kind : Forall (λ x, kind x = true) pre.
Hypothesis pre_sorted : StronglySorted le pre.
Hypothesis pivot_kind : kind pivot = true.

Lemma pre_le i j x y :
  (i ≤ j)%nat → pre !! i = Some x → pre !! j = Some y → le x y.
Proof.
  intros Hij Hi Hj. destruct (decide (i = j)) as [->|Hne].
  - rewrite Hi in Hj. injection Hj as <-. apply le_refl.
    rewrite Forall_forall in pre_kind. apply pre_kind.
    by eapply list_elem_of_lookup_2.
  - eapply (StronglySorted_lookup _ pre i j); [done|lia|done|done].
Qed.

(** The binary search keeps the pivot between what is known to be at most
    it and what is known to be above it. *)
Lemma bisect_spec fuel l r :
  (l ≤ r)%nat → (r ≤ length pre)%nat → (r - l ≤ fuel)%nat →
  (∀ i x, (i < l)%nat → pre !! i = Some x → le x pivot) →
  (∀ i x, (r ≤ i)%nat → pre !! i = Some x → le pivot x) →
  (∀ i x, (i < bisect fuel pivot pre l r)%nat → pre !! i = Some x → le x pivot) ∧
  (∀ i x, (bisect fuel pivot pre l r ≤ i)%nat → pre !! i = Some x → le pivot x).
Proof.
  revert l r. induction fuel as [|fuel IH]; intros l r Hlr Hr Hfuel Hlow Hhigh.
  - simpl. assert (l = r) as -> by lia. done.
  - cbn [bisect]. destruct (Nat.ltb_spec l r) as [Hlt|Hge].
    2:{ assert (l = r) as -> by lia. done. }
    set (p := (l + (r - l) / 2)%nat).
    assert (Hhalf : ((r - l) / 2 < r - l)%nat) by (apply Nat.div_lt; lia).
    assert (Hp : (p < length pre)%nat) by (unfold p; lia).
    destruct (lookup_lt_is_Some_2 pre p Hp) as [xp Hxp].
    rewrite (list_lookup_total_correct _ _ _ Hxp).
    assert (Hxpn : kind xp = true).
    { rewrite Forall_forall in pre_kind. apply pre_kind.
      by eapply list_elem_of_lookup_2. }
    destruct (lt_cell pivot xp) eqn:Hcmp.
    + apply IH; [unfold p; lia|lia|unfold p; lia|done|].
      intros i x Hi Hx. transitivity xp.
      * by apply lt_true.
      * by apply (pre_le p i).
    + apply IH; [unfold p; lia|lia|unfold p; lia| |done].
      intros i x Hi Hx. transitivity xp.
      * apply (pre_le i p); [lia|done|done].
      * by apply lt_false.
Qed.

Lemma insert_pivot_sorted : StronglySorted le (insert_pivot pre pivot).
Proof.
  unfold insert_pivot.
  destruct (bisect_spec (length pre) 0 (length pre)) as [Hlow Hhigh];
    [lia|lia|lia|intros; lia|
     intros i x Hi Hx; apply lookup_lt_Some in Hx; lia|].
  set (k := bisect (length pre) pivot pre 0 (length pre)) in *.
  assert (Hsplit : StronglySorted le (take k pre ++ drop k pre))
    by (by rewrite take_drop).
  apply StronglySorted_app in Hsplit as (Hcross & Htake & Hdrop).
  apply StronglySorted_app_2; [|done|].
  - intros x1 x2 H1 [->|H2]%elem_of_cons; [|by apply Hcross].
    apply list_elem_of_lookup in H1 as [i Hi].
    apply lookup_take_Some in Hi as [Hi Hik]. by apply (Hlow i).
  - apply StronglySorted_cons. split; [|done].
    apply Forall_forall. intros x [i Hi]%list_elem_of_lookup.
    rewrite lookup_drop in Hi. apply (Hhigh (k + i)%nat); [lia|done].
Qed.

Lemma insert_pivot_Permutation : insert_pivot pre pivot ≡ₚ pivot :: pre.
Proof.
  unfold insert_pivot. rewrite <-Permutation_middle. by rewrite take_drop.
Qed.
End Insertion.

Lemma binarysort_sorted rest : ∀ run,
  Forall (λ x, kind x = true) run → Forall (λ x, kind x = true) rest →
  StronglySorted le run →
  StronglySorted le (binarysort run rest) ∧ binarysort run rest ≡ₚ run ++ rest.
Proof.
  unfold binarysort.
  induction rest as [|pivot rest IH]; intros run Hrun Hrest Hsorted.
  - simpl. by rewrite app_nil_r.
  - apply Forall_cons in Hrest as [Hpivot Hrest]. cbn [foldl].
    destruct (IH (insert_pivot run pivot)) as [Hs Hp]; [|done| |].
    + rewrite insert_pivot_Permutation. by constructor.
    + by apply insert_pivot_sorted.
    + split; [done|]. rewrite Hp, insert_pivot_Permutation.
      by rewrite <-Permutation_middle.
Qed.

(** The leading run is in order, as it is or reversed. *)
Lemma run_ascending_sorted l : ∀ prev,
  kind prev = true → Forall (λ x, kind x = true) l →
  Sorted le (prev :: take (run_ascending prev l) l).
Proof.
  induction l as [|x l IH]; intros prev Hprev Hl; [by repeat constructor|].
  apply Forall_cons in Hl as [Hx Hl]. cbn [run_ascending].
  destruct (lt_cell x prev) eqn:Hcmp; [by repeat constructor|].
  cbn [take]. constructor; [by apply IH|]. constructor. by apply lt_false.
Qed.

Lemma run_descending_sorted l : ∀ prev,
  kind prev = true → Forall (λ x, kind x = true) l →
  Sorted (flip le) (prev :: take (run_descending prev l) l).
Proof.
  induction l as [|x l IH]; intros prev Hprev Hl; [by repeat constructor|].
  apply Forall_cons in Hl as [Hx Hl]. cbn [run_descending].
  destruct (lt_cell x prev) eqn:Hcmp; [|by repeat constructor].
  cbn [take]. constructor; [by apply IH|]. constructor. by apply lt_true.
Qed.

(** On items of one kind [sorted] sorts. *)
Lemma sorted_kind l :
  Forall (λ x, kind x = true) l →
  ∃ l', sorted l = Return l' ∧ l' ≡ₚ l ∧ StronglySorted le l'.
Proof.
  intros Hl. unfold sorted. rewrite (one_kind l Hl).
  destruct (count_run l) as [n descending] eqn:Hrun.
  assert (Hsplit : Forall (λ x, kind x = true) (take n l) ∧
                   Forall (λ x, kind x = true) (drop n l)).
  { rewrite <-Forall_app. by rewrite take_drop. }
  destruct Hsplit as [Htake Hdrop].
  assert (Hsorted : StronglySorted le
                      (if descending then reverse (take n l) else take n l)).
  { destruct l as [|x [|y l]]; simpl in Hrun.
    - injection Hrun as <- <-. constructor.
    - injection Hrun as <- <-. repeat constructor.
    - apply Forall_cons in Hl as [Hx Hl'].
      pose proof Hl' as Hyl. apply Forall_cons in Hyl as [Hy Hl''].
      destruct (lt_cell y x) eqn:Hcmp; injection Hrun as <- <-.
      + apply Sorted_StronglySorted; [apply _|].
        apply (Sorted_reverse (flip le)). cbn [Nat.add take].
        constructor; [by apply run_descending_sorted|].
        constructor. by apply lt_true.
      + apply Sorted_StronglySorted; [apply _|]. cbn [Nat.add take].
        constructor; [by apply run_ascending_sorted|].
        constructor. by apply lt_false. }
  destruct (binarysort_sorted (drop n l)
              (if descending then reverse (take n l) else take n l))
    as [Hs Hp]; [|done|done|].
  { destruct descending; [by rewrite reverse_Permutation|done]. }
  eexists. split; [reflexivity|]. split; [|done].
  rewrite Hp. transitivity (take n l ++ drop n l); [|by rewrite take_drop].
  apply Permutation_app_tail.
  destruct descending; [apply reverse_Permutation|done].
Qed.

(** The last item of a sorted list is its largest. *)
Lemma last_sorted_kind l m :
  Forall (λ x, kind x = true) l → StronglySorted le l →
  last l = Some m → Forall (λ x, le x m) l.
Proof.
  intros Hl Hs [init ->]%last_Some.
  apply StronglySorted_app in Hs as (Hcross & _ & _).
  apply Forall_app. split.
  - apply Forall_forall. intros x Hx. apply Hcross; [done|]. by left.
  - constructor; [|done]. apply le_refl.
    rewrite Forall_forall in Hl. apply Hl. apply elem_of_app. right. by left.
Qed.
End SortedKind.

(** *** [sorted] on numbers *)

Section SortedYears.
Import Visualizer.

#[local] Instance le_number_trans : Transitive le_number.
Proof.
  intros [|x|s] [|y|t] [|z|u]; simpl; try done. apply Qcle_trans.
Qed.

Lemma le_number_refl a : is_number a = true → le_number a a.
Proof. destruct a; try done. intros _. apply Qcle_refl. Qed.

Lemma lt_cell_false a b :
  is_number a = true → is_number b = true → lt_cell a b = false → le_number b a.
Proof.
  destruct a as [|x|s], b as [|y|t]; try done. intros _ _. simpl.
  intros H%bool_decide_eq_false. by apply Qcnot_lt_le.
Qed.

Lemma lt_cell_true a b :
  is_number a = true → is_number b = true → lt_cell a b = true → le_number a b.
Proof.
  destruct a as [|x|s], b as [|y|t]; try done. intros _ _. simpl.
  intros H%bool_decide_eq_true. by apply Qclt_le_weak.
Qed.

Lemma numbers_not_mixed l : Forall (λ x, is_number x = true) l → mixed l = false.
Proof.
  intros Hl. unfold mixed. apply andb_false_intro1.
  apply not_true_is_false. intros (x & Hx & Ht)%existsb_exists.
  rewrite Forall_forall in Hl. apply list_elem_of_In, Hl in Hx. by destruct x.
Qed.

(** On numbers [sorted] sorts. *)
Lemma sorted_numbers l :
  Forall (λ x, is_number x = true) l →
  ∃ l', sorted l = Return l' ∧ l' ≡ₚ l ∧ StronglySorted le_number l'.
Proof.
  apply (sorted_kind is_number le_number _ le_number_refl lt_cell_false lt_cell_true
           numbers_not_mixed).
Qed.

(** The last item of a sorted list of numbers is its largest. *)
Lemma last_sorted l m :
  Forall (λ x, is_number x = true) l → StronglySorted le_number l →
  last l = Some m → Forall (λ x, le_number x m) l.
Proof. apply (last_sorted_kind is_number le_number le_number_refl). Qed.
End SortedYears.

(** *** [sorted] on texts *)

Section SortedTexts.
Import Visualizer.

Lemma ascii_compare_Lt_trans a b c :
  Ascii.compare a b = Lt → Ascii.compare b c = Lt → Ascii.compare a c = Lt.
Proof.
  unfold Ascii.compare. rewrite !N.compare_lt_iff. apply N.lt_trans.
Qed.

Lemma string_compare_refl s : String.compare s s = Eq.
Proof.
  induction s as [|a s IH]; [done|]. cbn [String.compare].
  unfold Ascii.compare. by rewrite N.compare_refl.
Qed.

Lemma string_compare_Lt_trans s : ∀ t u,
  String.compare s t = Lt → String.compare t u = Lt → String.compare s u = Lt.
Proof.
  induction s as [|a s IH]; intros [|b t] [|c u]; cbn [String.compare]; try done.
  destruct (Ascii.compare a b) eqn:Hab; [|  |done].
  - apply Ascii.compare_eq_iff in Hab as ->.
    destruct (Ascii.compare b c) eqn:Hbc; [by apply IH|done|done].
  - intros _. destruct (Ascii.compare b c) eqn:Hbc; [| |done].
    + apply Ascii.compare_eq_iff in Hbc as ->. by rewrite Hab.
    + by rewrite (ascii_compare_Lt_trans a b c Hab Hbc).
Qed.

#[local] Instance le_text_trans : Transitive le_text.
Proof.
  intros [|x|s] [|y|t] [|z|u]; simpl; try done.
  unfold String.ltb. intros Hts Hut.
  destruct (String.compare u s) eqn:Hus; [done| |done]. exfalso.
  rewrite (String.compare_antisym t s) in Hts.
  destruct (String.compare s t) eqn:Hst; simpl in Hts; [| |done].
  - apply String.compare_eq_iff in Hst as ->. by rewrite Hus in Hut.
  - by rewrite (string_compare_Lt_trans u s t Hus Hst) in Hut.
Qed.

Lemma le_text_refl a : is_text a = true → le_text a a.
Proof.
  destruct a as [| |s]; try done. intros _. simpl. unfold String.ltb.
  by rewrite string_compare_refl.
Qed.

Lemma lt_text_false a b :
  is_text a = true → is_text b = true → lt_cell a b = false → le_text b a.
Proof. destruct a as [| |s], b as [| |t]; try done. Qed.

Lemma lt_text_true a b :
  is_text a = true → is_text b = true → lt_cell a b = true → le_text a b.
Proof.
  destruct a as [| |s], b as [| |t]; try done. intros _ _. simpl.
  unfold String.ltb. rewrite (String.compare_antisym t s).
  by destruct (String.compare s t).
Qed.

Lemma texts_not_mixed l : Forall (λ x, is_text x = true) l → mixed l = false.
Proof.
  intros Hl. unfold mixed. apply andb_false_intro2.
  apply not_true_is_false. intros (x & Hx & Ht)%existsb_exists.
  rewrite Forall_forall in Hl. apply list_elem_of_In, Hl in Hx.
  by rewrite Hx in Ht.
Qed.

(** On texts [sorted] sorts. *)
Lemma sorted_texts l :
  Forall (λ x, is_text x = true) l →
  ∃ l', sorted l = Return l' ∧ l' ≡ₚ l ∧ StronglySorted le_text l'.
Proof.
  apply (sorted_kind is_text le_text _ le_text_refl lt_text_false lt_text_true
           texts_not_mixed).
Qed.

Lemma last_sorted_texts l m :
  Forall (λ x, is_text x = true) l → StronglySorted le_text l →
  last l = Some m → Forall (λ x, le_text x m) l.
Proof. apply (last_sorted_kind is_text le_text le_text_refl). Qed.
End SortedTexts.

(** *** The fallback year *)

Section TopCountries.
Import Visualizer.

Lemma filter_partition {A} (f : A → bool) l :
  List.filter (λ x, negb (f x)) l ++ List.filter f l ≡ₚ l.
Proof.
  induction l as [|x l IH]; [done|]. simpl. destruct (f x); simpl.
  - by rewrite <-Permutation_middle, IH.
  - by rewrite IH.
Qed.

Lemma elem_of_unique x col : x ∈ unique col ↔ x ∈ col.
Proof.
  unfold unique. split.
  - by intros [? _]%keep_first_fresh.
  - intros Hx. destruct (keep_first_covers id [] col x Hx) as [Hnil|(y & Hy & Heq)].
    + by apply elem_of_nil in Hnil.
    + unfold id in Heq. by subst y.
Qed.

End TopCountries.

(** *** The fallback on a sample table *)

Section VisualizerExamples.
Import Visualizer Examples.

(** C6 on a table with a missing Year after the latest one.  The table
    has a row of 2020 and none of 2019; asked for 2019, the chart falls
    back on the missing value, not on 2020, and has no bar. *)
Theorem plot_top_countries_missing_year :
  (∃ r, r ∈ rows year_missing_last ∧ at_ r "Year" = whole 2020) ∧
  rows_of_year year_missing_last (whole 2019)
    = Return (mkDataFrame ["Country"; "Year"; "Value"] []) ∧
  sorted (unique [whole 2020; NA]) = Return [whole 2020; NA] ∧
  plot_top_countries year_missing_last (whole 2019) 10
    = Return (Some {| chart_year := NA; chart_n := 10; bars := [] |}).
Proof.
  split; [|split; [|split]].
  - eexists. split; [apply list_elem_of_here|]. vm_compute. reflexivity.
  - vm_compute. reflexivity.
  - vm_compute. reflexivity.
  - vm_compute. reflexivity.
Qed.
End VisualizerExamples.

(** *** The chart of [plot_top_countries] *)

Section TopCountriesChart.
Import Visualizer.

Lemma ge_value_numbers r1 r2 r3 :
  is_number (value r1) = true → is_number (value r2) = true →
  is_number (value r3) = true →
  ge_value r1 r2 → ge_value r2 r3 → ge_value r1 r3.
Proof.
  unfold ge_value.
  destruct (value r1) as [|x|s], (value r2) as [|y|t], (value r3) as [|z|u]; try done.
  intros _ _ _. simpl. rewrite !bool_decide_eq_false.
  intros Hxy Hyz Hxz. apply Hyz. eapply Qcle_lt_trans; [|exact Hxz].
  by apply Qcnot_lt_le.
Qed.

Lemma ge_value_texts r1 r2 r3 :
  is_text (value r1) = true → is_text (value r2) = true → is_text (value r3) = true →
  ge_value r1 r2 → ge_value r2 r3 → ge_value r1 r3.
Proof.
  unfold ge_value.
  destruct (value r1) as [|x|s] eqn:H1, (value r2) as [|y|t] eqn:H2,
           (value r3) as [|z|u] eqn:H3; try done.
  intros _ _ _ H12 H23.
  apply (le_text_trans (Str u) (Str t) (Str s)); done.
Qed.

Lemma zip_fmap_same {A B C} (f : A → B) (g : A → C) l :
  zip (f <$> l) (g <$> l) = (λ x, (f x, g x)) <$> l.
Proof. induction l as [|x l IH]; [done|]. rewrite !fmap_cons. simpl. by rewrite IH. Qed.

Lemma existsb_false {A} (f : A → bool) l :
  existsb f l = false → Forall (λ x, f x = false) l.
Proof.
  induction l as [|x l IH]; [constructor|]. simpl.
  intros [Hx Hl]%orb_false_elim. constructor; auto.
Qed.

Lemma lt_cell_asym a b : lt_cell a b = true → lt_cell b a = false.
Proof.
  destruct a as [|x|s], b as [|y|t]; try done; simpl.
  - intros Hxy%bool_decide_eq_true. apply bool_decide_eq_false. intros Hyx.
    by apply (Qclt_not_le _ _ Hxy), Qclt_le_weak.
  - unfold String.ltb. rewrite (String.compare_antisym s t).
    by destruct (String.compare t s).
Qed.

Lemma insert_descending_Permutation r l : insert_descending r l ≡ₚ r :: l.
Proof.
  induction l as [|r' l IH]; [done|]. cbn [insert_descending].
  destruct (lt_cell (value r) (value r')); [|done].
  by rewrite IH, Permutation_swap.
Qed.

Lemma foldr_insert_descending_Permutation l : foldr insert_descending [] l ≡ₚ l.
Proof.
  induction l as [|r l IH]; [done|]. cbn [foldr].
  by rewrite insert_descending_Permutation, IH.
Qed.

(** A row put in place among rows of its kind in descending order leaves
    them in descending order. *)
Lemma insert_descending_sorted (P : gmap string cell → Prop) r l :
  (∀ x y z, P x → P y → P z → ge_value x y → ge_value y z → ge_value x z) →
  P r → Forall P l → StronglySorted ge_value l →
  StronglySorted ge_value (insert_descending r l).
Proof.
  intros Htrans Hr Hl Hs. induction Hs as [|r' l Hs IH Hhd]; cbn [insert_descending].
  { repeat constructor. }
  apply Forall_cons in Hl as [Hr' Hl]. specialize (IH Hl).
  destruct (lt_cell (value r) (value r')) eqn:Hlt.
  - constructor; [done|]. rewrite insert_descending_Permutation.
    constructor; [|done]. by apply lt_cell_asym.
  - constructor; [by constructor|]. constructor; [done|].
    rewrite Forall_forall in Hhd, Hl. apply Forall_forall. intros z Hz.
    apply (Htrans r r' z); auto.
Qed.

Lemma foldr_insert_descending_sorted (P : gmap string cell → Prop) l :
  (∀ x y z, P x → P y → P z → ge_value x y → ge_value y z → ge_value x z) →
  Forall P l → StronglySorted ge_value (foldr insert_descending [] l).
Proof.
  intros Htrans. induction 1 as [|r l Hr Hl IH]; cbn [foldr]; [constructor|].
  apply (insert_descending_sorted P); [done|done| |done].
  by rewrite foldr_insert_descending_Permutation.
Qed.

(** What [sort_values] returns: the rows of the frame, those with a value
    first and in descending order. *)
Lemma sort_values_descending_Return df ordered :
  sort_values_descending df = Return ordered →
  "Value" ∈ columns df ∧ columns ordered = columns df ∧
  rows ordered ≡ₚ rows df ∧ descending (rows ordered).
Proof.
  unfold sort_values_descending.
  destruct (getitem df "Value") as [col|] eqn:Hcol; [|done]. rewrite bind_Return.
  apply getitem_Return in Hcol as Hin. rewrite (getitem_elem _ _ Hin) in Hcol.
  injection Hcol as <-.
  destruct (existsb is_text _ && existsb is_number _) eqn:Hmixed; [done|].
  intros [= <-]. cbn [columns rows].
  split; [done|]. split; [done|]. split.
  { rewrite foldr_insert_descending_Permutation. apply filter_partition. }
  eexists _, _. split; [reflexivity|].
  split; [|split].
  2:{ rewrite foldr_insert_descending_Permutation. apply Forall_forall.
      intros r [_ Hr]%list_elem_of_In%filter_In. by apply negb_true_iff in Hr. }
  2:{ apply Forall_forall. intros r [_ Hr]%list_elem_of_In%filter_In. done. }
  apply andb_false_iff in Hmixed as [Hno|Hno]; apply existsb_false in Hno;
    rewrite Forall_fmap in Hno.
  - (* no text: the valued rows hold numbers *)
    apply (foldr_insert_descending_sorted (λ r, is_number (value r) = true));
      [apply ge_value_numbers|].
    apply Forall_forall.
    intros r [Hr Hv%negb_true_iff]%list_elem_of_In%filter_In.
    rewrite Forall_forall in Hno. apply list_elem_of_In, Hno in Hr.
    simpl in Hr. unfold value in *. by destruct (at_ r "Value").
  - (* no number: the valued rows hold texts *)
    apply (foldr_insert_descending_sorted (λ r, is_text (value r) = true));
      [apply ge_value_texts|].
    apply Forall_forall.
    intros r [Hr Hv%negb_true_iff]%list_elem_of_In%filter_In.
    rewrite Forall_forall in Hno. apply list_elem_of_In, Hno in Hr.
    simpl in Hr. unfold value in *. by destruct (at_ r "Value").
Qed.

Lemma getitem_missing d c : c ∉ columns d → getitem d c = Raise (KeyError c).
Proof. intros H. unfold getitem. by rewrite decide_False. Qed.

Lemma rows_of_year_Return df year year_data :
  rows_of_year df year = Return year_data →
  "Year" ∈ columns df ∧
  year_data = {| columns := columns df; rows := of_year df year |}.
Proof.
  unfold rows_of_year.
  destruct (getitem df "Year") as [col|] eqn:Hcol; [|done]. rewrite bind_Return.
  apply getitem_Return in Hcol. by intros [= <-].
Qed.

Lemma of_year_nonempty df year :
  Exists (λ r, eq_cell (at_ r "Year") year = true) (rows df) ↔ of_year df year ≠ [].
Proof.
  unfold of_year. split.
  - intros (r & Hr & Hy)%Exists_exists Hnil.
    assert (r ∈ List.filter (λ r, eq_cell (at_ r "Year") year) (rows df)) as Hin.
    { apply list_elem_of_In, filter_In. split; [by apply list_elem_of_In|done]. }
    rewrite Hnil in Hin. by apply elem_of_nil in Hin.
  - intros Hne. destruct (List.filter _ _) as [|r rs] eqn:Hf; [done|].
    assert (r ∈ List.filter (λ r, eq_cell (at_ r "Year") year) (rows df)) as Hin.
    { rewrite Hf. by left. }
    apply list_elem_of_In, filter_In in Hin as [Hr Hy].
    apply Exists_exists. exists r. split; [by apply list_elem_of_In|done].
Qed.

Lemma empty_of_year df year :
  "Year" ∈ columns df →
  Frame.empty {| columns := columns df; rows := of_year df year |}
  = bool_decide (of_year df year = []).
Proof.
  intros Hin. unfold Frame.empty. cbn [columns rows].
  rewrite (bool_decide_eq_false_2 (columns df = [])); [done|].
  intros E. rewrite E in Hin. by apply elem_of_nil in Hin.
Qed.

(** The latest year of a table of numbered years. *)
Lemma latest_year df :
  "Year" ∈ columns df → rows df ≠ [] →
  Forall (λ r, is_number (at_ r "Year") = true) (rows df) →
  ∃ available latest,
    sorted (unique ((λ r, at_ r "Year") <$> rows df)) = Return available ∧
    available ≠ [] ∧ last_item available = Return latest ∧
    of_year df latest ≠ [] ∧
    Forall (λ r, le_number (at_ r "Year") latest) (rows df).
Proof.
  intros Hy Hrows Hyears.
  set (years := (λ r, at_ r "Year") <$> rows df).
  assert (Hnum : Forall (λ x, is_number x = true) (unique years)).
  { apply Forall_forall. intros x Hx. apply (proj1 (elem_of_unique _ _)) in Hx.
    apply list_elem_of_fmap in Hx as (r & -> & Hr).
    rewrite Forall_forall in Hyears. by apply Hyears. }
  destruct (sorted_numbers _ Hnum) as (available & Hsorted & Hperm & Hstrong).
  assert (Havail : ∀ x, x ∈ available ↔ x ∈ years).
  { intros x. by rewrite Hperm, elem_of_unique. }
  destruct (last available) as [latest|] eqn:Hlast.
  2:{ apply last_None in Hlast. subst available.
      destruct (rows df) as [|r rs] eqn:Hr; [done|].
      assert (at_ r "Year" ∈ []) as Hin%elem_of_nil; [|done].
      apply Havail. unfold years. rewrite fmap_cons. by left. }
  assert (Hlatest : latest ∈ years).
  { apply Havail. apply last_Some in Hlast as [init ->].
    apply elem_of_app. right. by left. }
  assert (Hmax : Forall (λ x, le_number x latest) available).
  { apply last_sorted; [|done|done]. by rewrite Hperm. }
  exists available, latest. split; [done|]. split.
  { intros ->. done. }
  split; [unfold last_item; by rewrite Hlast|]. split.
  - apply of_year_nonempty. apply list_elem_of_fmap in Hlatest as (r & -> & Hr).
    apply Exists_exists. exists r. split; [done|].
    rewrite Forall_forall in Hyears. specialize (Hyears r Hr).
    destruct (at_ r "Year") as [|q|s]; try done. simpl. by apply bool_decide_eq_true.
  - apply Forall_forall. intros r Hr. rewrite Forall_forall in Hmax. apply Hmax, Havail.
    apply list_elem_of_fmap. eauto.
Qed.

Lemma selected_rows_Return df year selected year_data :
  selected_rows df year = Return (Some (selected, year_data)) →
  "Year" ∈ columns df ∧
  year_data = {| columns := columns df; rows := of_year df selected |} ∧
  (of_year df year ≠ [] → selected = year).
Proof.
  unfold selected_rows.
  destruct (rows_of_year df year) as [yd|] eqn:Hyd; [|done]. rewrite bind_Return.
  apply rows_of_year_Return in Hyd as [Hin ->].
  rewrite (empty_of_year _ _ Hin).
  destruct (bool_decide_reflect (of_year df year = [])) as [Hnil|Hne].
  - rewrite (getitem_elem _ _ Hin), bind_Return.
    destruct (sorted _) as [available|]; [|done]. rewrite bind_Return.
    destruct available as [|a available]; [done|].
    destruct (last_item _) as [latest|]; [|done]. rewrite bind_Return.
    destruct (rows_of_year df latest) as [yd|] eqn:Hyd; [|done]. rewrite bind_Return.
    apply rows_of_year_Return in Hyd as [_ ->]. intros [= <- <-]. done.
  - intros [= <- <-]. done.
Qed.

Lemma plot_top_countries_selected df year n :
  plot_top_countries df year n
  = (selected ← selected_rows df year;
     match selected with
     | None => Return None
     | Some (year, year_data) =>
         ordered ← sort_values_descending year_data;
         let top_countries := head ordered n in
         countries ← getitem top_countries "Country";
         values ← getitem top_countries "Value";
         barh countries values;;
         Return (Some {| chart_year := year; chart_n := n;
                         bars := zip countries values |})
     end).
Proof.
  unfold plot_top_countries, selected_rows.
  destruct (rows_of_year df year) as [yd|]; [|done]. rewrite !bind_Return.
  destruct (Frame.empty yd); [|done].
  destruct (getitem df "Year") as [years|]; [|done]. rewrite !bind_Return.
  destruct (sorted _) as [[|a available]|]; [done| |done]. rewrite !bind_Return.
  destruct (last_item _) as [latest|]; [|done]. rewrite !bind_Return.
  destruct (rows_of_year df latest) as [yd'|]; done.
Qed.

Lemma rows_head_length df n :
  length (rows (head df n)) = head_length n (length (rows df)).
Proof.
  unfold head, head_length. cbn [rows].
  destruct (0 <=? n)%Z; rewrite length_take; lia.
Qed.

Lemma rows_head_take df n :
  ∃ k, rows (head df n) = take k (rows df).
Proof. unfold head. cbn [rows]. destruct (0 <=? n)%Z; eauto. Qed.

(** X18.  Whatever chart [plot_top_countries] draws, its bars are the
    Country and Value of the first rows of the chart's year in descending
    order of Value: the rows shown and the rows left out make up the rows
    of that year, no row left out has a higher value than a row shown,
    rows without a value come last, and [n] rows are shown when the year
    has that many.  The chart's year is the requested one whenever the
    table has a row of it. *)
Theorem plot_top_countries_chart df year n ch :
  plot_top_countries df year n = Return (Some ch) →
  chart_n ch = n ∧
  (Exists (λ r, eq_cell (at_ r "Year") year = true) (rows df) → chart_year ch = year) ∧
  ∃ top rest,
    bars ch = (λ r, (at_ r "Country", at_ r "Value")) <$> top ∧
    top ++ rest ≡ₚ of_year df (chart_year ch) ∧
    descending (top ++ rest) ∧
    length top = head_length n (length (of_year df (chart_year ch))).
Proof.
  rewrite plot_top_countries_selected.
  destruct (selected_rows df year) as [[[selected year_data]|]|] eqn:Hsel; [|done|done].
  rewrite bind_Return.
  apply selected_rows_Return in Hsel as (Hy & -> & Hsame).
  destruct (sort_values_descending _) as [ordered|] eqn:Hord; [|done].
  rewrite bind_Return. cbn zeta.
  apply sort_values_descending_Return in Hord as (Hv & Hcols & Hperm & Hdesc).
  cbn [columns rows] in *.
  destruct (getitem (head ordered n) "Country") as [countries|] eqn:Hc; [|done].
  rewrite bind_Return.
  destruct (getitem (head ordered n) "Value") as [values|] eqn:Hvs; [|done].
  rewrite bind_Return.
  destruct (barh countries values) as [[]|]; [|done].
  rewrite bind_Return. intros [= <-]. cbn [chart_n chart_year bars].
  split; [done|]. split.
  { intros Hex. apply Hsame. by apply of_year_nonempty. }
  apply getitem_Return in Hc as Hcin. rewrite (getitem_elem _ _ Hcin) in Hc.
  apply getitem_Return in Hvs as Hvin. rewrite (getitem_elem _ _ Hvin) in Hvs.
  injection Hc as <-. injection Hvs as <-.
  destruct (rows_head_take ordered n) as [k Hk].
  exists (rows (head ordered n)), (drop k (rows ordered)).
  split; [apply zip_fmap_same|].
  rewrite Hk at 1 2. rewrite take_drop.
  split; [done|]. split; [done|].
  by rewrite rows_head_length, Hperm.
Qed.

Lemma selected_rows_present df year :
  "Year" ∈ columns df → of_year df year ≠ [] →
  selected_rows df year
  = Return (Some (year, {| columns := columns df; rows := of_year df year |})).
Proof.
  intros Hy Hof. unfold selected_rows, rows_of_year.
  rewrite (getitem_elem _ _ Hy), !bind_Return. fold (of_year df year).
  by rewrite (empty_of_year _ _ Hy), bool_decide_eq_false_2.
Qed.

(** The rows selected when the requested year has none. *)
Lemma selected_rows_fallback df year available latest :
  "Year" ∈ columns df → of_year df year = [] →
  sorted (unique ((λ r, at_ r "Year") <$> rows df)) = Return available →
  available ≠ [] → last_item available = Return latest →
  selected_rows df year
  = Return (Some (latest, {| columns := columns df; rows := of_year df latest |})).
Proof.
  intros Hy Hof Hsorted Havail Hlast. unfold selected_rows, rows_of_year.
  rewrite (getitem_elem _ _ Hy), !bind_Return. fold (of_year df year).
  rewrite (empty_of_year _ _ Hy), bool_decide_eq_true_2 by done.
  rewrite ?bind_Return, Hsorted, bind_Return.
  destruct available as [|a available]; [done|].
  by rewrite Hlast, !bind_Return.
Qed.

Lemma existsb_none {A} (f : A → bool) l :
  Forall (λ x, f x = false) l → existsb f l = false.
Proof. induction 1 as [|x l Hx _ IH]; [done|]. simpl. by rewrite Hx. Qed.

(** Texts for labels and numbers or missing values for widths are drawn. *)
Lemma barh_texts_numbers labels widths :
  Forall (λ x, is_text x = true) labels → Forall (λ x, is_text x = false) widths →
  barh labels widths = Return tt.
Proof.
  intros Hl Hw. unfold barh, mixed.
  rewrite (existsb_none (λ x, negb (is_text x)) labels), (existsb_none is_text widths).
  - by rewrite andb_false_r.
  - done.
  - eapply Forall_impl; [exact Hl|]. intros x Hx. simpl. by rewrite Hx.
Qed.

(** The chart of the selected year, when its countries are texts and its
    values numbers or missing. *)
Lemma plot_top_countries_draws df year n selected :
  "Country" ∈ columns df → "Value" ∈ columns df →
  selected_rows df year
  = Return (Some (selected, {| columns := columns df; rows := of_year df selected |})) →
  Forall (λ r, is_text (value r) = false) (of_year df selected) →
  Forall (λ r, is_text (at_ r "Country") = true) (of_year df selected) →
  ∃ ordered,
    rows ordered ≡ₚ of_year df selected ∧ descending (rows ordered) ∧
    plot_top_countries df year n
    = Return (Some {| chart_year := selected; chart_n := n;
                      bars := (λ r, (at_ r "Country", at_ r "Value"))
                                <$> rows (head ordered n) |}).
Proof.
  intros Hc Hv Hsel Hvalues Hcountries.
  rewrite plot_top_countries_selected, Hsel, bind_Return.
  destruct (sort_values_descending {| columns := columns df; rows := of_year df selected |})
    as [ordered|e] eqn:Hord.
  2:{ exfalso. revert Hord. unfold sort_values_descending. cbn [columns rows].
      rewrite (getitem_elem {| columns := columns df; rows := of_year df selected |}
                 "Value" Hv), bind_Return. cbn [rows].
      rewrite (existsb_none is_text); [done|].
      apply Forall_fmap. eapply Forall_impl; [exact Hvalues|]. done. }
  apply sort_values_descending_Return in Hord as Hres.
  destruct Hres as (_ & Hcols & Hperm & Hdesc). cbn [columns rows] in Hcols, Hperm.
  exists ordered. split; [done|]. split; [done|].
  rewrite bind_Return. cbn zeta.
  assert (Hhc : "Country" ∈ columns (head ordered n)) by (cbn [head columns]; congruence).
  assert (Hhv : "Value" ∈ columns (head ordered n)) by (cbn [head columns]; congruence).
  rewrite (getitem_elem _ _ Hhc), bind_Return, (getitem_elem _ _ Hhv), bind_Return.
  assert (Hsub : ∀ r, r ∈ rows (head ordered n) → r ∈ of_year df selected).
  { intros r Hr. destruct (rows_head_take ordered n) as [k Hk]. rewrite Hk in Hr.
    rewrite <-Hperm. revert Hr. apply subseteq_take. }
  rewrite barh_texts_numbers, bind_Return.
  - by rewrite zip_fmap_same.
  - apply Forall_fmap, Forall_forall. intros r Hr%Hsub.
    rewrite Forall_forall in Hcountries. by apply Hcountries.
  - apply Forall_fmap, Forall_forall. intros r Hr%Hsub.
    rewrite Forall_forall in Hvalues. by apply Hvalues.
Qed.

(** The leading rows [head] keeps of rows in descending order. *)
Lemma head_leading_rows ordered n l :
  rows ordered ≡ₚ l → descending (rows ordered) →
  ∃ rest,
    rows (head ordered n) ++ rest ≡ₚ l ∧
    descending (rows (head ordered n) ++ rest) ∧
    length (rows (head ordered n)) = head_length n (length l).
Proof.
  intros Hperm Hdesc. destruct (rows_head_take ordered n) as [k Hk].
  exists (drop k (rows ordered)). rewrite Hk at 1 2. rewrite take_drop.
  split; [done|]. split; [done|]. by rewrite rows_head_length, Hperm.
Qed.

(** X19.  When the table has the columns Country, Year and Value and a
    row of the requested year, and the rows of that year have texts for
    countries and numbers or missing values for values,
    [plot_top_countries] draws a chart, and draws it for the requested
    year. *)
Theorem plot_top_countries_requested_year df year n :
  "Country" ∈ columns df → "Year" ∈ columns df → "Value" ∈ columns df →
  Exists (λ r, eq_cell (at_ r "Year") year = true) (rows df) →
  Forall (λ r, is_text (value r) = false) (of_year df year) →
  Forall (λ r, is_text (at_ r "Country") = true) (of_year df year) →
  ∃ ch, plot_top_countries df year n = Return (Some ch) ∧ chart_year ch = year.
Proof.
  intros Hc Hy Hv Hex Hvalues Hcountries.
  apply of_year_nonempty in Hex.
  destruct (plot_top_countries_draws df year n year Hc Hv
              (selected_rows_present df year Hy Hex) Hvalues Hcountries)
    as (ordered & _ & _ & Hplot).
  eexists. split; [exact Hplot|done].
Qed.

(** X20.  When the requested year has rows, none with a text for a
    value, and one of the columns Year, Value and Country is missing,
    [plot_top_countries] raises [KeyError] for the first of them that is
    missing: Year at the filter, Value at the sort, Country at the bars. *)
Theorem plot_top_countries_missing_column df year n c others :
  of_year df year ≠ [] →
  Forall (λ r, is_text (value r) = false) (of_year df year) →
  List.filter (λ c, bool_decide (c ∉ columns df)) ["Year"; "Value"; "Country"]
  = c :: others →
  plot_top_countries df year n = Raise (KeyError c).
Proof.
  intros Hne Hkind Hmissing. cbn [List.filter] in Hmissing.
  destruct (decide ("Year" ∈ columns df)) as [Hy|Hy].
  2:{ rewrite (bool_decide_eq_true_2 ("Year" ∉ columns df)) in Hmissing by done.
      injection Hmissing as <- _.
      unfold plot_top_countries, rows_of_year. by rewrite getitem_missing. }
  rewrite (bool_decide_eq_false_2 ("Year" ∉ columns df)) in Hmissing by tauto.
  unfold plot_top_countries, rows_of_year.
  rewrite (getitem_elem _ _ Hy), !bind_Return. fold (of_year df year).
  rewrite (empty_of_year _ _ Hy), bool_decide_eq_false_2 by done.
  rewrite !bind_Return. unfold sort_values_descending. cbn [columns rows].
  destruct (decide ("Value" ∈ columns df)) as [Hv|Hv].
  2:{ rewrite (bool_decide_eq_true_2 ("Value" ∉ columns df)) in Hmissing by done.
      injection Hmissing as <- _.
      by rewrite (getitem_missing {| columns := columns df;
                                     rows := of_year df year |} "Value"). }
  rewrite (bool_decide_eq_false_2 ("Value" ∉ columns df)) in Hmissing by tauto.
  rewrite (getitem_elem {| columns := columns df; rows := of_year df year |} "Value" Hv).
  rewrite bind_Return. cbn [rows].
  assert (existsb is_text ((λ r, at_ r "Value") <$> of_year df year) = false) as ->.
  { apply not_true_is_false. intros (x & Hx & Ht)%existsb_exists.
    apply list_elem_of_In, list_elem_of_fmap in Hx as (r & -> & Hr).
    rewrite Forall_forall in Hkind. specialize (Hkind r Hr). unfold value in Hkind.
    congruence. }
  cbn [andb]. rewrite bind_Return.
  destruct (decide ("Country" ∈ columns df)) as [Hc|Hc].
  { by rewrite (bool_decide_eq_false_2 ("Country" ∉ columns df)) in Hmissing by tauto. }
  rewrite (bool_decide_eq_true_2 ("Country" ∉ columns df)) in Hmissing by done.
  injection Hmissing as <- _.
  by rewrite (getitem_missing (head _ n) "Country").
Qed.
(** X17.  The fallback where no Year is missing.  On a table whose
    years are all numbers, whose values are numbers or missing and whose
    countries are texts, a year without rows is replaced by the largest
    year of the table: the chart is drawn, for that year, and its bars
    are the leading rows of that year in descending order of value, rows
    without a value last, [n] of them when the year has that many. *)
Lemma plot_top_countries_falls_back df year n :
  "Country" ∈ columns df → "Year" ∈ columns df → "Value" ∈ columns df →
  rows df ≠ [] →
  Forall (λ r, is_number (at_ r "Year") = true) (rows df) →
  Forall (λ r, is_text (value r) = false) (rows df) →
  Forall (λ r, is_text (at_ r "Country") = true) (rows df) →
  Forall (λ r, eq_cell (at_ r "Year") year = false) (rows df) →
  ∃ latest ch,
    of_year df latest ≠ [] ∧
    Forall (λ r, le_number (at_ r "Year") latest) (rows df) ∧
    plot_top_countries df year n = Return (Some ch) ∧
    chart_year ch = latest ∧ chart_n ch = n ∧
    ∃ top rest,
      bars ch = (λ r, (at_ r "Country", at_ r "Value")) <$> top ∧
      top ++ rest ≡ₚ of_year df latest ∧
      descending (top ++ rest) ∧
      length top = head_length n (length (of_year df latest)).
Proof.
  intros Hc Hy Hv Hrows Hyears Hvalues Hcountries Hnone.
  destruct (latest_year df Hy Hrows Hyears)
    as (available & latest & Hsorted & Havail & Hlast & Hof & Hmax).
  assert (Hsub : ∀ P : gmap string cell → Prop,
             Forall P (rows df) → Forall P (of_year df latest)).
  { intros P HP. apply Forall_forall. intros r [Hr _]%list_elem_of_In%filter_In.
    rewrite Forall_forall in HP. by apply HP, list_elem_of_In. }
  destruct (plot_top_countries_draws df year n latest Hc Hv
              (selected_rows_fallback df year available latest Hy
                 (filter_none _ _ Hnone) Hsorted Havail Hlast)
              (Hsub _ Hvalues) (Hsub _ Hcountries))
    as (ordered & Hperm & Hdesc & Hplot).
  destruct (head_leading_rows ordered n _ Hperm Hdesc) as (rest & Hall & Hdescending & Hlen).
  eexists latest, _. split; [done|]. split; [done|]. split; [exact Hplot|].
  cbn [chart_year chart_n bars]. split; [done|]. split; [done|].
  exists (rows (head ordered n)), rest. done.
Qed.
End TopCountriesChart.

(** *** The chart of [plot_regional_comparison] *)

Section RegionalChart.
Import Visualizer.
Variable mean : list cell → outcome cell.

Lemma region_rows_elem year_data countries :
  "Country" ∈ columns year_data →
  region_rows year_data countries
  = Return {| columns := columns year_data;
              rows := in_region countries (rows year_data) |}.
Proof. intros H. unfold region_rows. by rewrite (getitem_elem _ _ H). Qed.

Lemma empty_in_region year_data countries :
  "Country" ∈ columns year_data →
  Frame.empty {| columns := columns year_data;
                 rows := in_region countries (rows year_data) |}
  = bool_decide (in_region countries (rows year_data) = []).
Proof.
  intros Hin. unfold Frame.empty. cbn [columns rows].
  rewrite (bool_decide_eq_false_2 (columns year_data = [])); [done|].
  intros E. rewrite E in Hin. by apply elem_of_nil in Hin.
Qed.

(** Without a row of any region there is no average. *)
Lemma regional_averages_none year_data regions :
  "Country" ∈ columns year_data →
  Forall (λ rc, in_region rc.2 (rows year_data) = []) regions →
  regional_averages mean year_data regions = Return [].
Proof.
  intros Hc. induction 1 as [|[region countries] regions Hnone _ IH]; [done|].
  cbn [regional_averages]. rewrite (region_rows_elem _ _ Hc), bind_Return.
  rewrite (empty_in_region _ _ Hc). simpl in Hnone.
  rewrite bool_decide_eq_true_2 by done. exact IH.
Qed.

(** The averages, region by region. *)
Lemma regional_averages_Return year_data regions avgs :
  regional_averages mean year_data regions = Return avgs →
  Forall2 (λ rc bar,
             bar.1 = rc.1 ∧
             mean ((λ r, at_ r "Value") <$> in_region rc.2 (rows year_data))
             = Return bar.2)
    (List.filter (λ rc, negb (bool_decide (in_region rc.2 (rows year_data) = [])))
       regions)
    avgs.
Proof.
  revert avgs. induction regions as [|[region countries] regions IH]; intros avgs.
  { intros [= <-]. constructor. }
  cbn [regional_averages].
  destruct (region_rows year_data countries) as [region_data|] eqn:Hr; [|done].
  rewrite bind_Return. unfold region_rows in Hr.
  destruct (getitem year_data "Country") as [col|] eqn:Hcol; [|done].
  apply getitem_Return in Hcol as Hc. rewrite bind_Return in Hr. injection Hr as <-.
  fold (in_region countries (rows year_data)).
  rewrite (empty_in_region _ _ Hc). cbn [List.filter snd].
  destruct (bool_decide (in_region countries (rows year_data) = [])); cbn [negb].
  - apply IH.
  - destruct (getitem _ "Value") as [values|] eqn:Hv; [|done]. rewrite bind_Return.
    apply getitem_Return in Hv as Hvin. rewrite (getitem_elem _ _ Hvin) in Hv.
    injection Hv as <-. cbn [rows].
    destruct (mean _) as [avg|] eqn:Hmean; [|done]. rewrite bind_Return.
    destruct (regional_averages mean year_data regions) as [rest|]; [|done].
    rewrite bind_Return. intros [= <-]. constructor; [|by apply IH].
    by split.
Qed.

Lemma plot_regional_comparison_selected df year :
  plot_regional_comparison mean df year
  = (selected ← selected_rows df year;
     match selected with
     | None => Return None
     | Some (year, year_data) =>
         regional_avgs ← regional_averages mean year_data regions;
         match regional_avgs with
         | [] => Raise (KeyError "Region")
         | _ => Return (Some {| regional_year := year;
                                regional_bars := regional_avgs |})
         end
     end).
Proof.
  unfold plot_regional_comparison, selected_rows.
  destruct (rows_of_year df year) as [yd|]; [|done]. rewrite !bind_Return.
  destruct (Frame.empty yd); [|done].
  destruct (getitem df "Year") as [years|]; [|done]. rewrite !bind_Return.
  destruct (sorted _) as [[|a available]|]; [done| |done]. rewrite !bind_Return.
  destruct (last_item _) as [latest|]; [|done]. rewrite !bind_Return.
  destruct (rows_of_year df latest) as [yd'|]; done.
Qed.

(** X21.  When the rows of the requested year belong to none of the
    countries listed under the six regions, a table of Namibia alone for
    example, [plot_regional_comparison] raises [KeyError]: the frame of
    the averages has no Region column. *)
Theorem plot_regional_comparison_no_region df year :
  "Year" ∈ columns df → "Country" ∈ columns df →
  of_year df year ≠ [] →
  Forall (λ rc, in_region rc.2 (of_year df year) = []) regions →
  plot_regional_comparison mean df year = Raise (KeyError "Region").
Proof.
  intros Hy Hc Hne Hnone.
  unfold plot_regional_comparison, rows_of_year.
  rewrite (getitem_elem _ _ Hy), !bind_Return. fold (of_year df year).
  rewrite (empty_of_year _ _ Hy), bool_decide_eq_false_2 by done.
  rewrite bind_Return.
  by rewrite (regional_averages_none {| columns := columns df;
                                         rows := of_year df year |} regions Hc Hnone).
Qed.

(** X22.  Whatever chart [plot_regional_comparison] draws, it has one
    bar for each region with a row of the chart's year, in the order North
    America, Europe, Asia, Africa, South America, Oceania, and the bar of a
    region is the mean of the values of the rows of its listed countries:
    the rows of other countries count for nothing. *)
Theorem plot_regional_comparison_bars df year ch :
  plot_regional_comparison mean df year = Return (Some ch) →
  (of_year df year ≠ [] → regional_year ch = year) ∧
  regional_bars ch ≠ [] ∧
  Forall2 (λ rc bar,
             bar.1 = rc.1 ∧
             mean ((λ r, at_ r "Value")
                     <$> in_region rc.2 (of_year df (regional_year ch)))
             = Return bar.2)
    (List.filter
       (λ rc, negb (bool_decide (in_region rc.2 (of_year df (regional_year ch)) = [])))
       regions)
    (regional_bars ch).
Proof.
  rewrite plot_regional_comparison_selected.
  destruct (selected_rows df year) as [[[selected year_data]|]|] eqn:Hsel; [|done|done].
  rewrite bind_Return.
  apply selected_rows_Return in Hsel as (Hy & -> & Hsame).
  destruct (regional_averages _ _ _) as [avgs|] eqn:Havgs; [|done].
  rewrite bind_Return. destruct avgs as [|bar avgs]; [done|].
  intros [= <-]. cbn [regional_year regional_bars].
  split; [done|]. split; [done|].
  by apply regional_averages_Return in Havgs.
Qed.
End RegionalChart.

(** *** The Cleaner's names and the regions *)

Section CleanedRegions.
Import Store Cleaner Visualizer.
Variable parse_float : string → option Qc.

Lemma in_region_ext (f g : list string) (l : list (gmap string cell)) :
  Forall (λ r, isin f (at_ r "Country") = isin g (at_ r "Country")) l →
  in_region f l = in_region g l.
Proof.
  induction 1 as [|r l Hr _ IH]; [done|].
  unfold in_region in *. cbn [List.filter]. by rewrite Hr, IH.
Qed.

(** X23.  The Cleaner and the Visualizer disagree on one name: the
    Cleaner writes "United States of America" for "United States", "USA"
    and "US", the region table lists "United States".  So no row of a
    table [clean_data] returns is a row of "United States", and for every
    year the rows counted for North America are those of Canada and Mexico
    alone. *)
Theorem cleaned_united_states_left_out now (h : heap) l d l' h' :
  h !! l = Some d →
  clean_data parse_float now (Some l) h = (Return (Some l'), h') →
  ∃ out, h' !! l' = Some out ∧
    Forall (λ r, at_ r "Country" ≠ Str "United States") (rows out) ∧
    ∀ year, in_region ["United States"; "Canada"; "Mexico"] (of_year out year)
            = in_region ["Canada"; "Mexico"] (of_year out year).
Proof.
  intros H Hrun.
  destruct (clean_data_output parse_float now h l d l' h' H Hrun)
    as (Hco & out & lab & Hout & Hrows & Hlab).
  exists out. split; [done|].
  assert (Hus : Forall (λ r, at_ r "Country" ≠ Str "United States") (rows out)).
  { rewrite Hrows. apply Forall_fmap, Forall_forall.
    intros r [Hr _]%keep_first_fresh.
    apply list_elem_of_fmap in Hr as (r0 & -> & _). simpl.
    assert (at_ (lab (clean_row parse_float now (bool_decide ("Year" ∈ columns d)) r0))
              "Country"
            = replace_cell country_mapping
                (fillna_cell (Str "Unknown") (at_ r0 "Country"))) as ->.
    { destruct Hlab as [(s & _ & _ & -> & _)|(-> & _ & _)].
      - rewrite label_row_other by not_in_list. apply clean_row_Country.
      - apply clean_row_Country. }
    destruct (at_ r0 "Country") as [|q|s]; cbn [fillna_cell replace_cell]; try done.
    destruct (assoc s country_mapping) as [v|] eqn:Hs.
    - intros [= ->]. by apply country_mapping_range in Hs.
    - intros [= ->]. done. }
  split; [done|]. intros year. apply in_region_ext.
  apply Forall_forall. intros r [Hr _]%list_elem_of_In%filter_In.
  rewrite Forall_forall in Hus. apply list_elem_of_In, Hus in Hr.
  unfold isin. destruct (at_ r "Country") as [|q|s]; [done|done|].
  apply bool_decide_ext. rewrite !elem_of_cons. split; [|tauto].
  intros [->|Hs]; [done|tauto].
Qed.
End CleanedRegions.

(** *** The file [load_processed_data] reads *)

Section LatestFile.
Import Visualizer.

(** The last of the sorted names is a name of the list, and no name of
    the list comes after it. *)
Lemma sorted_names_last files :
  files ≠ [] →
  ∃ ordered name,
    sorted (Str <$> files) = Return ordered ∧ last_item ordered = Return (Str name) ∧
    name ∈ files ∧ Forall (λ f, String.ltb name f = false) files.
Proof.
  intros Hne.
  assert (Htexts : Forall (λ x, is_text x = true) (Str <$> files)).
  { apply Forall_fmap, Forall_forall. done. }
  destruct (sorted_texts _ Htexts) as (ordered & Hsorted & Hperm & Hstrong).
  destruct (last ordered) as [m|] eqn:Hlast.
  2:{ apply last_None in Hlast. subst ordered.
      apply Permutation_nil_l in Hperm. apply (f_equal length) in Hperm.
      rewrite length_fmap in Hperm. destruct files; done. }
  assert (Hm : m ∈ Str <$> files).
  { rewrite <-Hperm. apply last_Some in Hlast as [init ->].
    apply elem_of_app. right. by left. }
  apply list_elem_of_fmap in Hm as (name & -> & Hname).
  exists ordered, name. split; [done|]. split.
  { unfold last_item. by rewrite Hlast. }
  split; [done|].
  assert (Hmax : Forall (λ x, le_text x (Str name)) ordered).
  { apply last_sorted_texts; [by rewrite Hperm|done|done]. }
  apply Forall_forall. intros f Hf. rewrite Forall_forall in Hmax.
  apply (Hmax (Str f)). rewrite Hperm. apply list_elem_of_fmap. eauto.
Qed.

(** X24.  Among the entries of the directory named
    [cleaned_data_....csv], [load_processed_data] reads the one that is
    last in the order of the texts; without such an entry it reads
    nothing. *)
Theorem load_processed_data_greatest listing :
  match processed_files listing with
  | [] => load_processed_data listing = Return None
  | _ =>
      ∃ name, load_processed_data listing = Return (Some (INPUT_DIR +:+ "/" +:+ name)) ∧
              name ∈ processed_files listing ∧
              Forall (λ f, String.ltb name f = false) (processed_files listing)
  end.
Proof.
  unfold load_processed_data.
  destruct (processed_files listing) as [|f files] eqn:Hfiles; [done|].
  destruct (sorted_names_last (f :: files)) as (ordered & name & Hs & Hl & Hin & Hmax);
    [done|].
  exists name. by rewrite Hs, bind_Return, Hl, bind_Return.
Qed.

Lemma startswith_app p s : startswith p (p +:+ s) = true.
Proof.
  induction p as [|a p IH]; [by destruct s|]. simpl. by rewrite decide_True.
Qed.

Lemma string_compare_app p s t :
  String.compare (p +:+ s) (p +:+ t) = String.compare s t.
Proof.
  induction p as [|a p IH]; [done|]. simpl.
  unfold Ascii.compare. by rewrite N.compare_refl.
Qed.

(** A snapshot named by its time comes before the latest one. *)
Lemma timestamped_before_latest f :
  timestamped f → String.ltb f "cleaned_data_latest.csv" = true.
Proof.
  intros (d & rest & -> & Hd). unfold String.ltb.
  change "cleaned_data_latest.csv" with ("cleaned_data_" +:+ "latest.csv").
  rewrite string_compare_app. cbn [String.compare].
  assert (Ascii.compare d "l" = Lt) as ->; [|done].
  unfold Ascii.compare. apply N.compare_lt_iff.
  change (N_of_ascii "l") with 108%N.
  unfold nat_of_ascii in Hd. lia.
Qed.

(** X25.  With the names the Cleaner writes, the Visualizer reads the
    latest snapshot: when the directory holds [cleaned_data_latest.csv]
    and its other cleaned snapshots are named by their time, the file
    [load_processed_data] reads is [cleaned_data_latest.csv], whatever
    the number and the times of the others. *)
Theorem load_processed_data_latest listing :
  "cleaned_data_latest.csv" ∈ listing →
  Forall (λ f, f = "cleaned_data_latest.csv" ∨ timestamped f) (processed_files listing) →
  load_processed_data listing = Return (Some "data/processed/cleaned_data_latest.csv").
Proof.
  intros Hlatest Hnames.
  assert (Hin : "cleaned_data_latest.csv" ∈ processed_files listing).
  { unfold processed_files. apply list_elem_of_In, filter_In.
    split; [by apply list_elem_of_In|]. vm_compute. reflexivity. }
  unfold load_processed_data.
  destruct (processed_files listing) as [|f files] eqn:Hfiles.
  { by apply elem_of_nil in Hin. }
  destruct (sorted_names_last (f :: files)) as (ordered & name & Hs & Hl & Hname & Hmax);
    [done|].
  rewrite Hs, bind_Return, Hl, bind_Return.
  rewrite Forall_forall in Hnames, Hmax.
  destruct (Hnames name Hname) as [->|Hstamp]; [reflexivity|].
  apply timestamped_before_latest in Hstamp.
  by rewrite (Hmax _ Hin) in Hstamp.
Qed.
End LatestFile.

(** *** The charts of [main] *)

Section MainCharts.
Import Visualizer.
Variable mean : list cell → outcome cell.
Variable plot_global_trend : DataFrame → outcome unit.

(** What [main] comes to on a table of numbered years. *)
Lemma main_calls df :
  Frame.empty df = false → "Year" ∈ columns df →
  Forall (λ r, is_number (at_ r "Year") = true) (rows df) →
  ∃ latest,
    of_year df latest ≠ [] ∧
    Forall (λ r, le_number (at_ r "Year") latest) (rows df) ∧
    main mean plot_global_trend (Some df)
    = (plot_global_trend df;;
       top ← plot_top_countries df latest 10;
       regional ← plot_regional_comparison mean df latest;
       Return (Some {| top_countries := top; regional_comparison := regional |})).
Proof.
  intros Hne Hy Hyears.
  assert (Hrows : rows df ≠ []).
  { unfold Frame.empty in Hne. apply orb_false_elim in Hne as [_ Hne].
    by apply bool_decide_eq_false in Hne. }
  destruct (latest_year df Hy Hrows Hyears)
    as (available & latest & Hsorted & Havail & Hlast & Hof & Hmax).
  exists latest. split; [done|]. split; [done|].
  unfold main. rewrite Hne.
  destruct (plot_global_trend df) as [u|e]; [|done]. rewrite !bind_Return.
  rewrite (getitem_elem _ _ Hy), bind_Return, Hsorted, bind_Return.
  destruct available as [|a available]; [done|].
  by rewrite Hlast, bind_Return.
Qed.

(** X26.  On a table whose years are all numbers, [main] asks both
    charts for the latest year of the table, a year the table has rows
    of: what [main] returns or raises is what [plot_global_trend] and then
    the two calls for that year return or raise, and the charts it returns
    are charts of that year. *)
Theorem main_latest_year df :
  Frame.empty df = false → "Year" ∈ columns df →
  Forall (λ r, is_number (at_ r "Year") = true) (rows df) →
  ∃ latest,
    of_year df latest ≠ [] ∧
    Forall (λ r, le_number (at_ r "Year") latest) (rows df) ∧
    main mean plot_global_trend (Some df)
    = (plot_global_trend df;;
       top ← plot_top_countries df latest 10;
       regional ← plot_regional_comparison mean df latest;
       Return (Some {| top_countries := top; regional_comparison := regional |})) ∧
    (∀ result,
        main mean plot_global_trend (Some df) = Return result →
        ∃ top regional,
          result = Some {| top_countries := Some top;
                           regional_comparison := Some regional |} ∧
          chart_year top = latest ∧ regional_year regional = latest).
Proof.
  intros Hne Hy Hyears.
  destruct (main_calls df Hne Hy Hyears) as (latest & Hof & Hmax & Hmain).
  exists latest. split; [done|]. split; [done|]. split; [done|].
  intros result. rewrite Hmain.
  destruct (plot_global_trend df) as [u|e]; [|done]. rewrite !bind_Return.
  rewrite plot_top_countries_selected, plot_regional_comparison_selected.
  rewrite (selected_rows_present df latest Hy Hof), !bind_Return.
  destruct (sort_values_descending _) as [ordered|]; [|done].
  rewrite bind_Return. cbn zeta.
  destruct (getitem (head ordered 10) "Country"); [|done]. rewrite bind_Return.
  destruct (getitem (head ordered 10) "Value"); [|done]. rewrite !bind_Return.
  destruct (barh _ _) as [[]|]; [|done]. rewrite !bind_Return.
  destruct (regional_averages _ _ _) as [[|bar avgs]|]; [done| |done].
  rewrite !bind_Return. intros [= <-]. eexists _, _. split; [reflexivity|done].
Qed.

(** X27.  No call of [main] is guarded, and on a table of numbered years
    none of whose countries is listed under a region, a table of Namibia
    alone for example, [main] never returns: it ends in what
    [plot_global_trend] or [plot_top_countries] raises, or else in the
    [KeyError] of [plot_regional_comparison]. *)
Theorem main_unlisted_countries df :
  Frame.empty df = false → "Year" ∈ columns df → "Country" ∈ columns df →
  Forall (λ r, is_number (at_ r "Year") = true) (rows df) →
  Forall (λ r, Forall (λ rc, isin rc.2 (at_ r "Country") = false) regions) (rows df) →
  ∃ latest,
    of_year df latest ≠ [] ∧
    main mean plot_global_trend (Some df)
    = (plot_global_trend df;; plot_top_countries df latest 10;;
       Raise (KeyError "Region")).
Proof.
  intros Hne Hy Hc Hyears Hnone.
  destruct (main_calls df Hne Hy Hyears) as (latest & Hof & Hmax & Hmain).
  exists latest. split; [done|]. rewrite Hmain.
  assert (Hreg : plot_regional_comparison mean df latest = Raise (KeyError "Region")).
  { rewrite plot_regional_comparison_selected.
    rewrite (selected_rows_present df latest Hy Hof), bind_Return.
    rewrite (regional_averages_none mean
               {| columns := columns df; rows := of_year df latest |} regions Hc);
      [done|].
    apply Forall_forall. intros rc Hrc. cbn [rows]. apply filter_none.
    apply Forall_forall. intros r [Hr _]%list_elem_of_In%filter_In.
    rewrite Forall_forall in Hnone. apply list_elem_of_In, Hnone in Hr.
    rewrite Forall_forall in Hr. by apply Hr. }
  rewrite Hreg.
  destruct (plot_global_trend df) as [u|e]; [|done]. rewrite !bind_Return.
  by destruct (plot_top_countries df latest 10).
Qed.
End MainCharts.

(** *** These properties on sample tables *)

Section VisualizerMoreExamples.
Import Store Cleaner Visualizer Examples.

Lemma plot_top_countries_falls_back_witness :
  ∃ latest ch,
    of_year three_countries latest ≠ [] ∧
    Forall (λ r, le_number (at_ r "Year") latest) (rows three_countries) ∧
    plot_top_countries three_countries (whole 2024) 10 = Return (Some ch) ∧
    chart_year ch = latest ∧ chart_n ch = 10%Z ∧
    ∃ top rest,
      bars ch = (λ r, (at_ r "Country", at_ r "Value")) <$> top ∧
      top ++ rest ≡ₚ of_year three_countries latest ∧
      descending (top ++ rest) ∧
      length top = head_length 10 (length (of_year three_countries latest)).
Proof.
  apply (plot_top_countries_falls_back three_countries (whole 2024) 10).
  - in_list.
  - in_list.
  - in_list.
  - done.
  - repeat (apply Forall_cons_2; [vm_compute; reflexivity|]). apply Forall_nil_2.
  - repeat (apply Forall_cons_2; [vm_compute; reflexivity|]). apply Forall_nil_2.
  - repeat (apply Forall_cons_2; [vm_compute; reflexivity|]). apply Forall_nil_2.
  - repeat (apply Forall_cons_2; [vm_compute; reflexivity|]). apply Forall_nil_2.
Defined.

Lemma plot_top_countries_chart_witness :
  chart_n top_two_of_2020 = 2%Z ∧
  (Exists (λ r, eq_cell (at_ r "Year") (whole 2020) = true) (rows three_countries) →
     chart_year top_two_of_2020 = whole 2020) ∧
  ∃ top rest,
    bars top_two_of_2020 = (λ r, (at_ r "Country", at_ r "Value")) <$> top ∧
    top ++ rest ≡ₚ of_year three_countries (chart_year top_two_of_2020) ∧
    descending (top ++ rest) ∧
    length top
    = head_length 2 (length (of_year three_countries (chart_year top_two_of_2020))).
Proof.
  apply (plot_top_countries_chart three_countries (whole 2020) 2 top_two_of_2020).
  vm_compute. reflexivity.
Defined.

Lemma plot_top_countries_requested_year_witness :
  ∃ ch, plot_top_countries three_countries (whole 2019) 10 = Return (Some ch) ∧
        chart_year ch = whole 2019.
Proof.
  apply (plot_top_countries_requested_year three_countries (whole 2019) 10).
  - in_list.
  - in_list.
  - in_list.
  - apply Exists_cons_tl, Exists_cons_hd. vm_compute. reflexivity.
  - apply Forall_forall. intros r [Hr _]%list_elem_of_In%filter_In.
    apply list_elem_of_In in Hr.
    repeat (apply elem_of_cons in Hr as [->|Hr]; [vm_compute; reflexivity|]).
    by apply elem_of_nil in Hr.
  - apply Forall_forall. intros r [Hr _]%list_elem_of_In%filter_In.
    apply list_elem_of_In in Hr.
    repeat (apply elem_of_cons in Hr as [->|Hr]; [vm_compute; reflexivity|]).
    by apply elem_of_nil in Hr.
Defined.

Lemma plot_top_countries_missing_column_witness :
  plot_top_countries year_without_value (whole 2020) 10 = Raise (KeyError "Value").
Proof.
  apply (plot_top_countries_missing_column year_without_value (whole 2020) 10 "Value"
           ["Country"]).
  - apply of_year_nonempty, Exists_cons_hd. vm_compute. reflexivity.
  - apply Forall_forall. intros r [Hr _]%list_elem_of_In%filter_In.
    apply list_elem_of_In in Hr.
    repeat (apply elem_of_cons in Hr as [->|Hr]; [vm_compute; reflexivity|]).
    by apply elem_of_nil in Hr.
  - reflexivity.
Defined.

Lemma plot_regional_comparison_no_region_witness :
  plot_regional_comparison first_value namibia_alone (whole 2020)
  = Raise (KeyError "Region").
Proof.
  apply (plot_regional_comparison_no_region first_value namibia_alone (whole 2020)).
  - in_list.
  - in_list.
  - apply of_year_nonempty, Exists_cons_tl, Exists_cons_hd. vm_compute. reflexivity.
  - repeat (apply Forall_cons_2; [vm_compute; reflexivity|]). apply Forall_nil_2.
Defined.

Lemma plot_regional_comparison_bars_witness :
  (of_year three_countries (whole 2020) ≠ [] → regional_year regions_of_2020 = whole 2020) ∧
  regional_bars regions_of_2020 ≠ [] ∧
  Forall2 (λ rc bar,
             bar.1 = rc.1 ∧
             first_value ((λ r, at_ r "Value")
                            <$> in_region rc.2
                                  (of_year three_countries (regional_year regions_of_2020)))
             = Return bar.2)
    (List.filter
       (λ rc, negb (bool_decide
                      (in_region rc.2
                         (of_year three_countries (regional_year regions_of_2020)) = [])))
       regions)
    (regional_bars regions_of_2020).
Proof.
  apply (plot_regional_comparison_bars first_value three_countries (whole 2020)
           regions_of_2020).
  vm_compute. reflexivity.
Defined.

Lemma cleaned_united_states_left_out_witness :
  ∃ out, (clean_data Literal.decimal now (Some 1%positive) (store_of households)).2
           !! 3%positive = Some out ∧
    Forall (λ r, at_ r "Country" ≠ Str "United States") (rows out) ∧
    ∀ year, in_region ["United States"; "Canada"; "Mexico"] (of_year out year)
            = in_region ["Canada"; "Mexico"] (of_year out year).
Proof.
  apply (cleaned_united_states_left_out Literal.decimal now (store_of households)
           1%positive households).
  - reflexivity.
  - apply households_run.
Defined.

Lemma load_processed_data_latest_witness :
  load_processed_data processed_dir = Return (Some "data/processed/cleaned_data_latest.csv").
Proof.
  apply (load_processed_data_latest processed_dir).
  - in_list.
  - change (processed_files processed_dir)
      with [ "cleaned_data_20240101_000000.csv"; "cleaned_data_latest.csv";
             "cleaned_data_20240630_120000.csv" ].
    apply Forall_cons_2.
    { right. exists "2"%char, "0240101_000000.csv". split; [reflexivity|vm_compute; lia]. }
    apply Forall_cons_2; [by left|].
    apply Forall_cons_2; [|apply Forall_nil_2].
    right. exists "2"%char, "0240630_120000.csv". split; [reflexivity|vm_compute; lia].
Defined.
End VisualizerMoreExamples.

Section MainExamples.
Import Visualizer Examples.

Lemma main_latest_year_witness :
  ∃ latest,
    of_year three_countries latest ≠ [] ∧
    Forall (λ r, le_number (at_ r "Year") latest) (rows three_countries) ∧
    main first_value trend_drawn (Some three_countries)
    = (trend_drawn three_countries;;
       top ← plot_top_countries three_countries latest 10;
       regional ← plot_regional_comparison first_value three_countries latest;
       Return (Some {| top_countries := top; regional_comparison := regional |})) ∧
    (∀ result,
        main first_value trend_drawn (Some three_countries) = Return result →
        ∃ top regional,
          result = Some {| top_countries := Some top;
                           regional_comparison := Some regional |} ∧
          chart_year top = latest ∧ regional_year regional = latest).
Proof.
  apply (main_latest_year first_value trend_drawn three_countries).
  - reflexivity.
  - in_list.
  - repeat (apply Forall_cons_2; [vm_compute; reflexivity|]). apply Forall_nil_2.
Defined.

Lemma main_unlisted_countries_witness :
  ∃ latest,
    of_year namibia_alone latest ≠ [] ∧
    main first_value trend_drawn (Some namibia_alone)
    = (trend_drawn namibia_alone;; plot_top_countries namibia_alone latest 10;;
       Raise (KeyError "Region")).
Proof.
  apply (main_unlisted_countries first_value trend_drawn namibia_alone).
  - reflexivity.
  - in_list.
  - in_list.
  - repeat (apply Forall_cons_2; [vm_compute; reflexivity|]). apply Forall_nil_2.
  - repeat (apply Forall_cons_2;
            [repeat (apply Forall_cons_2; [vm_compute; reflexivity|]);
             apply Forall_nil_2|]).
    apply Forall_nil_2.
Defined.
End MainExamples.
